(** * hlca_lung_gpu_analysis-visualization: the notebook as a monadic program

    The notebook is a linear script of code cells.  Each cell is embedded as
    one definition ([cell_10], [cell_15], ...), numbered as in the notebook,
    in a state-and-error monad.  The state is the world the notebook runs in
    (file system, network, the objects of the kernel) and a log of the
    library calls made, each with the exception it raised, if any.

    The numerical libraries (scanpy, cuml, cupy and the numerical functions
    of rapids_scanpy_funcs) are a record of operations, [Libs], that the
    development is parametric in; each of them may raise.  The anndata
    container is modelled with the checks its constructor and setters make.
    Copies between device and host ([.get()], [.to_pandas()], [cp.array])
    do not change the data and are identities here.  The cells that only
    import modules and configure the GPU memory manager are not embedded. *)

From Stdlib Require Import ZArith QArith_base String.
From stdpp Require Import base option list gmap strings pretty.

Set Default Proof Using "Type".
Set Warnings "-abstract-large-number".
Open Scope string_scope.
Open Scope list_scope.
Open Scope nat_scope.
Open Scope stdpp_scope.

(** ** Python exceptions and results *)

Inductive exn : Type :=
| IndexError
| KeyError
| ValueError
| AttributeError
| FileExistsError
| IsADirectoryError
| FileNotFoundError
| URLError
| InvalidIndexError
| LibraryError (msg : string).

Inductive result (A : Type) : Type :=
| Ok (a : A)
| Err (e : exn).
Arguments Ok {A} a.
Arguments Err {A} e.

Definition raised {A} (r : result A) : option exn :=
  match r with Ok _ => None | Err e => Some e end.

(** ** The input cell and the parameter cell *)

Definition input_file : string := "../data/krasnow_hlca_10x.sparse.h5ad".
Definition data_dir : string := "../data".
Definition input_url : string :=
  "https://rapids-single-cell-examples.s3.us-east-2.amazonaws.com/krasnow_hlca_10x.sparse.h5ad".

Definition RIBO_GENE_PREFIX : string := "RPS".
Definition markers : list string := ["ACE2"; "TMPRSS2"; "EPCAM"].
Definition min_genes_per_cell : nat := 200.
Definition max_genes_per_cell : nat := 6000.
Definition n_top_genes : nat := 5000.
Definition n_components : nat := 50.
Definition n_neighbors : nat := 15.
Definition knn_n_pcs : nat := 50.
Definition umap_min_dist : Q := 3 # 10.
Definition umap_spread : Q := 1 # 1.

(** ** Keyword arguments of the clustering calls *)

Record pca_params := PcaParams {
  pca_n_components : nat;
  pca_output_type : option string }.

Record neighbors_params := NeighborsParams {
  nb_n_neighbors : nat;
  nb_n_pcs : nat;
  nb_method : string }.

Record umap_params := UmapParams {
  um_min_dist : Q;
  um_spread : Q;
  um_method : string }.

Record louvain_params := LouvainParams { lv_flavor : string }.

(** ** Library calls, as they appear in the log *)

Inductive event : Type :=
| E_os_path_exists (path : string)
| E_print (msg : string)
| E_print_value (expr : string)
| E_display (expr : string)
| E_os_makedirs (path : string)
| E_wget_download (url out : string)
| E_sc_read (path : string)
| E_filter_cells (min_genes max_genes : nat)
| E_filter_genes (min_cells : nat)
| E_normalize_total (target_sum : Q)
| E_log1p
| E_AnnData
| E_set_var_names
| E_set_obs_names
| E_set_obs_column (name : string)
| E_set_obsm (name : string)
| E_highly_variable_genes (n_top : nat) (flavor : string)
| E_getitem
| E_index0 (value : string)
| E_getcol
| E_regress_out
| E_scale (max_value : Z)
| E_PCA (p : pca_params)
| E_neighbors (p : neighbors_params)
| E_umap (p : umap_params)
| E_louvain (p : louvain_params)
| E_pl_umap (color : list string)
| E_Visualization_start (host : string)
| E_export.

Record entry := Entry { call : event; outcome : option exn }.

(** ** Series: values with index labels (cudf / pandas) *)

Definition Series (A : Type) : Type := list (nat * A).

Definition cudf_Series {A} (l : list A) : Series A := zip (seq 0 (length l)) l.
Definition to_pandas {A} (s : Series A) : list A := s.*2.
Definition reset_index {A} (s : Series A) : Series A := cudf_Series (to_pandas s).

(** [genes[genes == marker]] *)
Definition series_eq (marker : string) (s : Series string) : Series string :=
  filter (λ p, p.2 = marker) s.

(** [.index[0]] *)
Definition index0 {A} (s : Series A) : result nat :=
  match s with
  | [] => Err IndexError
  | p :: _ => Ok p.1
  end.

(** Boolean-mask selection [l[mask]]. *)
Definition mask_select {A} (mask : list bool) (l : list A) : list A :=
  (filter (λ p, p.1 = true) (zip mask l)).*2.

(** ** The annotated data matrix and the external libraries *)

Section Notebook.

(** Matrix entries (float32 on the device) are kept abstract. *)
Context {val : Type}.

(** A matrix is the list of its rows. *)
Definition matrix : Type := list (list val).

Inductive column : Type :=
| NumCol (l : list val)
| StrCol (l : list string)
| BoolCol (l : list bool).

Definition column_length (c : column) : nat :=
  match c with
  | NumCol l => length l
  | StrCol l => length l
  | BoolCol l => length l
  end.

(** [graph] stands for the values scanpy keeps under [uns], which the
    notebook never looks into: the record of the neighbourhood graph, the
    parameters of the embedding and of the clustering, the flavour of the
    gene selection, the colours of a plot. *)
Context {graph : Type}.

Record AnnData := mkAnnData {
  X : matrix;
  obs_names : list string;
  var_names : list string;
  obs : gmap string column;
  var : gmap string column;
  obsm : gmap string matrix;
  uns : gmap string graph;
  (** square matrices over the cells *)
  obsp : gmap string matrix }.

(** What [sc.pp.highly_variable_genes] stores besides the flags. *)
Record hvg_stats := HvgStats {
  hvg_means : list val;
  hvg_dispersions : list val;
  hvg_dispersions_norm : list val;
  hvg_uns : graph }.

Definition n_obs (a : AnnData) : nat := length (obs_names a).
Definition n_vars (a : AnnData) : nat := length (var_names a).

(** The operations of the numerical libraries.  Each may raise.
    [normalize_total], [regress_out] and [scale] are functions of
    [rapids_scanpy_funcs], a module of the repository that is not among the
    sources; like the others they are parameters here. *)
Record Libs := {
  (** a stored (non-zero) entry of the sparse matrix *)
  expressed : val → bool;
  (** [numpy] sum of a row and division *)
  vsum : list val → val;
  vdiv : val → val → val;
  (** [x.shape[1]]: the number of columns of a matrix, which the list of
      its rows does not tell when there is no row *)
  n_cols : matrix → nat;
  (** [sc.read]: decoding of the bytes of an .h5ad file *)
  read_h5ad : string → result AnnData;
  normalize_total : Q → matrix → result matrix;
  log1p : matrix → result matrix;
  (** [sc.pp.highly_variable_genes]: the flags, and what the same call
      stores with them *)
  highly_variable_genes : nat → string → AnnData → result (list bool);
  highly_variable_stats : nat → string → AnnData → hvg_stats;
  regress_out : matrix → list val → list val → result matrix;
  scale : Z → matrix → result matrix;
  PCA_fit_transform : pca_params → matrix → result matrix;
  (** [sc.pp.neighbors]: the record kept under [uns], and the two sparse
      matrices it names *)
  neighbors : neighbors_params → AnnData → result graph;
  distances : graph → matrix;
  connectivities : graph → matrix;
  (** [sc.tl.umap]: the layout and the parameters kept under [uns] *)
  umap : umap_params → AnnData → result (matrix * graph);
  (** [sc.tl.louvain]: the labels and the parameters kept under [uns] *)
  louvain : louvain_params → AnnData → result (list string * graph);
  (** [sc.pl.umap]: the palette of each colour key *)
  plot_umap : AnnData → list string → result (list graph) }.

Context (L : Libs).

(** ** The world the notebook runs in *)

Inductive node : Type :=
| File (content : string)
| Dir.

Record state := mkState {
  fs : gmap string node;          (* the file system *)
  net : gmap string string;       (* what each URL serves *)
  heap : list AnnData;            (* the AnnData objects of the kernel *)
  log : list entry }.

Definition loc : Type := nat.

#[global] Instance AnnData_inhabited : Inhabited AnnData :=
  populate (mkAnnData [] [] [] ∅ ∅ ∅ ∅ ∅).

(** ** The state and exception monad *)

Definition M (A : Type) : Type := state → result A * state.

Definition ret {A} (a : A) : M A := λ s, (Ok a, s).

Definition bind {A B} (m : M A) (k : A → M B) : M B :=
  λ s, match m s with
       | (Ok a, s') => k a s'
       | (Err e, s') => (Err e, s')
       end.


Notation "'let*' x ':=' m 'in' k" := (bind m (λ x, k))
  (at level 10, x pattern, m at level 100, k at level 200,
   format "'[v' 'let*'  x  ':='  m  'in' '/' k ']'").

Definition record (ev : event) (o : option exn) (s : state) : state :=
  mkState (fs s) (net s) (heap s) (log s ++ [Entry ev o]).

(** A call that reads or changes the world; it is logged with its outcome. *)
Definition world_call {A} (ev : event) (f : state → result A * state) : M A :=
  λ s, let '(r, s') := f s in (r, record ev (raised r) s').

(** A call into a library that computes [r]. *)
Definition lib_call {A} (ev : event) (r : result A) : M A :=
  world_call ev (λ s, (r, s)).

(** Objects live in the heap; a Python variable holds a reference. *)
Definition alloc (a : AnnData) : M loc :=
  λ s, (Ok (length (heap s)), mkState (fs s) (net s) (heap s ++ [a]) (log s)).

Definition deref (r : loc) : M AnnData :=
  λ s, (Ok (heap s !!! r), s).

Definition store (r : loc) (a : AnnData) : M unit :=
  λ s, (Ok tt, mkState (fs s) (net s) (<[r := a]> (heap s)) (log s)).

(** [for x in l: body], threading an accumulator. *)
Fixpoint for_each {A B} (l : list A) (body : A → B → M B) (acc : B) : M B :=
  match l with
  | [] => ret acc
  | x :: l' => let* acc' := body x acc in for_each l' body acc'
  end.

(** ** The anndata container *)

(** [anndata.AnnData(X)]: default names are the positions. *)
Definition AnnData_new (x : matrix) : AnnData :=
  mkAnnData x (pretty <$> seq 0 (length x))
            (pretty <$> seq 0 (n_cols L x)) ∅ ∅ ∅ ∅ ∅.

(** [adata.var_names = names] *)
Definition with_var_names (names : list string) (a : AnnData) : result AnnData :=
  if decide (length names = n_vars a)
  then Ok (mkAnnData (X a) (obs_names a) names (obs a) (var a) (obsm a) (uns a)
                     (obsp a))
  else Err ValueError.

(** [adata.obs_names = names] *)
Definition with_obs_names (names : list string) (a : AnnData) : result AnnData :=
  if decide (length names = n_obs a)
  then Ok (mkAnnData (X a) names (var_names a) (obs a) (var a) (obsm a) (uns a)
                     (obsp a))
  else Err ValueError.

(** [adata.obs[name] = c] *)
Definition with_obs_column (name : string) (c : column) (a : AnnData) : result AnnData :=
  if decide (column_length c = n_obs a)
  then Ok (mkAnnData (X a) (obs_names a) (var_names a) (<[name := c]> (obs a))
                     (var a) (obsm a) (uns a) (obsp a))
  else Err ValueError.

(** [adata.var[name] = c] *)
Definition with_var_column (name : string) (c : column) (a : AnnData) : result AnnData :=
  if decide (column_length c = n_vars a)
  then Ok (mkAnnData (X a) (obs_names a) (var_names a) (obs a)
                     (<[name := c]> (var a)) (obsm a) (uns a) (obsp a))
  else Err ValueError.

(** [adata.obsm[name] = m] *)
Definition with_obsm (name : string) (m : matrix) (a : AnnData) : result AnnData :=
  if decide (length m = n_obs a)
  then Ok (mkAnnData (X a) (obs_names a) (var_names a) (obs a) (var a)
                     (<[name := m]> (obsm a)) (uns a) (obsp a))
  else Err ValueError.

(** [adata.obsp[name] = m]: a row and a column per cell. *)
Definition with_obsp (name : string) (m : matrix) (a : AnnData) : result AnnData :=
  if decide (length m = n_obs a ∧ n_cols L m = n_obs a)
  then Ok (mkAnnData (X a) (obs_names a) (var_names a) (obs a) (var a)
                     (obsm a) (uns a) (<[name := m]> (obsp a)))
  else Err ValueError.

Definition with_uns (name : string) (g : graph) (a : AnnData) : AnnData :=
  mkAnnData (X a) (obs_names a) (var_names a) (obs a) (var a) (obsm a)
            (<[name := g]> (uns a)) (obsp a).

Definition column_select (mask : list bool) (c : column) : column :=
  match c with
  | NumCol l => NumCol (mask_select mask l)
  | StrCol l => StrCol (mask_select mask l)
  | BoolCol l => BoolCol (mask_select mask l)
  end.

(** [adata[:, mask]] with a boolean mask over the genes. *)
Definition select_vars (mask : list bool) (a : AnnData) : result AnnData :=
  if decide (length mask = n_vars a)
  then Ok (mkAnnData (mask_select mask <$> X a) (obs_names a)
                     (mask_select mask (var_names a)) (obs a)
                     (column_select mask <$> var a) (obsm a) (uns a) (obsp a))
  else Err IndexError.

Definition index_of (names : list string) (b : string) : option nat :=
  fst <$> list_find (λ n, n = b) names.

Definition take_at {A} (idx : list nat) (l : list A) : list A :=
  omap (λ i, l !! i) idx.

Definition column_take (idx : list nat) (c : column) : column :=
  match c with
  | NumCol l => NumCol (take_at idx l)
  | StrCol l => StrCol (take_at idx l)
  | BoolCol l => BoolCol (take_at idx l)
  end.

(** [adata[barcodes, :]] with a list of cell names.  Looking names up needs
    the cell names of the object to be unique ([InvalidIndexError]
    otherwise), and every name asked for to be one of them ([KeyError]
    otherwise). *)
Definition select_obs (barcodes : list string) (a : AnnData) : result AnnData :=
  if decide (NoDup (obs_names a))
  then match mapM (index_of (obs_names a)) barcodes with
       | None => Err KeyError
       | Some idx =>
           Ok (mkAnnData (take_at idx (X a)) barcodes (var_names a)
                         (column_take idx <$> obs a) (var a)
                         (take_at idx <$> obsm a) (uns a)
                         ((λ m : matrix, take_at idx <$> take_at idx m) <$> obsp a))
       end
  else Err InvalidIndexError.

(** [m[:, j]].todense().ravel(): column [j] of a matrix. *)
Definition getcol (j : nat) (m : matrix) : result (list val) :=
  match mapM (λ row : list val, row !! j) m with
  | Some c => Ok c
  | None => Err IndexError
  end.

Definition rbind {A B} (r : result A) (k : A → result B) : result B :=
  match r with Ok a => k a | Err e => Err e end.

(** ** rapids_scanpy_funcs *)

(** Modelled from the spec: part of [rapids_scanpy_funcs.filter_cells], which
    is not among the sources: the number of genes expressed in a cell (the
    stored entries of its row). *)
Definition degree (row : list val) : nat :=
  length (filter (λ v, expressed L v = true) row).

(** Modelled from the spec: [rapids_scanpy_funcs.filter_cells] is a module of
    the repository that is not among the sources.  The parameter cell says
    "Filter out cells with fewer genes than this expressed" and "with more
    genes than this expressed"; the barcodes are filtered with the rows. *)
Definition filter_cells (x : matrix) (min_genes max_genes : nat)
    (barcodes : Series string) : matrix * Series string :=
  let query :=
    (λ row, bool_decide (min_genes ≤ degree row ∧ degree row ≤ max_genes)) <$> x in
  (mask_select query x, reset_index (mask_select query barcodes)).

(** Modelled from the spec: part of [rapids_scanpy_funcs.filter_genes], which
    is not among the sources: the number of cells in which gene [j] is
    expressed. *)
Definition n_cells_expressing (x : matrix) (j : nat) : nat :=
  length (filter (λ row : list val, expressed L <$> row !! j = Some true) x).

(** Modelled from the spec: [rapids_scanpy_funcs.filter_genes] is a module of
    the repository that is not among the sources.  The notebook says "Some
    genes will now have zero expression in all cells. We filter out such
    genes": a gene is kept when it is expressed in at least [min_cells] cells,
    and the gene names are filtered with the columns and re-indexed. *)
Definition filter_genes (x : matrix) (genes : Series string) (min_cells : nat)
    : matrix * Series string :=
  let thr :=
    (λ j, bool_decide (min_cells ≤ n_cells_expressing x j)) <$> seq 0 (length genes) in
  (mask_select thr <$> x, reset_index (mask_select thr genes)).

(** ** Library calls of the notebook *)

Definition os_path_exists (path : string) : M bool :=
  world_call (E_os_path_exists path)
    (λ s, (Ok (bool_decide (is_Some (fs s !! path))), s)).

(** [os.makedirs(path, exist_ok=True)] *)
Definition os_makedirs (path : string) : M unit :=
  world_call (E_os_makedirs path)
    (λ s, match fs s !! path with
          | Some (File _) => (Err FileExistsError, s)
          | _ => (Ok tt, mkState (<[path := Dir]> (fs s)) (net s) (heap s) (log s))
          end).

Definition wget_download (url out : string) : M string :=
  world_call (E_wget_download url out)
    (λ s, match net s !! url with
          | Some c => (Ok out, mkState (<[out := File c]> (fs s)) (net s) (heap s) (log s))
          | None => (Err URLError, s)
          end).

Definition py_print (msg : string) : M unit := lib_call (E_print msg) (Ok tt).

(** A cell whose last line is an expression shows its value. *)
Definition py_display (expr : string) : M unit := lib_call (E_display expr) (Ok tt).

Definition sc_read (path : string) : M loc :=
  let* a := world_call (E_sc_read path)
              (λ s, (match fs s !! path with
                     | Some (File c) => read_h5ad L c
                     | Some Dir => Err IsADirectoryError
                     | None => Err FileNotFoundError
                     end, s)) in
  alloc a.

Definition anndata_AnnData (x : matrix) : M loc :=
  let* a := lib_call E_AnnData (Ok (AnnData_new x)) in
  alloc a.

Definition set_var_names (adata : loc) (names : list string) : M unit :=
  let* a := deref adata in
  let* a' := lib_call E_set_var_names (with_var_names names a) in
  store adata a'.

Definition set_obs_names (adata : loc) (names : list string) : M unit :=
  let* a := deref adata in
  let* a' := lib_call E_set_obs_names (with_obs_names names a) in
  store adata a'.

Definition set_obs_column (adata : loc) (name : string) (c : result column) : M unit :=
  let* a := deref adata in
  let* a' := lib_call (E_set_obs_column name)
               (rbind c (λ c, with_obs_column name c a)) in
  store adata a'.

Definition set_obsm (adata : loc) (name : string) (m : matrix) : M unit :=
  let* a := deref adata in
  let* a' := lib_call (E_set_obsm name) (with_obsm name m a) in
  store adata a'.

(** What [sc.pp.highly_variable_genes] writes: the flavour under [uns], and
    four columns of [var]. *)
Definition with_highly_variable (hv : list bool) (st : hvg_stats) (a : AnnData)
    : result AnnData :=
  rbind (with_var_column "highly_variable" (BoolCol hv) (with_uns "hvg" (hvg_uns st) a))
  (λ a, rbind (with_var_column "means" (NumCol (hvg_means st)) a)
  (λ a, rbind (with_var_column "dispersions" (NumCol (hvg_dispersions st)) a)
  (λ a, with_var_column "dispersions_norm" (NumCol (hvg_dispersions_norm st)) a))).

(** [sc.pp.highly_variable_genes] annotates [adata.var] and [adata.uns] in
    place. *)
Definition sc_pp_highly_variable_genes (adata : loc) (n_top : nat) (flavor : string)
    : M unit :=
  let* a := deref adata in
  let* a' := lib_call (E_highly_variable_genes n_top flavor)
               (rbind (highly_variable_genes L n_top flavor a)
                      (λ hv, with_highly_variable hv
                               (highly_variable_stats L n_top flavor a) a)) in
  store adata a'.

(** [adata[:, adata.var.highly_variable]] is a new object. *)
Definition getitem_highly_variable (adata : loc) : M loc :=
  let* a := deref adata in
  let* a' := lib_call E_getitem
               (match var a !! "highly_variable" with
                | Some (BoolCol mask) => select_vars mask a
                | _ => Err KeyError
                end) in
  alloc a'.

Definition cuml_PCA_fit_transform (p : pca_params) (x : matrix) : M matrix :=
  lib_call (E_PCA p) (PCA_fit_transform L p x).

(** What [sc.pp.neighbors] writes: its record under [uns], and the
    distances and connectivities under [obsp]. *)
Definition with_neighbors (g : graph) (a : AnnData) : result AnnData :=
  rbind (with_obsp "distances" (distances L g) (with_uns "neighbors" g a))
  (λ a, with_obsp "connectivities" (connectivities L g) a).

(** [sc.pp.neighbors] annotates [adata.uns] and [adata.obsp] in place. *)
Definition sc_pp_neighbors (adata : loc) (p : neighbors_params) : M unit :=
  let* a := deref adata in
  let* a' := lib_call (E_neighbors p)
               (rbind (neighbors L p a) (λ g, with_neighbors g a)) in
  store adata a'.

(** [sc.tl.umap] stores the layout under [adata.obsm] and its parameters
    under [adata.uns]. *)
Definition sc_tl_umap (adata : loc) (p : umap_params) : M unit :=
  let* a := deref adata in
  let* a' := lib_call (E_umap p)
               (rbind (umap L p a)
                      (λ r, with_obsm "X_umap" r.1 (with_uns "umap" r.2 a))) in
  store adata a'.

(** [sc.tl.louvain] stores the labels under [adata.obs] and its parameters
    under [adata.uns]. *)
Definition sc_tl_louvain (adata : loc) (p : louvain_params) : M unit :=
  let* a := deref adata in
  let* a' := lib_call (E_louvain p)
               (rbind (louvain L p a)
                      (λ r, with_obs_column "louvain" (StrCol r.1)
                              (with_uns "louvain" r.2 a))) in
  store adata a'.

(** The palettes a plot leaves under [uns], one per colour key. *)
Definition with_colors (color : list string) (palettes : list graph) (a : AnnData)
    : AnnData :=
  foldr (λ cp a, with_uns (cp.1 +:+ "_colors") cp.2 a) a (zip color palettes).

(** [sc.pl.umap] draws, and keeps the colours it used under [adata.uns]. *)
Definition sc_pl_umap (adata : loc) (color : list string) : M unit :=
  let* a := deref adata in
  let* palettes := lib_call (E_pl_umap color) (plot_umap L a color) in
  store adata (with_colors color palettes a).

(** ** The code cells, in the order of the notebook *)

(** Input data *)
Definition cell_10 : M unit :=
  let* present := os_path_exists input_file in
  if negb present then
    let* _ := py_print "Downloading import file..." in
    let* _ := os_makedirs data_dir in
    let* _ := wget_download input_url input_file in
    ret tt
  else ret tt.

(** Load and Prepare Data *)
Definition cell_15 : M loc := sc_read input_file.

Definition cell_16 (adata : loc) : M unit := py_display "adata.shape".

Definition cell_17 (adata : loc) : M (Series string * Series string * matrix) :=
  let* a := deref adata in
  let genes := cudf_Series (var_names a) in
  let barcodes := cudf_Series (obs_names a) in
  let sparse_gpu_array := X a in
  ret (genes, barcodes, sparse_gpu_array).

(** Filter *)
Definition cell_21 (sparse_gpu_array : matrix) (barcodes : Series string)
    : M (matrix * Series string) :=
  lib_call (E_filter_cells min_genes_per_cell max_genes_per_cell)
    (Ok (filter_cells sparse_gpu_array min_genes_per_cell max_genes_per_cell barcodes)).

Definition cell_23 (sparse_gpu_array : matrix) (genes : Series string)
    : M (matrix * Series string) :=
  lib_call (E_filter_genes 1) (Ok (filter_genes sparse_gpu_array genes 1)).

Definition cell_25 : M unit := py_display "sparse_gpu_array.shape".

(** Normalize *)
Definition cell_28 (sparse_gpu_array : matrix) : M matrix :=
  lib_call (E_normalize_total (10000 # 1)) (normalize_total L (10000 # 1) sparse_gpu_array).

Definition cell_30 (sparse_gpu_array : matrix) : M matrix :=
  lib_call E_log1p (log1p L sparse_gpu_array).

(** Select Most Variable Genes *)
Definition cell_33 (sparse_gpu_array : matrix) (genes : Series string) : M loc :=
  let* adata := anndata_AnnData sparse_gpu_array in
  let* _ := set_var_names adata (to_pandas genes) in
  ret adata.

Definition cell_35 (adata : loc) : M loc :=
  let* _ := sc_pp_highly_variable_genes adata n_top_genes "cell_ranger" in
  getitem_highly_variable adata.

(** Regress out confounding factors *)
Definition cell_38 (sparse_gpu_array : matrix) (genes : Series string)
    : M (gmap string (list val)) :=
  let tmp_norm := sparse_gpu_array in
  for_each markers
    (λ marker raw_marker_expressions,
       let* j := lib_call (E_index0 marker) (index0 (series_eq marker genes)) in
       let* c := lib_call E_getcol (getcol j tmp_norm) in
       ret (<[marker := c]> raw_marker_expressions))
    ∅.

Definition cell_40 (adata : loc) : M (list string * list val * list val) :=
  let* a := deref adata in
  let genes := var_names a in
  let ribo_genes := String.prefix RIBO_GENE_PREFIX <$> var_names a in
  let n_counts := vsum L <$> X a in
  let percent_ribo :=
    zip_with (vdiv L) (vsum L <$> (mask_select ribo_genes <$> X a)) n_counts in
  ret (genes, n_counts, percent_ribo).

Definition cell_42 (adata : loc) (n_counts percent_ribo : list val) : M matrix :=
  let* a := deref adata in
  let sparse_gpu_array := X a in
  lib_call E_regress_out (regress_out L sparse_gpu_array n_counts percent_ribo).

(** Scale *)
Definition cell_45 (sparse_gpu_array : matrix) : M matrix :=
  lib_call (E_scale 10) (scale L 10 sparse_gpu_array).

(** Cluster & Visualize *)
Definition cell_48 (sparse_gpu_array : matrix) (genes : list string)
    (barcodes : Series string) (raw_marker_expressions : gmap string (list val))
    : M loc :=
  let* adata := anndata_AnnData sparse_gpu_array in
  let* _ := set_var_names adata genes in
  let* _ := set_obs_names adata (to_pandas barcodes) in
  let* _ := for_each markers
              (λ marker _,
                 set_obs_column adata (marker +:+ "_raw")
                   (match raw_marker_expressions !! marker with
                    | Some c => Ok (NumCol c)
                    | None => Err KeyError
                    end))
              tt in
  ret adata.

(** Reduce *)
Definition cell_51 (adata : loc) : M unit :=
  let* a := deref adata in
  let* pcs := cuml_PCA_fit_transform (PcaParams n_components (Some "numpy")) (X a) in
  set_obsm adata "X_pca" pcs.

(** UMAP + Louvain *)
Definition cell_54 (adata : loc) : M unit :=
  sc_pp_neighbors adata (NeighborsParams n_neighbors knn_n_pcs "rapids").

Definition cell_56 (adata : loc) : M unit :=
  sc_tl_umap adata (UmapParams umap_min_dist umap_spread "rapids").

Definition cell_58 (adata : loc) : M unit :=
  sc_tl_louvain adata (LouvainParams "rapids").

Definition cell_60 (adata : loc) : M unit := sc_pl_umap adata ["louvain"].

(** Defining re-clustering function for interactive visualization *)
Definition re_cluster (adata : loc) : M loc :=
  let* a := deref adata in
  let* pcs := cuml_PCA_fit_transform (PcaParams n_components None) (X a) in
  let* _ := set_obsm adata "X_pca" pcs in
  let* _ := sc_pp_neighbors adata (NeighborsParams n_neighbors knn_n_pcs "rapids") in
  let* _ := sc_tl_umap adata (UmapParams umap_min_dist umap_spread "rapids") in
  let* _ := sc_tl_louvain adata (LouvainParams "rapids") in
  ret adata.

(** ** The dashboard *)

(** Modelled from the spec: the dashboard of [visualize.Visualization] is not
    among the sources.  What the user does in the browser while [v.start] is
    serving: select cells, re-cluster the selection, export it. *)
Inductive user_action : Type :=
| Select (barcodes : list string)
| Recluster
| Export.

(** Modelled from the spec: a row of the table that [visualize.Visualization]
    exports, with the two columns the notebook uses, [barcode] and [labels]. *)
Record DataFrameRow := mkRow { barcode : string; labels : string }.
Definition DataFrame : Type := list DataFrameRow.

(** Modelled from the spec: [visualize.Visualization] is a module of the
    repository that is not among the sources.  The export is "an exported
    in-memory table of user-selected cells with assigned cluster labels": one
    row per selected cell, with its barcode and its Louvain label. *)
Definition export_table (selection : list string) (a : AnnData) : result DataFrame :=
  match obs a !! "louvain" with
  | Some (StrCol lab) =>
      match mapM (λ b, i ← index_of (obs_names a) b; mkRow b <$> lab !! i) selection with
      | Some rows => Ok rows
      | None => Err KeyError
      end
  | _ => Err KeyError
  end.

(** Modelled from the spec: the "interactive selection/export loop" of
    [visualize.Visualization], absent from the sources.  The user selects
    cells, may "re-cluster on a user-selected subset" through the callback
    any number of times, and may export, which "closes the interactive
    dashboard".  The result is [v.new_df], [None] when nothing was exported. *)
Fixpoint dashboard (re_cluster_callback : loc → M loc) (script : list user_action)
    (current : loc) (selection : list string) : M (option DataFrame) :=
  match script with
  | [] => ret None
  | Select barcodes :: script' =>
      dashboard re_cluster_callback script' current barcodes
  | Recluster :: script' =>
      let* a := deref current in
      let* sub := lib_call E_getitem (select_obs selection a) in
      let* subset := alloc sub in
      let* current' := re_cluster_callback subset in
      dashboard re_cluster_callback script' current' selection
  | Export :: _ =>
      let* a := deref current in
      let* df := lib_call E_export (export_table selection a) in
      ret (Some df)
  end.

(** Modelled from the spec: [visualize.Visualization] is not among the
    sources.  [v = visualize.Visualization(adata, markers,
    re_cluster_callback=...)] followed by [v.start(host)]: the dashboard
    starts on the whole object with every cell selected, and serves until the
    user exports or leaves. *)
Definition Visualization_start (adata : loc) (markers : list string)
    (re_cluster_callback : loc → M loc) (host : string)
    (script : list user_action) : M (option DataFrame) :=
  let* _ := lib_call (E_Visualization_start host) (Ok tt) in
  let* a := deref adata in
  dashboard re_cluster_callback script adata (obs_names a).

(** Creating an interactive visualization with Plotly Dash *)
Definition cell_69 (adata : loc) (script : list user_action) : M (option DataFrame) :=
  let* new_df := Visualization_start adata markers re_cluster "localhost" script in
  let selected_cells := new_df in
  ret selected_cells.

(** Exporting a selection of cells from the dashboard *)
Definition cell_73 (selected_cells : option DataFrame) : M unit :=
  let* _ := lib_call (E_print_value "selected_cells.shape")
              (match selected_cells with
               | Some _ => Ok tt
               | None => Err AttributeError
               end) in
  py_display "selected_cells.head()".

Definition cell_75 (adata : loc) (selected_cells : option DataFrame) : M loc :=
  let* a := deref adata in
  let* a' := lib_call E_getitem
               (match selected_cells with
                | Some df => select_obs (barcode <$> df) a
                | None => Err AttributeError
                end) in
  alloc a'.

Definition cell_76 (adata_selected_cells : loc) : M unit :=
  py_display "adata_selected_cells".

(** ** The notebook *)

(** Everything up to and including the Louvain clustering. *)
Definition main_pipeline : M loc :=
  let* _ := cell_10 in
  let* adata := cell_15 in
  let* _ := cell_16 adata in
  let* (genes, barcodes, sparse_gpu_array) := cell_17 adata in
  let* (sparse_gpu_array, barcodes) := cell_21 sparse_gpu_array barcodes in
  let* (sparse_gpu_array, genes) := cell_23 sparse_gpu_array genes in
  let* _ := cell_25 in
  let* sparse_gpu_array := cell_28 sparse_gpu_array in
  let* sparse_gpu_array := cell_30 sparse_gpu_array in
  let* adata := cell_33 sparse_gpu_array genes in
  let* adata := cell_35 adata in
  let* raw_marker_expressions := cell_38 sparse_gpu_array genes in
  let* (genes, n_counts, percent_ribo) := cell_40 adata in
  let* sparse_gpu_array := cell_42 adata n_counts percent_ribo in
  let* sparse_gpu_array := cell_45 sparse_gpu_array in
  let* adata := cell_48 sparse_gpu_array genes barcodes raw_marker_expressions in
  let* _ := cell_51 adata in
  let* _ := cell_54 adata in
  let* _ := cell_56 adata in
  let* _ := cell_58 adata in
  ret adata.

(** The cells after the clustering: plot, dashboard, export. *)
Definition interactive (adata : loc) (script : list user_action)
    : M (option DataFrame * loc) :=
  let* _ := cell_60 adata in
  let* selected_cells := cell_69 adata script in
  let* _ := cell_73 selected_cells in
  let* adata_selected_cells := cell_75 adata selected_cells in
  let* _ := cell_76 adata_selected_cells in
  ret (selected_cells, adata_selected_cells).

Definition notebook (script : list user_action) : M (loc * option DataFrame * loc) :=
  let* adata := main_pipeline in
  let* (selected_cells, adata_selected_cells) := interactive adata script in
  ret (adata, selected_cells, adata_selected_cells).

(** The gene called [marker] is expressed in at least one cell of [x],
    whose columns are named by [genes]. *)
Definition expressed_in_some_cell (x : matrix) (genes : list string)
    (marker : string) : Prop :=
  ∃ j row, genes !! j = Some marker ∧ row ∈ x ∧ expressed L <$> row !! j = Some true.

(** What [sc.read] finds at [input_file] once the input cell has run: the
    file that was there, or else what the download put there. *)
Definition input_content (s : state) : option node :=
  match fs s !! input_file with
  | Some n => Some n
  | None => File <$> net s !! input_url
  end.

(** ** Runs and their logs *)

(** No call of [l] raised. *)
Definition quiet (l : list entry) : Prop := Forall (λ e, outcome e = None) l.

(** Started in [s], [m] makes the calls [tr] in this order: all of them when
    it returns, and when it raises [e] the calls up to the one that raised
    [e], which is the last one. *)
Definition traced_at {A} (s : state) (m : M A) (tr : list event) : Prop :=
  ∃ l, log (m s).2 = (log s ++ l) ∧
       match (m s).1 with
       | Ok _ => call <$> l = tr ∧ quiet l
       | Err e => ∃ l0 ev, l = (l0 ++ [Entry ev (Some e)]) ∧ quiet l0 ∧
                           (call <$> l) `prefix_of` tr
       end.

Definition traced {A} (m : M A) (tr : list event) : Prop :=
  ∀ s, traced_at s m tr.

(** Two worlds that look the same to the notebook: the same objects in the
    kernel, the same input file, data directory and download. *)
Definition agree (s1 s2 : state) : Prop :=
  heap s1 = heap s2 ∧
  fs s1 !! input_file = fs s2 !! input_file ∧
  fs s1 !! data_dir = fs s2 !! data_dir ∧
  net s1 !! input_url = net s2 !! input_url.

Definition respects {A} (m : M A) : Prop :=
  ∀ s1 s2, agree s1 s2 → (m s1).1 = (m s2).1 ∧ agree (m s1).2 (m s2).2.



End Notebook.

Notation "'let*' x ':=' m 'in' k" := (bind m (λ x, k))
  (at level 10, x pattern, m at level 100, k at level 200,
   format "'[v' 'let*'  x  ':='  m  'in' '/' k ']'").

(** ** The calls of a run of the notebook *)

Definition download_events : list event :=
  [E_print "Downloading import file..."; E_os_makedirs data_dir;
   E_wget_download input_url input_file].

Definition cell_10_events (present : bool) : list event :=
  E_os_path_exists input_file :: (if present then [] else download_events).

Definition load_events (present : bool) : list event :=
  cell_10_events present ++ [E_sc_read input_file].

Definition preprocess_events : list event :=
  [E_display "adata.shape";
   E_filter_cells min_genes_per_cell max_genes_per_cell;
   E_filter_genes 1;
   E_display "sparse_gpu_array.shape";
   E_normalize_total (10000 # 1);
   E_log1p;
   E_AnnData; E_set_var_names;
   E_highly_variable_genes n_top_genes "cell_ranger"; E_getitem].

Definition capture_events : list event :=
  markers ≫= λ marker, [E_index0 marker; E_getcol].

Definition regress_scale_events : list event :=
  [E_regress_out; E_scale 10].

Definition assemble_events : list event :=
  ([E_AnnData; E_set_var_names; E_set_obs_names] ++
   ((λ marker, E_set_obs_column (marker +:+ "_raw")) <$> markers)).

Definition cluster_events (output_type : option string) : list event :=
  [E_PCA (PcaParams n_components output_type);
   E_set_obsm "X_pca";
   E_neighbors (NeighborsParams n_neighbors knn_n_pcs "rapids");
   E_umap (UmapParams umap_min_dist umap_spread "rapids");
   E_louvain (LouvainParams "rapids")].

Definition main_events (present : bool) : list event :=
  (load_events present ++ preprocess_events ++ capture_events ++
   regress_scale_events ++ assemble_events ++ cluster_events (Some "numpy")).

Fixpoint dashboard_events (script : list user_action) : list event :=
  match script with
  | [] => []
  | Select _ :: script' => dashboard_events script'
  | Recluster :: script' =>
      (E_getitem :: cluster_events None ++ dashboard_events script')
  | Export :: _ => [E_export]
  end.

Definition interactive_events (script : list user_action) : list event :=
  ([E_pl_umap ["louvain"]; E_Visualization_start "localhost"] ++
   dashboard_events script ++
   [E_print_value "selected_cells.shape"; E_display "selected_cells.head()";
    E_getitem; E_display "adata_selected_cells"]).

Definition notebook_events (present : bool) (script : list user_action) : list event :=
  (main_events present ++ interactive_events script).

(** ** The steps of the pipeline *)

Inductive stage : Type :=
| LoadData
| FilterCells
| FilterGenes
| Normalize
| LogTransform
| SelectGenes
| RegressOut
| Scale
| Pca
| Neighbors
| Umap
| Louvain
| Visualize
| ExportSelection.

(** The step a library call carries out; bookkeeping calls carry out none. *)
Definition stage_of (ev : event) : option stage :=
  match ev with
  | E_sc_read _ => Some LoadData
  | E_filter_cells _ _ => Some FilterCells
  | E_filter_genes _ => Some FilterGenes
  | E_normalize_total _ => Some Normalize
  | E_log1p => Some LogTransform
  | E_highly_variable_genes _ _ => Some SelectGenes
  | E_regress_out => Some RegressOut
  | E_scale _ => Some Scale
  | E_PCA _ => Some Pca
  | E_neighbors _ => Some Neighbors
  | E_umap _ => Some Umap
  | E_louvain _ => Some Louvain
  | E_pl_umap _ => Some Visualize
  | E_Visualization_start _ => Some Visualize
  | E_export => Some ExportSelection
  | _ => None
  end.

Definition main_stages : list stage :=
  [LoadData; FilterCells; FilterGenes; Normalize; LogTransform; SelectGenes;
   RegressOut; Scale; Pca; Neighbors; Umap; Louvain].




(** ** The variables of the code cells *)




(** ** The configuration of the clustering calls *)

Inductive clustering_config : Type :=
| PCA_config (n_components : nat)
| neighbors_config (n_neighbors n_pcs : nat) (method : string)
| umap_config (min_dist spread : Q) (method : string)
| louvain_config (flavor : string).

(** PCA, neighbours, UMAP or Louvain, with the parameters the parameter cell
    fixes; [None] for every other call. *)
Definition clustering_call (ev : event) : option clustering_config :=
  match ev with
  | E_PCA p => Some (PCA_config (pca_n_components p))
  | E_neighbors p =>
      Some (neighbors_config (nb_n_neighbors p) (nb_n_pcs p) (nb_method p))
  | E_umap p => Some (umap_config (um_min_dist p) (um_spread p) (um_method p))
  | E_louvain p => Some (louvain_config (lv_flavor p))
  | _ => None
  end.

Definition fixed_configuration : list clustering_config :=
  [PCA_config 50;
   neighbors_config 15 50 "rapids";
   umap_config (3 # 10) (1 # 1) "rapids";
   louvain_config "rapids"].

(** ** Files and artifacts *)

(** The path whose content a call reads. *)
Definition read_path (ev : event) : option string :=
  match ev with
  | E_sc_read path => Some path
  | _ => None
  end.

(** The path of the file system a call looks at or writes to. *)
Definition touched_path (ev : event) : option string :=
  match ev with
  | E_os_path_exists path => Some path
  | E_os_makedirs path => Some path
  | E_wget_download _ out => Some out
  | E_sc_read path => Some path
  | _ => None
  end.

(** Calls that leave something behind other than text in the cell output:
    a directory, a file, a figure, the dashboard, the exported table. *)
Definition artifact (ev : event) : bool :=
  match ev with
  | E_os_makedirs _ | E_wget_download _ _ | E_pl_umap _
  | E_Visualization_start _ | E_export => true
  | _ => false
  end.

Definition artifacts (l : list event) : list event := filter (λ ev, artifact ev = true) l.

(** The user presses the export button. *)
Definition exports (script : list user_action) : bool :=
  existsb (λ action, match action with Export => true | _ => false end) script.

(** The selection in force when the user exports: the cells of the last
    [Select] before the first [Export]; the cells the dashboard started
    with when there is none. *)
Fixpoint exported_selection (script : list user_action) (selection : list string)
    : list string :=
  match script with
  | [] => selection
  | Select barcodes :: script' => exported_selection script' barcodes
  | Recluster :: script' => exported_selection script' selection
  | Export :: _ => selection
  end.

(** The object the dashboard shows when the user exports: the subset made
    by the last [Recluster] before the first [Export]; the object the
    dashboard started on when there is none.  [next] is the place the next
    new object takes in the heap. *)
Fixpoint exported_object (script : list user_action) (current : loc) (next : nat)
    : loc :=
  match script with
  | [] => current
  | Select _ :: script' => exported_object script' current next
  | Recluster :: script' => exported_object script' next (S next)
  | Export :: _ => current
  end.

(** The artifacts of a run: the downloaded input when it was missing, the
    static plot, the dashboard, and the table when the user exports. *)
Definition notebook_artifacts (present : bool) (script : list user_action) : list event :=
  (if present then [] else [E_os_makedirs data_dir; E_wget_download input_url input_file]) ++
  [E_pl_umap ["louvain"]; E_Visualization_start "localhost"] ++
  (if exports script then [E_export] else []).

(** The dashboard and the exported table are the only artifacts. *)
Definition only_dashboard_and_table (l : list event) : Prop :=
  Forall (λ ev, ev = E_Visualization_start "localhost" ∨ ev = E_export) (artifacts l).

(** ** Sequences of cells *)

Section Sequences.
Context {val graph : Type} (L : @Libs val graph).

(** Cells 51 to 58 of the notebook, in order: PCA, neighbours, UMAP and
    Louvain on the object the pipeline has assembled. *)
Definition cluster_cells (adata : loc) : @M val graph loc :=
  let* _ := cell_51 L adata in
  let* _ := cell_54 L adata in
  let* _ := cell_56 L adata in
  let* _ := cell_58 L adata in
  ret adata.

(** [m] leaves the file system and the network as they are. *)
Definition keeps_files {A} (m : @M val graph A) : Prop :=
  ∀ s, fs (m s).2 = fs s ∧ net (m s).2 = net s.

(** From [s] to [s'] nothing changed but the annotations of the object at
    [adata]: the files, the number of objects, the other objects, and the
    matrix, names and gene table of that object are the same. *)
Definition only_annotates (adata : loc) (s s' : @state val graph) : Prop :=
  fs s' = fs s ∧ net s' = net s ∧
  length (heap s') = length (heap s) ∧
  (∀ r, r ≠ adata → heap s' !!! r = heap s !!! r) ∧
  X (heap s' !!! adata) = X (heap s !!! adata) ∧
  obs_names (heap s' !!! adata) = obs_names (heap s !!! adata) ∧
  var_names (heap s' !!! adata) = var_names (heap s !!! adata) ∧
  var (heap s' !!! adata) = var (heap s !!! adata).

(** The object once [sc.pp.highly_variable_genes] has annotated it with the
    flags [hv] and the statistics [st]. *)
Definition flagged (a : @AnnData val graph) (hv : list bool) (st : @hvg_stats val graph)
    : @AnnData val graph :=
  mkAnnData (X a) (obs_names a) (var_names a) (obs a)
    (<["dispersions_norm" := NumCol (hvg_dispersions_norm st)]>
       (<["dispersions" := NumCol (hvg_dispersions st)]>
          (<["means" := NumCol (hvg_means st)]>
             (<["highly_variable" := BoolCol hv]> (var a)))))
    (obsm a) (<["hvg" := hvg_uns st]> (uns a)) (obsp a).

(** The flags and the statistics have one entry per gene of [a]. *)
Definition per_gene (hv : list bool) (st : @hvg_stats val graph) (a : @AnnData val graph)
    : Prop :=
  length hv = n_vars a ∧ length (hvg_means st) = n_vars a ∧
  length (hvg_dispersions st) = n_vars a ∧
  length (hvg_dispersions_norm st) = n_vars a.

(** The object cell 48 assembles from the matrix, the gene names, the
    barcodes and the three marker columns. *)
Definition assembled (x : @matrix val) (genes barcodes : list string)
    (c1 c2 c3 : list val) : @AnnData val graph :=
  mkAnnData x barcodes genes
    (<["EPCAM_raw" := NumCol c3]>
       (<["TMPRSS2_raw" := NumCol c2]> (<["ACE2_raw" := NumCol c1]> ∅)))
    ∅ ∅ ∅ ∅.

(** The object once PCA, neighbours, UMAP and Louvain have annotated it:
    the embedding [pcs], the record [g] of the neighbours with its two
    matrices, the layout with the parameters [um] of UMAP, and the labels
    with the parameters [lv] of Louvain. *)
Definition clustered (a : @AnnData val graph) (pcs : @matrix val) (g : graph)
    (layout : @matrix val) (um : graph) (labels : list string) (lv : graph)
    : @AnnData val graph :=
  mkAnnData (X a) (obs_names a) (var_names a)
    (<["louvain" := StrCol labels]> (obs a)) (var a)
    (<["X_umap" := layout]> (<["X_pca" := pcs]> (obsm a)))
    (<["louvain" := lv]> (<["umap" := um]> (<["neighbors" := g]> (uns a))))
    (<["connectivities" := connectivities L g]>
       (<["distances" := distances L g]> (obsp a))).

(** What cell 48 needs of its inputs: a name per column, a barcode per row,
    and for every marker a stored column with an entry per row. *)
Definition attachable (x : @matrix val) (genes : list string)
    (barcodes : Series string) (raw : gmap string (list val)) : Prop :=
  length genes = n_cols L x ∧
  length (to_pandas barcodes) = length x ∧
  ∀ marker, marker ∈ markers → ∃ c, raw !! marker = Some c ∧ length c = length x.

Definition annotates {A} (adata : loc) (m : @M val graph A) : Prop :=
  ∀ s, only_annotates adata s (m s).2.

End Sequences.

(** ** A small concrete library, to run the notebook on *)

Module Toy.

Definition toy_genes : list string := (markers ++ replicate 200 "GENE").

Definition toy_X : list (list Z) :=
  [ ([5; 0; 2] ++ replicate 200 1);
    ([0; 3; 1] ++ replicate 200 1);
    ([1; 1; 1] ++ replicate 200 0) ]%Z.

Definition toy_adata : @AnnData Z nat :=
  mkAnnData toy_X ["AAAC"; "AAAG"; "AAAT"] toy_genes ∅ ∅ ∅ ∅ ∅.

Definition lib : @Libs Z nat := {|
  expressed := λ v, negb (v =? 0)%Z;
  vsum := foldr Z.add 0%Z;
  vdiv := Z.div;
  n_cols := λ x, length (default [] (head x));
  read_h5ad := λ _, Ok toy_adata;
  normalize_total := λ _ m, Ok (fmap (M := list) (Z.mul 2) <$> m);
  log1p := λ m, Ok (fmap (M := list) Z.succ <$> m);
  highly_variable_genes := λ _ _ a, Ok (replicate (n_vars a) true);
  highly_variable_stats := λ _ _ a,
    HvgStats (replicate (n_vars a) 1%Z) (replicate (n_vars a) 1%Z)
             (replicate (n_vars a) 0%Z) 0;
  regress_out := λ m _ _, Ok m;
  scale := λ _ m, Ok m;
  PCA_fit_transform := λ _ m, Ok (take 2 <$> m);
  neighbors := λ _ a, Ok (n_obs a);
  distances := λ n, replicate n (replicate n 1%Z);
  connectivities := λ n, replicate n (replicate n 1%Z);
  umap := λ _ a, Ok (take 2 <$> X a, 0);
  louvain := λ _ a, Ok (replicate (n_obs a) "0", 0);
  plot_umap := λ _ color, Ok (replicate (length color) 0) |}.

Definition fresh_state (files : gmap string (@node)) : @state Z nat :=
  mkState files {[ input_url := "h5ad" ]} [] [].

Definition with_file : @state Z nat := fresh_state {[ input_file := File "h5ad" ]}.
Definition without_file : @state Z nat := fresh_state ∅.

(** The same input in a world with another file and an earlier log. *)
Definition with_file_and_more : @state Z nat :=
  mkState {[ input_file := File "h5ad"; "../data/other.h5ad" := File "other" ]}
          {[ input_url := "h5ad" ]} [] [Entry (E_print "earlier") None].

(** A kernel that holds one object. *)
Definition one_object : @state Z nat := mkState ∅ ∅ [toy_adata] [].

(** EPCAM is expressed only in the third cell, which expresses too few genes
    to pass the cell filter. *)
Definition no_EPCAM_X : list (list Z) :=
  [ [5; 0; 0] ++ replicate 200 1;
    [0; 3; 0] ++ replicate 200 1;
    [1; 1; 1] ++ replicate 200 0 ]%Z.

Definition toy_barcodes : Series string := cudf_Series ["AAAC"; "AAAG"; "AAAT"].

Definition after_main : @state Z nat := (main_pipeline lib with_file).2.
Definition after_re_cluster : @state Z nat := (re_cluster lib 0 one_object).2.

(** The user exports at once. *)
Definition exported : result (loc * option DataFrame * loc) * @state Z nat :=
  notebook lib [Export] with_file.

(** A library whose neighbour search fails. *)
Definition lib_without_neighbors : @Libs Z nat := {|
  expressed := expressed lib;
  vsum := vsum lib;
  vdiv := vdiv lib;
  n_cols := n_cols lib;
  read_h5ad := read_h5ad lib;
  normalize_total := normalize_total lib;
  log1p := log1p lib;
  highly_variable_genes := highly_variable_genes lib;
  highly_variable_stats := highly_variable_stats lib;
  regress_out := regress_out lib;
  scale := scale lib;
  PCA_fit_transform := PCA_fit_transform lib;
  neighbors := λ _ _, Err (LibraryError "out of device memory");
  distances := distances lib;
  connectivities := connectivities lib;
  umap := umap lib;
  louvain := louvain lib;
  plot_umap := plot_umap lib |}.

(** The toy library among matrices that have [k] columns when they have no
    row. *)
Definition lib_of_width (k : nat) : @Libs Z nat := {|
  expressed := expressed lib;
  vsum := vsum lib;
  vdiv := vdiv lib;
  n_cols := λ x, match x with [] => k | row :: _ => length row end;
  read_h5ad := read_h5ad lib;
  normalize_total := normalize_total lib;
  log1p := log1p lib;
  highly_variable_genes := highly_variable_genes lib;
  highly_variable_stats := highly_variable_stats lib;
  regress_out := regress_out lib;
  scale := scale lib;
  PCA_fit_transform := PCA_fit_transform lib;
  neighbors := neighbors lib;
  distances := distances lib;
  connectivities := connectivities lib;
  umap := umap lib;
  louvain := louvain lib;
  plot_umap := plot_umap lib |}.

(** A kernel whose one object has two cells of the same name. *)
Definition twins : @state Z nat :=
  mkState ∅ ∅ [mkAnnData [[1]; [2]]%Z ["AAAC"; "AAAC"] ["ACE2"] ∅ ∅ ∅ ∅ ∅] [].

End Toy.

(** * Facts *)

(** ** The monad *)

Section MonadFacts.
Context {val graph : Type}.
Abbreviation state := (@state val graph).
Abbreviation M := (@M val graph).

Lemma bind_Ok {A B} (m : M A) (k : A → M B) s a s' :
  m s = (Ok a, s') → bind m k s = k a s'.
Proof. unfold bind. by intros ->. Qed.

Lemma bind_Err {A B} (m : M A) (k : A → M B) s e s' :
  m s = (Err e, s') → bind m k s = (Err e, s').
Proof. unfold bind. by intros ->. Qed.

(** A sequence returns only if both of its parts do. *)
Lemma bind_returns {A B} (m : M A) (k : A → M B) s b s2 :
  bind m k s = (Ok b, s2) →
  ∃ a s1, m s = (Ok a, s1) ∧ k a s1 = (Ok b, s2).
Proof.
  unfold bind. destruct (m s) as [[a|e] s1]; [eauto | discriminate].
Qed.

Lemma quiet_nil : quiet [].
Proof. constructor. Qed.

Lemma quiet_app l1 l2 : quiet l1 → quiet l2 → quiet (l1 ++ l2).
Proof. apply Forall_app_2. Qed.

Lemma traced_at_ret {A} (a : A) (s : state) : traced_at s (ret a) [].
Proof.
  exists []. cbn. rewrite app_nil_r. eauto using quiet_nil.
Qed.

Lemma traced_at_bind {A B} (s : state) (m : M A) (k : A → M B) t1 t2 :
  traced_at s m t1 →
  (∀ a s', m s = (Ok a, s') → traced_at s' (k a) t2) →
  traced_at s (bind m k) (t1 ++ t2).
Proof.
  unfold traced_at, bind.
  destruct (m s) as [[a|e] s1]; cbn; intros (l1 & Hlog & H1) Hk.
  - destruct H1 as [<- Hq].
    destruct (Hk a s1 eq_refl) as (l2 & Hlog2 & H2).
    exists (l1 ++ l2). rewrite Hlog2, Hlog, (assoc_L (++)). split; [done|].
    destruct ((k a s1).1) as [b|e].
    + destruct H2 as [<- Hq2]. rewrite fmap_app. auto using quiet_app.
    + destruct H2 as (l0 & ev & -> & Hq2 & Hpre).
      exists (l1 ++ l0), ev. rewrite (assoc_L (++)). split_and!; [done| by apply quiet_app |].
      rewrite <- (assoc_L (++)), fmap_app. by apply prefix_app.
  - exists l1. split; [done|].
    destruct H1 as (l0 & ev & -> & Hq & Hpre).
    exists l0, ev. split_and!; [done..|]. by apply prefix_app_r.
Qed.

Lemma traced_at_world_call {A} ev (f : state → result A * state) s :
  log (f s).2 = log s → traced_at s (world_call ev f) [ev].
Proof.
  intros Hf. unfold traced_at, world_call.
  destruct (f s) as [r s1]; cbn in *. rewrite Hf.
  exists [Entry ev (raised r)]. split; [done|].
  destruct r as [a|e]; cbn.
  - split; [done|]. by repeat constructor.
  - exists [], ev. split_and!; [done | constructor | done].
Qed.

Lemma traced_at_lib_call {A} ev (r : result A) (s : state) :
  traced_at s (lib_call ev r) [ev].
Proof. by apply traced_at_world_call. Qed.

Lemma traced_at_alloc (a : AnnData) (s : state) : traced_at s (alloc a) [].
Proof. exists []. cbn. rewrite app_nil_r. eauto using quiet_nil. Qed.

Lemma traced_at_deref r (s : state) : traced_at s (deref r) [].
Proof. exists []. cbn. rewrite app_nil_r. eauto using quiet_nil. Qed.

Lemma traced_at_store r (a : AnnData) (s : state) : traced_at s (store r a) [].
Proof. exists []. cbn. rewrite app_nil_r. eauto using quiet_nil. Qed.

Lemma traced_at_eq {A} (s : state) (m : M A) t t' :
  traced_at s m t → t = t' → traced_at s m t'.
Proof. by intros ? <-. Qed.

Lemma traced_at_for_each {A B} (l : list A) (body : A → B → M B) (t : A → list event) :
  (∀ x acc s, traced_at s (body x acc) (t x)) →
  ∀ acc s, traced_at s (for_each l body acc) (l ≫= t).
Proof.
  intros Hbody. induction l as [|x l IH]; intros acc s; cbn.
  - apply traced_at_ret.
  - apply traced_at_bind; [apply Hbody | intros; apply IH].
Qed.

End MonadFacts.

(** ** The calls made by each cell *)

Section TraceFacts.
Context {val graph : Type} (L : @Libs val graph).
Abbreviation state' := (@state val graph).

Create HintDb traced.

Ltac traced_step :=
  lazymatch goal with
  | |- traced_at _ (ret _) _ => apply traced_at_ret
  | |- traced_at _ (lib_call _ _) _ => apply traced_at_lib_call
  | |- traced_at _ (alloc _) _ => apply traced_at_alloc
  | |- traced_at _ (deref _) _ => apply traced_at_deref
  | |- traced_at _ (store _ _) _ => apply traced_at_store
  | |- traced_at _ (bind _ _) _ => eapply traced_at_bind; [ | intros ? ? _ ]
  | |- traced_at _ (let '(_, _) := ?x in _) _ => destruct x
  | |- traced_at _ _ _ => solve [eauto with traced]
  end.

Ltac traced_steps := repeat traced_step.

Ltac traced_by_steps := eapply traced_at_eq; [ traced_steps | reflexivity ].

Lemma set_var_names_traced adata names (s : state') :
  traced_at s (set_var_names adata names) [E_set_var_names].
Proof. unfold set_var_names. traced_by_steps. Qed.

Lemma set_obs_names_traced adata names (s : state') :
  traced_at s (set_obs_names adata names) [E_set_obs_names].
Proof. unfold set_obs_names. traced_by_steps. Qed.

Lemma set_obs_column_traced adata name c (s : state') :
  traced_at s (set_obs_column adata name c) [E_set_obs_column name].
Proof. unfold set_obs_column. traced_by_steps. Qed.

Lemma set_obsm_traced adata name m (s : state') :
  traced_at s (set_obsm adata name m) [E_set_obsm name].
Proof. unfold set_obsm. traced_by_steps. Qed.

Lemma anndata_AnnData_traced x (s : state') :
  traced_at s (anndata_AnnData L x) [E_AnnData].
Proof. unfold anndata_AnnData. traced_by_steps. Qed.

Lemma sc_pp_neighbors_traced adata p (s : state') :
  traced_at s (sc_pp_neighbors L adata p) [E_neighbors p].
Proof. unfold sc_pp_neighbors. traced_by_steps. Qed.

Lemma sc_tl_umap_traced adata p (s : state') :
  traced_at s (sc_tl_umap L adata p) [E_umap p].
Proof. unfold sc_tl_umap. traced_by_steps. Qed.

Lemma sc_tl_louvain_traced adata p (s : state') :
  traced_at s (sc_tl_louvain L adata p) [E_louvain p].
Proof. unfold sc_tl_louvain. traced_by_steps. Qed.

Lemma sc_read_traced path (s : state') :
  traced_at s (sc_read L path) [E_sc_read path].
Proof.
  unfold sc_read. eapply traced_at_eq.
  - eapply traced_at_bind; [by apply traced_at_world_call | intros; apply traced_at_alloc].
  - done.
Qed.

Lemma os_path_exists_traced path (s : state') :
  traced_at s (os_path_exists path) [E_os_path_exists path].
Proof. by apply traced_at_world_call. Qed.

Lemma os_makedirs_traced path (s : state') :
  traced_at s (os_makedirs path) [E_os_makedirs path].
Proof. apply traced_at_world_call. by destruct (fs s !! path) as [[]|]. Qed.

Lemma wget_download_traced url out (s : state') :
  traced_at s (wget_download url out) [E_wget_download url out].
Proof. apply traced_at_world_call. by destruct (net s !! url). Qed.

Lemma os_path_exists_run path (s : state') :
  os_path_exists path s =
    (Ok (bool_decide (is_Some (fs s !! path))),
     record (E_os_path_exists path) None s).
Proof. done. Qed.

Lemma cell_10_traced (s : state') :
  traced_at s cell_10 (cell_10_events (bool_decide (is_Some (fs s !! input_file)))).
Proof.
  unfold cell_10, cell_10_events.
  apply (traced_at_bind _ _ _ [_]); [apply os_path_exists_traced|].
  intros present s'. rewrite os_path_exists_run. intros [= <- <-].
  destruct (bool_decide _); cbn [negb].
  - apply traced_at_ret.
  - unfold py_print. eapply traced_at_eq.
    + traced_steps;
        [apply os_makedirs_traced | apply wget_download_traced ].
    + done.
Qed.

#[local] Hint Resolve set_var_names_traced set_obs_names_traced
  set_obs_column_traced set_obsm_traced anndata_AnnData_traced
  sc_pp_neighbors_traced sc_tl_umap_traced sc_tl_louvain_traced
  sc_read_traced os_path_exists_traced os_makedirs_traced
  wget_download_traced : traced.

Lemma re_cluster_traced adata (s : state') :
  traced_at s (re_cluster L adata) (cluster_events None).
Proof. unfold re_cluster, cuml_PCA_fit_transform. traced_by_steps. Qed.

Lemma cell_38_traced x genes (s : state') :
  traced_at s (cell_38 x genes) capture_events.
Proof.
  unfold cell_38, capture_events.
  apply (traced_at_for_each _ _ (λ marker, [E_index0 marker; E_getcol])).
  intros. traced_by_steps.
Qed.

Lemma cell_48_traced x genes barcodes raw (s : state') :
  traced_at s (cell_48 L x genes barcodes raw) assemble_events.
Proof.
  unfold cell_48, assemble_events. eapply traced_at_eq.
  - traced_steps.
    apply (traced_at_for_each _ _ (λ marker, [E_set_obs_column (marker +:+ "_raw")])).
    intros. apply set_obs_column_traced.
  - done.
Qed.

#[local] Hint Resolve re_cluster_traced cell_38_traced cell_48_traced : traced.

Lemma main_pipeline_traced (s : state') :
  traced_at s (main_pipeline L)
    (main_events (bool_decide (is_Some (fs s !! input_file)))).
Proof.
  unfold main_pipeline, main_events, load_events.
  rewrite <- (assoc_L (++)).
  apply traced_at_bind; [apply cell_10_traced | intros _ ? _].
  unfold cell_15, cell_16, cell_17, cell_21, cell_23, cell_25, cell_28, cell_30,
    cell_33, cell_35, cell_40, cell_42, cell_45, cell_51, cell_54, cell_56, cell_58,
    sc_pp_highly_variable_genes, getitem_highly_variable, cuml_PCA_fit_transform,
    py_display.
  traced_by_steps.
Qed.

Lemma dashboard_traced script : ∀ current selection (s : state'),
  traced_at s (dashboard (re_cluster L) script current selection)
    (dashboard_events script).
Proof.
  induction script as [|[barcodes| |] script IH]; intros current selection s; cbn.
  - apply traced_at_ret.
  - apply IH.
  - eapply traced_at_eq; [traced_steps; apply IH | done].
  - traced_by_steps.
Qed.

#[local] Hint Resolve dashboard_traced : traced.

Lemma interactive_traced adata script (s : state') :
  traced_at s (interactive L adata script) (interactive_events script).
Proof.
  unfold interactive, interactive_events, cell_60, cell_69, cell_73, cell_75,
    cell_76, sc_pl_umap, Visualization_start, py_display.
  eapply traced_at_eq; [traced_steps | by simplify_list_eq].
Qed.

(** The calls of a run of the notebook are those of [notebook_events]. *)
Lemma notebook_traced script (s : state') :
  traced_at s (notebook L script)
    (notebook_events (bool_decide (is_Some (fs s !! input_file))) script).
Proof.
  unfold notebook, notebook_events.
  eapply traced_at_eq.
  - eapply traced_at_bind; [apply main_pipeline_traced | intros adata ? _].
    eapply traced_at_bind; [apply interactive_traced | intros [? ?] ? _].
    apply traced_at_ret.
  - by rewrite app_nil_r.
Qed.

End TraceFacts.

(** ** The outcomes in the log are those of the operations *)

Section BackedFacts.
Context {val graph : Type} (L : @Libs val graph).
Abbreviation stateB := (@state val graph).
Abbreviation MB := (@M val graph).





















End BackedFacts.

(** ** Steps, files and artifacts of a run *)

Section RunFacts.
Context {val graph : Type} (L : @Libs val graph).

Lemma omap_prefix {A B} (f : A → option B) (l1 l2 : list A) :
  l1 `prefix_of` l2 → omap f l1 `prefix_of` omap f l2.
Proof. intros [k ->]. rewrite omap_app. by apply prefix_app_r. Qed.




Lemma dashboard_events_read_path script :
  omap read_path (dashboard_events script) = [].
Proof. induction script as [|[barcodes| |] script IH]; cbn; done. Qed.

Lemma dashboard_events_touched_path script :
  omap touched_path (dashboard_events script) = [].
Proof. induction script as [|[barcodes| |] script IH]; cbn; done. Qed.

Lemma notebook_events_read_path present script :
  omap read_path (notebook_events present script) = [input_file].
Proof.
  unfold notebook_events, interactive_events.
  rewrite !omap_app, dashboard_events_read_path. by destruct present.
Qed.

Lemma notebook_events_touched_path present script :
  Forall (λ p, p = input_file ∨ p = data_dir)
    (omap touched_path (notebook_events present script)).
Proof.
  unfold notebook_events, interactive_events.
  rewrite !omap_app, dashboard_events_touched_path.
  destruct present; cbn;
    repeat (apply Forall_cons; split; [by (left + right)|]); by apply Forall_nil.
Qed.

Lemma main_events_clustering present :
  omap clustering_call (main_events present) = fixed_configuration.
Proof. by destruct present. Qed.

Lemma cluster_events_clustering output_type :
  omap clustering_call (cluster_events output_type) = fixed_configuration.
Proof. done. Qed.

Lemma Forall_prefix {A} (P : A → Prop) (l1 l2 : list A) :
  l1 `prefix_of` l2 → Forall P l2 → Forall P l1.
Proof. intros [k ->]. by intros [? _]%Forall_app. Qed.

End RunFacts.

(** ** Objects in the heap *)

Section ObjectFacts.
Context {val graph : Type} (L : @Libs val graph).
Abbreviation state'' := (@state val graph).
Abbreviation AnnData' := (@AnnData val graph).

Lemma ret_returns {A} (a b : A) (s s' : state'') :
  ret a s = (Ok b, s') → b = a ∧ s' = s.
Proof. by intros [= <- <-]. Qed.

Lemma lib_call_returns {A} ev (r : result A) a (s s' : state'') :
  lib_call ev r s = (Ok a, s') → r = Ok a ∧ s' = record ev None s.
Proof. unfold lib_call, world_call. by intros [= -> <-]. Qed.

Lemma lib_call_raises {A} ev (r : result A) e (s s' : state'') :
  lib_call ev r s = (Err e, s') → r = Err e ∧ s' = record ev (Some e) s.
Proof. unfold lib_call, world_call. by intros [= -> <-]. Qed.

(** The shape of every in-place update of an object: read it, let the library
    compute the new one, write it back. *)
Lemma update_returns ev (f : AnnData' → result AnnData') adata (s s' : state'') :
  (let* a := deref adata in
   let* a' := lib_call ev (f a) in
   store adata a') s = (Ok (), s') →
  ∃ a', f (heap s !!! adata) = Ok a' ∧
        heap s' = <[adata := a']> (heap s) ∧
        fs s' = fs s ∧ net s' = net s.
Proof.
  unfold bind, deref, store, lib_call, world_call. cbn.
  destruct (f (heap s !!! adata)) as [a'|e]; [|done].
  intros [= <-]. eauto.
Qed.

Lemma sc_pp_neighbors_returns adata p (s s' : state'') :
  sc_pp_neighbors L adata p s = (Ok (), s') →
  ∃ a', rbind (neighbors L p (heap s !!! adata))
          (λ g, with_neighbors L g (heap s !!! adata)) = Ok a' ∧
        heap s' = <[adata := a']> (heap s) ∧ fs s' = fs s ∧ net s' = net s.
Proof.
  apply (update_returns _ (λ a, rbind (neighbors L p a) (λ g, with_neighbors L g a))).
Qed.

Lemma anndata_AnnData_returns x adata (s s' : state'') :
  anndata_AnnData L x s = (Ok adata, s') →
  adata = length (heap s) ∧ heap s' = heap s ++ [AnnData_new L x].
Proof. unfold anndata_AnnData, bind, alloc, lib_call, world_call. cbn. by intros [= <- <-]. Qed.

Lemma heap_lookup_total_insert (h : list AnnData') adata a :
  adata < length h → <[adata := a]> h !!! adata = a.
Proof. intros. by apply list_lookup_total_insert_eq. Qed.

Lemma with_var_names_Ok names (a a' : AnnData') :
  with_var_names names a = Ok a' →
  length names = n_vars a ∧
  a' = mkAnnData (X a) (obs_names a) names (obs a) (var a) (obsm a) (uns a) (obsp a).
Proof. unfold with_var_names. case_decide; [|done]. by intros [= <-]. Qed.

Lemma with_obs_names_Ok names (a a' : AnnData') :
  with_obs_names names a = Ok a' →
  length names = n_obs a ∧
  a' = mkAnnData (X a) names (var_names a) (obs a) (var a) (obsm a) (uns a) (obsp a).
Proof. unfold with_obs_names. case_decide; [|done]. by intros [= <-]. Qed.

Lemma with_obs_column_Ok name c (a a' : AnnData') :
  with_obs_column name c a = Ok a' →
  column_length c = n_obs a ∧
  a' = mkAnnData (X a) (obs_names a) (var_names a) (<[name := c]> (obs a))
                 (var a) (obsm a) (uns a) (obsp a).
Proof. unfold with_obs_column. case_decide; [|done]. by intros [= <-]. Qed.

Lemma with_obsm_Ok name m (a a' : AnnData') :
  with_obsm name m a = Ok a' →
  length m = n_obs a ∧
  a' = mkAnnData (X a) (obs_names a) (var_names a) (obs a) (var a)
                 (<[name := m]> (obsm a)) (uns a) (obsp a).
Proof. unfold with_obsm. case_decide; [|done]. by intros [= <-]. Qed.

Lemma with_obsp_Ok name m (a a' : AnnData') :
  with_obsp L name m a = Ok a' →
  (length m = n_obs a ∧ n_cols L m = n_obs a) ∧
  a' = mkAnnData (X a) (obs_names a) (var_names a) (obs a) (var a)
                 (obsm a) (uns a) (<[name := m]> (obsp a)).
Proof. unfold with_obsp. case_decide; [|done]. by intros [= <-]. Qed.

Lemma rbind_Ok {A B} (r : result A) (k : A → result B) b :
  rbind r k = Ok b → ∃ a, r = Ok a ∧ k a = Ok b.
Proof. destruct r; [eauto | done]. Qed.

Lemma with_neighbors_Ok g (a a' : AnnData') :
  with_neighbors L g a = Ok a' →
  (length (distances L g) = n_obs a ∧ n_cols L (distances L g) = n_obs a) ∧
  (length (connectivities L g) = n_obs a ∧ n_cols L (connectivities L g) = n_obs a) ∧
  a' = mkAnnData (X a) (obs_names a) (var_names a) (obs a) (var a) (obsm a)
         (<["neighbors" := g]> (uns a))
         (<["connectivities" := connectivities L g]>
            (<["distances" := distances L g]> (obsp a))).
Proof.
  unfold with_neighbors.
  intros (a1 & [Hd ->]%with_obsp_Ok & [Hc ->]%with_obsp_Ok)%rbind_Ok. done.
Qed.

Lemma set_obsm_returns adata name m (s s' : state'') :
  set_obsm adata name m s = (Ok (), s') →
  ∃ a', with_obsm name m (heap s !!! adata) = Ok a' ∧
        heap s' = <[adata := a']> (heap s) ∧ fs s' = fs s ∧ net s' = net s.
Proof. apply update_returns. Qed.

Lemma sc_tl_umap_returns adata p (s s' : state'') :
  sc_tl_umap L adata p s = (Ok (), s') →
  ∃ a', rbind (umap L p (heap s !!! adata))
          (λ r, with_obsm "X_umap" r.1 (with_uns "umap" r.2 (heap s !!! adata))) = Ok a' ∧
        heap s' = <[adata := a']> (heap s) ∧ fs s' = fs s ∧ net s' = net s.
Proof.
  apply (update_returns _
           (λ a, rbind (umap L p a) (λ r, with_obsm "X_umap" r.1 (with_uns "umap" r.2 a)))).
Qed.

Lemma sc_tl_louvain_returns adata p (s s' : state'') :
  sc_tl_louvain L adata p s = (Ok (), s') →
  ∃ a', rbind (louvain L p (heap s !!! adata))
          (λ r, with_obs_column "louvain" (StrCol r.1)
                  (with_uns "louvain" r.2 (heap s !!! adata))) = Ok a' ∧
        heap s' = <[adata := a']> (heap s) ∧ fs s' = fs s ∧ net s' = net s.
Proof.
  apply (update_returns _
           (λ a, rbind (louvain L p a)
                   (λ r, with_obs_column "louvain" (StrCol r.1) (with_uns "louvain" r.2 a)))).
Qed.

(** Neighbours, UMAP and Louvain on the object at [adata], when they
    return: what they have added to it. *)
Lemma graph_steps_return adata pn pu pl (s s2 s3 s4 : state'') :
  adata < length (heap s) →
  sc_pp_neighbors L adata pn s = (Ok (), s2) →
  sc_tl_umap L adata pu s2 = (Ok (), s3) →
  sc_tl_louvain L adata pl s3 = (Ok (), s4) →
  ∃ g layout um labels lv,
    let a := heap s !!! adata in
    length layout = n_obs a ∧ length labels = n_obs a ∧
    (length (distances L g) = n_obs a ∧ n_cols L (distances L g) = n_obs a) ∧
    (length (connectivities L g) = n_obs a ∧ n_cols L (connectivities L g) = n_obs a) ∧
    heap s4 =
      <[adata := mkAnnData (X a) (obs_names a) (var_names a)
                   (<["louvain" := StrCol labels]> (obs a)) (var a)
                   (<["X_umap" := layout]> (obsm a))
                   (<["louvain" := lv]> (<["umap" := um]> (<["neighbors" := g]> (uns a))))
                   (<["connectivities" := connectivities L g]>
                      (<["distances" := distances L g]> (obsp a)))]> (heap s).
Proof.
  intros Hvalid (a2 & Ha2 & Hh2 & _)%sc_pp_neighbors_returns
    (a3 & Ha3 & Hh3 & _)%sc_tl_umap_returns
    (a4 & Ha4 & Hh4 & _)%sc_tl_louvain_returns.
  apply rbind_Ok in Ha2 as (g & _ & (Hd & Hc & ->)%with_neighbors_Ok).
  rewrite Hh2, heap_lookup_total_insert in Ha3 by done.
  apply rbind_Ok in Ha3 as ([layout um] & _ & [Hl3 ->]%with_obsm_Ok).
  rewrite Hh3, heap_lookup_total_insert in Ha4 by (by rewrite Hh2, length_insert).
  apply rbind_Ok in Ha4 as ([labels lv] & _ & [Hl4 ->]%with_obs_column_Ok).
  exists g, layout, um, labels, lv.
  rewrite Hh4, Hh3, Hh2, !list_insert_insert_eq.
  unfold with_uns, n_obs in *.
  cbn [X obs_names var_names obs var obsm uns obsp fst snd] in *.
  done.
Qed.

(** A successful [re_cluster], call by call: each library operation is
    applied to the object as the one before left it, and what it gives is
    stored. *)
Lemma re_cluster_chain adata adata' (s s' : state'') :
  adata < length (heap s) →
  re_cluster L adata s = (Ok adata', s') →
  ∃ pcs a1 g a2 layout um a3 labels lv a4,
    PCA_fit_transform L (PcaParams n_components None) (X (heap s !!! adata)) = Ok pcs ∧
    with_obsm "X_pca" pcs (heap s !!! adata) = Ok a1 ∧
    neighbors L (NeighborsParams n_neighbors knn_n_pcs "rapids") a1 = Ok g ∧
    with_neighbors L g a1 = Ok a2 ∧
    umap L (UmapParams umap_min_dist umap_spread "rapids") a2 = Ok (layout, um) ∧
    with_obsm "X_umap" layout (with_uns "umap" um a2) = Ok a3 ∧
    louvain L (LouvainParams "rapids") a3 = Ok (labels, lv) ∧
    with_obs_column "louvain" (StrCol labels) (with_uns "louvain" lv a3) = Ok a4 ∧
    heap s' = <[adata := a4]> (heap s).
Proof.
  intros Hvalid. unfold re_cluster, cuml_PCA_fit_transform. intros H.
  apply bind_returns in H as (a & s1 & [= <- <-] & H).
  apply bind_returns in H as (pcs & s2 & [Hpca ->]%lib_call_returns & H).
  apply bind_returns in H as ([] & s3 & (a1 & Ha1 & Hh3 & _)%set_obsm_returns & H).
  apply bind_returns in H as
    ([] & s4 & (a2 & Ha2 & Hh4 & _)%sc_pp_neighbors_returns & H).
  apply bind_returns in H as ([] & s5 & (a3 & Ha3 & Hh5 & _)%sc_tl_umap_returns & H).
  apply bind_returns in H as ([] & s6 & (a4 & Ha4 & Hh6 & _)%sc_tl_louvain_returns & H).
  apply ret_returns in H as [-> ->].
  cbn [heap record] in *.
  rewrite Hh3, heap_lookup_total_insert in Ha2 by done.
  rewrite Hh4, heap_lookup_total_insert in Ha3 by (by rewrite Hh3, length_insert).
  rewrite Hh5, heap_lookup_total_insert in Ha4
    by (by rewrite Hh4, Hh3, !length_insert).
  apply rbind_Ok in Ha2 as (g & Hg & Ha2).
  apply rbind_Ok in Ha3 as ([layout um] & Hum & Ha3).
  apply rbind_Ok in Ha4 as ([labels lv] & Hlv & Ha4).
  exists pcs, a1, g, a2, layout, um, a3, labels, lv, a4.
  split_and!; [done..|].
  rewrite Hh6, Hh5, Hh4, Hh3. by rewrite !list_insert_insert_eq.
Qed.

(** What a successful [re_cluster] does to the object it is given. *)
Lemma re_cluster_returns adata adata' (s s' : state'') :
  adata < length (heap s) →
  re_cluster L adata s = (Ok adata', s') →
  adata' = adata ∧
  ∃ pcs g layout um labels lv,
    let a := heap s !!! adata in
    PCA_fit_transform L (PcaParams n_components None) (X a) = Ok pcs ∧
    length pcs = n_obs a ∧ length layout = n_obs a ∧ length labels = n_obs a ∧
    (length (distances L g) = n_obs a ∧ n_cols L (distances L g) = n_obs a) ∧
    (length (connectivities L g) = n_obs a ∧ n_cols L (connectivities L g) = n_obs a) ∧
    heap s' = <[adata := clustered L a pcs g layout um labels lv]> (heap s).
Proof.
  intros Hvalid. unfold re_cluster, cuml_PCA_fit_transform. intros H.
  apply bind_returns in H as (a & s1 & [= <- <-] & H).
  apply bind_returns in H as (pcs & s2 & [Hpca ->]%lib_call_returns & H).
  apply bind_returns in H as
    ([] & s3 & (a1 & [Hl1 ->]%with_obsm_Ok & Hh3 & _)%set_obsm_returns & H).
  apply bind_returns in H as ([] & s4 & H4 & H).
  apply bind_returns in H as ([] & s5 & H5 & H).
  apply bind_returns in H as ([] & s6 & H6 & H).
  apply ret_returns in H as [-> ->]. split; [done|].
  cbn [heap record] in *.
  assert (adata < length (heap s3)) as Hvalid3 by (by rewrite Hh3, length_insert).
  destruct (graph_steps_return adata _ _ _ s3 s4 s5 s6 Hvalid3 H4 H5 H6) as
    (g & layout & um & labels & lv & Hl2 & Hl3 & Hd & Hc & Hh).
  rewrite Hh3, heap_lookup_total_insert in Hl2, Hl3, Hd, Hc, Hh by done.
  rewrite list_insert_insert_eq in Hh.
  unfold n_obs in *. cbn [X obs_names var_names obs var obsm uns obsp] in *.
  destruct Hd, Hc. exists pcs, g, layout, um, labels, lv. split_and!; try done.
Qed.

End ObjectFacts.

(** ** The marker columns *)

Section MarkerFacts.
Context {val graph : Type} (L : @Libs val graph).
Abbreviation state3 := (@state val graph).
Abbreviation matrix3 := (@matrix val).

Lemma index0_series_eq_from marker (l : list string) n :
  index0 (series_eq marker (zip (seq n (length l)) l)) =
    match list_find (λ x, x = marker) l with
    | Some (j, _) => Ok (n + j)
    | None => Err IndexError
    end.
Proof.
  revert n. induction l as [|x l IH]; intros n; [done|].
  unfold series_eq in *. cbn.
  destruct (decide (x = marker)) as [->|Hne].
  - cbn. by rewrite Nat.add_0_r.
  - rewrite IH. destruct (list_find _ l) as [[j y]|]; cbn; [|done].
    f_equal. lia.
Qed.

(** On a freshly indexed series, [s[s == marker].index[0]] is the first
    position at which the series holds [marker]. *)
Lemma index0_series_eq marker (l : list string) j :
  index0 (series_eq marker (cudf_Series l)) = Ok j ↔ index_of l marker = Some j.
Proof.
  unfold cudf_Series, index_of. rewrite index0_series_eq_from.
  destruct (list_find _ l) as [[j' y]|]; cbn; [|done].
  split; by intros [= <-].
Qed.

Lemma index0_series_eq_raises marker (l : list string) e :
  index0 (series_eq marker (cudf_Series l)) = Err e ↔
    e = IndexError ∧ marker ∉ l.
Proof.
  unfold cudf_Series. rewrite index0_series_eq_from.
  destruct (list_find _ l) as [[j' y]|] eqn:Hfind; cbn.
  - apply list_find_Some in Hfind as (Hj & -> & _).
    split; [done|]. intros [_ []]. by eapply list_elem_of_lookup_2.
  - split; [intros [= <-]|by intros [-> _]]. split; [done|].
    intros Hin. eapply list_find_None in Hfind.
    by eapply Forall_forall in Hfind.
Qed.

Lemma cell_38_returns (x : matrix3) genes raw (s s' : state3) :
  cell_38 x genes s = (Ok raw, s') →
  ∀ marker, marker ∈ markers →
    ∃ j c, index0 (series_eq marker genes) = Ok j ∧ getcol j x = Ok c ∧
           raw !! marker = Some c.
Proof.
  unfold cell_38, markers. cbn [for_each]. intros H.
  apply bind_returns in H as (r1 & s1 & H1 & H).
  apply bind_returns in H as (r2 & s2 & H2 & H).
  apply bind_returns in H as (r3 & s3 & H3 & H).
  apply ret_returns in H as [-> ->].
  apply bind_returns in H1 as (j1 & ? & [Hj1 ->]%lib_call_returns & H1).
  apply bind_returns in H1 as (c1 & ? & [Hc1 ->]%lib_call_returns & [-> _]%ret_returns).
  apply bind_returns in H2 as (j2 & ? & [Hj2 ->]%lib_call_returns & H2).
  apply bind_returns in H2 as (c2 & ? & [Hc2 ->]%lib_call_returns & [-> _]%ret_returns).
  apply bind_returns in H3 as (j3 & ? & [Hj3 ->]%lib_call_returns & H3).
  apply bind_returns in H3 as (c3 & ? & [Hc3 ->]%lib_call_returns & [-> _]%ret_returns).
  intros marker Hin.
  repeat (apply elem_of_cons in Hin as [->|Hin]);
    [exists j1, c1 | exists j2, c2 | exists j3, c3 | by apply elem_of_nil in Hin];
    by split_and!.
Qed.

Lemma heap_app_lookup (h : list (@AnnData val graph)) a :
  (h ++ [a]) !!! length h = a.
Proof. by apply list_lookup_total_middle. Qed.

Lemma heap_app_insert (h : list (@AnnData val graph)) a b :
  <[length h := b]> (h ++ [a]) = h ++ [b].
Proof. by rewrite insert_app_r_alt, Nat.sub_diag. Qed.

Lemma set_obs_column_returns adata name c (s s' : state3) :
  set_obs_column adata name c s = (Ok (), s') →
  ∃ col a', c = Ok col ∧ with_obs_column name col (heap s !!! adata) = Ok a' ∧
            heap s' = <[adata := a']> (heap s).
Proof.
  intros (a' & (col & -> & Hcol)%rbind_Ok & Hh & _)%update_returns. eauto.
Qed.

(** Column [j] of a matrix has, for every row, the entry of that row at
    [j]. *)
Lemma getcol_lookup j (m : matrix3) c :
  getcol j m = Ok c →
  length c = length m ∧
  ∀ i row, m !! i = Some row → ∃ v, row !! j = Some v ∧ c !! i = Some v.
Proof.
  unfold getcol. destruct (mapM _ m) as [c'|] eqn:Hc; [|done]. intros [= <-].
  apply mapM_Some in Hc. split; [by apply Forall2_length in Hc|].
  intros i row Hrow.
  destruct (Forall2_lookup_l _ _ _ _ _ Hc Hrow) as (v & Hv & Hj). eauto.
Qed.

Lemma cell_48_returns (x : matrix3) genes barcodes raw adata (s s' : state3) :
  cell_48 L x genes barcodes raw s = (Ok adata, s') →
  adata = length (heap s) ∧
  ∃ a, heap s' = heap s ++ [a] ∧
       X a = x ∧ obs_names a = to_pandas barcodes ∧
       ∀ marker, marker ∈ markers →
         ∃ c, raw !! marker = Some c ∧
              obs a !! (marker +:+ "_raw") = Some (NumCol c) ∧
              length c = length (to_pandas barcodes).
Proof.
  unfold cell_48, markers. cbn [for_each]. intros H.
  apply bind_returns in H as (r & s1 & [-> Hh1]%anndata_AnnData_returns & H).
  apply bind_returns in H as ([] & s2 & (a1 & Ha1 & Hh2 & _)%update_returns & H).
  apply bind_returns in H as ([] & s3 & (a2 & Ha2 & Hh3 & _)%update_returns & H).
  apply bind_returns in H as ([] & s7 & H & [-> ->]%ret_returns).
  apply bind_returns in H as ([] & s4 & (c1 & a3 & Hc1 & Ha3 & Hh4)%set_obs_column_returns & H).
  apply bind_returns in H as ([] & s5 & (c2 & a4 & Hc2 & Ha4 & Hh5)%set_obs_column_returns & H).
  apply bind_returns in H as ([] & s6 & (c3 & a5 & Hc3 & Ha5 & Hh6)%set_obs_column_returns & H).
  apply ret_returns in H as [_ ->].
  split; [done|].
  rewrite Hh1, heap_app_lookup in Ha1. rewrite Hh1, heap_app_insert in Hh2.
  rewrite Hh2, heap_app_lookup in Ha2. rewrite Hh2, heap_app_insert in Hh3.
  rewrite Hh3, heap_app_lookup in Ha3. rewrite Hh3, heap_app_insert in Hh4.
  rewrite Hh4, heap_app_lookup in Ha4. rewrite Hh4, heap_app_insert in Hh5.
  rewrite Hh5, heap_app_lookup in Ha5. rewrite Hh5, heap_app_insert in Hh6.
  apply with_var_names_Ok in Ha1 as [_ ->].
  apply with_obs_names_Ok in Ha2 as [_ ->].
  apply with_obs_column_Ok in Ha3 as [Hl1 ->].
  apply with_obs_column_Ok in Ha4 as [Hl2 ->].
  apply with_obs_column_Ok in Ha5 as [Hl3 ->].
  exists (mkAnnData x (to_pandas barcodes) genes
            (<["EPCAM_raw" := c3]> (<["TMPRSS2_raw" := c2]> (<["ACE2_raw" := c1]> ∅)))
            ∅ ∅ ∅ ∅).
  split; [done|]. split; [done|]. split; [done|].
  destruct (raw !! "ACE2") as [v1|] eqn:E1; [injection Hc1 as <-|done].
  destruct (raw !! "TMPRSS2") as [v2|] eqn:E2; [injection Hc2 as <-|done].
  destruct (raw !! "EPCAM") as [v3|] eqn:E3; [injection Hc3 as <-|done].
  intros marker Hin. cbn [obs] in *.
  repeat (apply elem_of_cons in Hin as [->|Hin]);
    [exists v1 | exists v2 | exists v3 | by apply elem_of_nil in Hin];
    (split_and!; [done | reflexivity | done]).
Qed.

End MarkerFacts.

(** ** The input cell and the whole pipeline *)

Section PipelineFacts.
Context {val graph : Type} (L : @Libs val graph).
Abbreviation state4 := (@state val graph).

Lemma Ok_inj {A} (a b : A) : Ok a = Ok b → a = b.
Proof. by intros [= ->]. Qed.

(** The input cell, case by case. *)
Lemma cell_10_run (s : state4) :
  cell_10 s =
    match fs s !! input_file with
    | Some _ => (Ok (), record (E_os_path_exists input_file) None s)
    | None =>
        let s1 := record (E_print "Downloading import file...") None
                    (record (E_os_path_exists input_file) None s) in
        match fs s !! data_dir with
        | Some (File _) =>
            (Err FileExistsError,
             record (E_os_makedirs data_dir) (Some FileExistsError) s1)
        | _ =>
            let s2 := record (E_os_makedirs data_dir) None
                        (mkState (<[data_dir := Dir]> (fs s)) (net s) (heap s) (log s1)) in
            match net s !! input_url with
            | Some content =>
                (Ok (),
                 record (E_wget_download input_url input_file) None
                   (mkState (<[input_file := File content]> (fs s2))
                            (net s) (heap s) (log s2)))
            | None =>
                (Err URLError,
                 record (E_wget_download input_url input_file) (Some URLError) s2)
            end
        end
    end.
Proof.
  unfold cell_10, bind, os_path_exists, py_print, os_makedirs, wget_download,
    lib_call, world_call. cbn.
  destruct (fs s !! input_file) as [n|] eqn:Hin; cbn.
  - done.
  - destruct (fs s !! data_dir) as [[c|]|]; cbn; [done|..];
      by destruct (net s !! input_url).
Qed.

Lemma cell_10_returns (s s' : state4) :
  cell_10 s = (Ok (), s') →
  heap s' = heap s ∧ fs s' !! input_file = input_content s.
Proof.
  rewrite cell_10_run. unfold input_content.
  destruct (fs s !! input_file) as [n|] eqn:Hin.
  - by intros [= <-].
  - cbn. destruct (fs s !! data_dir) as [[c|]|]; [done|..];
      (destruct (net s !! input_url) as [content|]; [|done]);
      intros [= <-]; cbn; by rewrite lookup_insert_eq.
Qed.

Lemma sc_read_returns path adata (s s' : state4) :
  sc_read L path s = (Ok adata, s') →
  ∃ content a, fs s !! path = Some (File content) ∧ read_h5ad L content = Ok a ∧
               adata = length (heap s) ∧ heap s' = heap s ++ [a].
Proof.
  unfold sc_read, bind, world_call, alloc. cbn.
  destruct (fs s !! path) as [[content|]|]; [|done..].
  destruct (read_h5ad L content) as [a|] eqn:Hread; [|done].
  intros [= <- <-]. by exists content, a.
Qed.

(** Cells 51 to 58 on the object at [adata]. *)
Lemma cluster_cells_return adata (s s1 s2 s3 s4 : state4) :
  adata < length (heap s) →
  cell_51 L adata s = (Ok (), s1) →
  cell_54 L adata s1 = (Ok (), s2) →
  cell_56 L adata s2 = (Ok (), s3) →
  cell_58 L adata s3 = (Ok (), s4) →
  ∃ pcs g layout um labels lv,
    let a := heap s !!! adata in
    PCA_fit_transform L (PcaParams n_components (Some "numpy")) (X a) = Ok pcs ∧
    length pcs = n_obs a ∧ length layout = n_obs a ∧ length labels = n_obs a ∧
    (length (distances L g) = n_obs a ∧ n_cols L (distances L g) = n_obs a) ∧
    (length (connectivities L g) = n_obs a ∧ n_cols L (connectivities L g) = n_obs a) ∧
    heap s4 = <[adata := clustered L a pcs g layout um labels lv]> (heap s).
Proof.
  intros Hvalid. unfold cell_51, cell_54, cell_56, cell_58, cuml_PCA_fit_transform.
  intros H H4 H5 H6.
  apply bind_returns in H as (a & s0 & [= <- <-] & H).
  apply bind_returns in H as (pcs & s0 & [Hpca ->]%lib_call_returns & H).
  apply set_obsm_returns in H as (a1 & [Hl1 ->]%with_obsm_Ok & Hh3 & _).
  cbn [heap record] in *.
  assert (adata < length (heap s1)) as Hvalid1 by (by rewrite Hh3, length_insert).
  destruct (graph_steps_return L adata _ _ _ s1 s2 s3 s4 Hvalid1 H4 H5 H6) as
    (g & layout & um & labels & lv & Hl2 & Hl3 & Hd & Hc & Hh).
  rewrite Hh3, heap_lookup_total_insert in Hl2, Hl3, Hd, Hc, Hh by done.
  rewrite list_insert_insert_eq in Hh.
  unfold n_obs in *. cbn [X obs_names var_names obs var obsm uns obsp] in *.
  destruct Hd, Hc. exists pcs, g, layout, um, labels, lv. split_and!; try done.
Qed.

(** A run of the pipeline that returns, step by step. *)
Lemma main_pipeline_returns adata (s s' : state4) :
  main_pipeline L s = (Ok adata, s') →
  ∃ content a0 m1 barcodes m2 genes m3 mnorm (raw : gmap string (list val)) h a,
    input_content s = Some (File content) ∧
    read_h5ad L content = Ok a0 ∧
    filter_cells L (X a0) min_genes_per_cell max_genes_per_cell
      (cudf_Series (obs_names a0)) = (m1, barcodes) ∧
    filter_genes L m1 (cudf_Series (var_names a0)) 1 = (m2, genes) ∧
    normalize_total L (10000 # 1) m2 = Ok m3 ∧
    log1p L m3 = Ok mnorm ∧
    (∀ marker, marker ∈ markers →
       ∃ j c, index0 (series_eq marker genes) = Ok j ∧ getcol j mnorm = Ok c ∧
              raw !! marker = Some c) ∧
    adata = length h ∧ heap s' = h ++ [a] ∧
    obs_names a = to_pandas barcodes ∧
    (∀ marker, marker ∈ markers →
       ∃ c, raw !! marker = Some c ∧
            obs a !! (marker +:+ "_raw") = Some (NumCol c) ∧
            length c = length (to_pandas barcodes)).
Proof.
  unfold main_pipeline. intros H.
  apply bind_returns in H as ([] & s1 & [Hh1 Hfs1]%cell_10_returns & H).
  apply bind_returns in H as
    (adata0 & s2 & (content & a0 & Hfile & Hread & -> & Hh2)%sc_read_returns & H).
  apply bind_returns in H as ([] & s3 & [_ ->]%lib_call_returns & H).
  apply bind_returns in H as ([[genes0 barcodes0] x0] & s4 & H17 & H).
  apply bind_returns in H17 as (a0' & ? & [= <- <-] & [= <- <- <- <-]).
  cbn [heap record] in H. rewrite Hh2, heap_app_lookup in H.
  apply bind_returns in H as ([m1 barcodes] & s5 & [H21%Ok_inj ->]%lib_call_returns & H).
  apply bind_returns in H as ([m2 genes] & s6 & [H23%Ok_inj ->]%lib_call_returns & H).
  apply bind_returns in H as ([] & s7 & [_ ->]%lib_call_returns & H).
  apply bind_returns in H as (m3 & s8 & [H28 ->]%lib_call_returns & H).
  apply bind_returns in H as (mnorm & s9 & [H30 ->]%lib_call_returns & H).
  apply bind_returns in H as (adata1 & s10 & _ & H).
  apply bind_returns in H as (adata2 & s11 & _ & H).
  apply bind_returns in H as (raw & s12 & H38 & H).
  apply bind_returns in H as ([[genes1 n_counts] percent_ribo] & s13 & _ & H).
  apply bind_returns in H as (x1 & s14 & _ & H).
  apply bind_returns in H as (x2 & s15 & _ & H).
  apply bind_returns in H as (adata3 & s16 & H48 & H).
  apply cell_48_returns in H48 as (Hadata & a & Hh16 & _ & Hnames & Hobs).
  subst adata3.
  apply bind_returns in H as ([] & s17 & H51 & H).
  apply bind_returns in H as ([] & s18 & H54 & H).
  apply bind_returns in H as ([] & s19 & H56 & H).
  apply bind_returns in H as ([] & s20 & H58 & [-> ->]%ret_returns).
  assert (length (heap s15) < length (heap s16)) as Hvalid
    by (rewrite Hh16, length_app; cbn; lia).
  destruct (cluster_cells_return _ _ _ _ _ _ Hvalid H51 H54 H56 H58)
    as (pcs & g & layout & um & labels & lv & _ & _ & _ & _ & _ & _ & Hh20).
  rewrite Hh16, heap_app_lookup, heap_app_insert in Hh20.
  eexists content, a0, m1, barcodes, m2, genes, m3, mnorm, raw, (heap s15), _.
  split_and!; try done.
  - by rewrite <- Hfs1.
  - by apply (cell_38_returns _ _ _ _ _ H38).
  - intros marker Hin. destruct (Hobs marker Hin) as (c & Hraw & Hcol & Hlen).
    exists c. split_and!; [done| |done].
    unfold clustered. cbn [obs]. rewrite lookup_insert_ne; [done|].
    unfold markers in Hin.
    repeat (apply elem_of_cons in Hin as [->|Hin]); [done..|by apply elem_of_nil in Hin].
Qed.

End PipelineFacts.

(** ** Worlds that agree on the input *)

Section AgreeFacts.
Context {val graph : Type} (L : @Libs val graph).
Abbreviation state5 := (@state val graph).
Abbreviation M5 := (@M val graph).

Lemma agree_record ev1 o1 ev2 o2 (s1 s2 : state5) :
  agree s1 s2 → agree (record ev1 o1 s1) (record ev2 o2 s2).
Proof. by intros (? & ? & ? & ?). Qed.

Lemma respects_ret {A} (a : A) : respects (val := val) (graph := graph) (ret a).
Proof. by intros s1 s2 Hs. Qed.

Lemma respects_bind {A B} (m : M5 A) (k : A → M5 B) :
  respects m → (∀ a, respects (k a)) → respects (bind m k).
Proof.
  intros Hm Hk s1 s2 Hs. unfold bind.
  destruct (Hm s1 s2 Hs) as [Hr Hs'].
  destruct (m s1) as [[a1|e1] s1'], (m s2) as [[a2|e2] s2']; cbn in *; try done.
  - injection Hr as <-. by apply Hk.
  - by injection Hr as <-.
Qed.

Lemma respects_world_call {A} ev (f : state5 → result A * state5) :
  (∀ s1 s2, agree s1 s2 → (f s1).1 = (f s2).1 ∧ agree (f s1).2 (f s2).2) →
  respects (world_call ev f).
Proof.
  intros Hf s1 s2 Hs. unfold world_call.
  destruct (Hf s1 s2 Hs) as [Hr Hs'].
  destruct (f s1) as [r1 s1'], (f s2) as [r2 s2']; cbn in *.
  split; [done|]. by apply agree_record.
Qed.

Lemma respects_lib_call {A} ev (r : result A) :
  respects (val := val) (graph := graph) (lib_call ev r).
Proof. by apply respects_world_call. Qed.

Lemma respects_alloc (a : @AnnData val graph) : respects (alloc a).
Proof.
  intros s1 s2 (Hh & ? & ? & ?). unfold alloc, agree. cbn.
  by rewrite Hh.
Qed.

Lemma respects_deref adata : respects (val := val) (graph := graph) (deref adata).
Proof.
  intros s1 s2 Hs. unfold deref. cbn. split; [|done].
  destruct Hs as [Hh _]. by rewrite Hh.
Qed.

Lemma respects_store adata (a : @AnnData val graph) : respects (store adata a).
Proof.
  intros s1 s2 (Hh & ? & ? & ?). unfold store, agree. cbn. by rewrite Hh.
Qed.

Lemma respects_for_each {A B} (l : list A) (body : A → B → M5 B) :
  (∀ x acc, respects (body x acc)) → ∀ acc, respects (for_each l body acc).
Proof.
  intros Hbody. induction l as [|x l IH]; intros acc; cbn.
  - apply respects_ret.
  - apply respects_bind; [apply Hbody | apply IH].
Qed.

Lemma respects_os_path_exists :
  respects (val := val) (graph := graph) (os_path_exists input_file).
Proof.
  apply respects_world_call. intros s1 s2 Hs. cbn. split; [|done].
  destruct Hs as (_ & Hin & _). by rewrite Hin.
Qed.

Lemma respects_os_makedirs :
  respects (val := val) (graph := graph) (os_makedirs data_dir).
Proof.
  apply respects_world_call. intros s1 s2 (Hh & Hin & Hdir & Hnet).
  rewrite Hdir. destruct (fs s2 !! data_dir) as [[c|]|] eqn:E; cbn;
    (split; [done|]); unfold agree; cbn;
    rewrite ?lookup_insert_eq, ?lookup_insert_ne by done;
    split_and!; congruence.
Qed.

Lemma respects_wget_download :
  respects (val := val) (graph := graph) (wget_download input_url input_file).
Proof.
  apply respects_world_call. intros s1 s2 (Hh & Hin & Hdir & Hnet).
  rewrite Hnet. destruct (net s2 !! input_url) as [c|] eqn:E; cbn;
    (split; [done|]); unfold agree; cbn;
    rewrite ?lookup_insert_eq, ?lookup_insert_ne by done;
    split_and!; congruence.
Qed.

Lemma respects_sc_read : respects (sc_read L input_file).
Proof.
  unfold sc_read. apply respects_bind; [|intros; apply respects_alloc].
  apply respects_world_call. intros s1 s2 Hs. cbn. split; [|done].
  destruct Hs as (_ & Hin & _). by rewrite Hin.
Qed.

Create HintDb respects.

#[local] Hint Resolve respects_ret respects_lib_call respects_alloc
  respects_deref respects_store respects_os_path_exists respects_os_makedirs
  respects_wget_download respects_sc_read : respects.

Ltac respects_step :=
  lazymatch goal with
  | |- respects (bind _ _) => apply respects_bind; [ | intros ? ]
  | |- respects (for_each _ _ _) => apply respects_for_each; intros ? ?
  | |- respects (let '(_, _) := ?x in _) => destruct x
  | |- respects (if ?b then _ else _) => destruct b
  | |- respects _ => solve [eauto with respects]
  end.

(** The outcome of the pipeline and the objects it leaves in the kernel
    depend on the world only through what [agree] compares. *)
Lemma main_pipeline_respects : respects (main_pipeline L).
Proof.
  unfold main_pipeline, cell_10, cell_15, cell_16, cell_17, cell_21, cell_23,
    cell_25, cell_28, cell_30, cell_33, cell_35, cell_38, cell_40, cell_42,
    cell_45, cell_48, cell_51, cell_54, cell_56, cell_58,
    sc_pp_highly_variable_genes, getitem_highly_variable, cuml_PCA_fit_transform,
    anndata_AnnData, set_var_names, set_obs_names, set_obs_column, set_obsm,
    sc_pp_neighbors, sc_tl_umap, sc_tl_louvain, py_display, py_print.
  repeat respects_step.
Qed.

End AgreeFacts.

(** ** Gene filtering and the markers *)

Section FilterFacts.
Context {val graph : Type} (L : @Libs val graph).
Abbreviation state6 := (@state val graph).
Abbreviation matrix6 := (@matrix val).

Lemma elem_of_mask_select {A} (mask : list bool) (l : list A) (x : A) :
  x ∈ mask_select mask l ↔ ∃ j, mask !! j = Some true ∧ l !! j = Some x.
Proof.
  unfold mask_select. rewrite list_elem_of_fmap. split.
  - intros ([b y] & -> & [Hb Hin]%list_elem_of_filter). cbn in *. subst b.
    apply list_elem_of_lookup in Hin as [j Hj].
    apply lookup_zip_with_Some in Hj as (b & y' & [= <- <-] & ? & ?). eauto.
  - intros (j & Hm & Hl). exists (true, x). split; [done|].
    apply list_elem_of_filter. split; [done|].
    apply list_elem_of_lookup. exists j.
    apply lookup_zip_with_Some. eauto.
Qed.

Lemma to_pandas_cudf_Series {A} (l : list A) : to_pandas (cudf_Series l) = l.
Proof. unfold to_pandas, cudf_Series. apply snd_zip. by rewrite length_seq. Qed.

Lemma cudf_Series_lookup {A} (l : list A) j p :
  cudf_Series l !! j = Some p ↔ ∃ x, p = (j, x) ∧ l !! j = Some x.
Proof.
  unfold cudf_Series. rewrite lookup_zip_with_Some. split.
  - intros (i & x & -> & Hi & Hx). apply lookup_seq in Hi as [-> _]. eauto.
  - intros (x & -> & Hx). exists j, x. split_and!; [done| |done].
    apply lookup_seq. split; [done|]. by eapply lookup_lt_Some.
Qed.

Lemma n_cells_expressing_pos (x : matrix6) j :
  1 ≤ n_cells_expressing L x j ↔
    ∃ row, row ∈ x ∧ expressed L <$> row !! j = Some true.
Proof.
  unfold n_cells_expressing.
  destruct (filter _ x) as [|row rest] eqn:Hf; cbn.
  - split; [lia|]. intros (row & Hin & Hrow).
    assert (row ∈ filter (λ row : list val, expressed L <$> row !! j = Some true) x) as Hin'
      by by apply list_elem_of_filter.
    rewrite Hf in Hin'. by apply elem_of_nil in Hin'.
  - split; [|lia]. intros _. exists row.
    assert (row ∈ filter (λ row : list val, expressed L <$> row !! j = Some true) x) as Hin'
      by (rewrite Hf; left).
    apply list_elem_of_filter in Hin' as [? ?]. done.
Qed.

(** A gene name survives [filter_genes(min_cells=1)] exactly when a gene of
    that name is expressed in at least one cell. *)
Lemma filter_genes_keeps (x : matrix6) (genes : list string) marker :
  marker ∈ to_pandas (filter_genes L x (cudf_Series genes) 1).2 ↔
    expressed_in_some_cell L x genes marker.
Proof.
  unfold filter_genes, expressed_in_some_cell. cbn [snd].
  unfold reset_index. rewrite to_pandas_cudf_Series.
  unfold to_pandas. rewrite list_elem_of_fmap. split.
  - intros ([i name] & -> & (j & Hthr & Hj)%elem_of_mask_select).
    apply cudf_Series_lookup in Hj as (name' & [= -> ->] & Hname).
    apply list_lookup_fmap_Some in Hthr as (j' & Hdec & Hj').
    apply lookup_seq in Hj' as [-> _]. cbn in Hdec.
    symmetry in Hdec. apply bool_decide_eq_true in Hdec.
    apply n_cells_expressing_pos in Hdec as (row & ? & ?).
    exists j, row. done.
  - intros (j & row & Hname & Hin & Hrow).
    exists (j, marker). split; [done|].
    apply elem_of_mask_select. exists j. split.
    + apply list_lookup_fmap_Some. exists j. split.
      * symmetry. apply bool_decide_eq_true.
        apply n_cells_expressing_pos. eauto.
      * apply lookup_seq. split; [done|].
        unfold cudf_Series. rewrite length_zip_with, length_seq.
        apply lookup_lt_Some in Hname. lia.
    + apply cudf_Series_lookup. eauto.
Qed.

Lemma index_of_Some (l : list string) marker :
  (∃ j, index_of l marker = Some j) ↔ marker ∈ l.
Proof.
  unfold index_of. split.
  - intros (j & Hj). destruct (list_find _ l) as [[j' y]|] eqn:Hfind; [|done].
    apply list_find_Some in Hfind as (Hl & -> & _).
    by eapply list_elem_of_lookup_2.
  - intros Hin. destruct (list_find (λ n, n = marker) l) as [[j y]|] eqn:Hfind.
    + by exists j.
    + eapply list_find_None, Forall_forall in Hfind; [|done]. done.
Qed.

Lemma bind_raises {A B} (m : @M val graph A) (k : A → @M val graph B) s e s' :
  bind m k s = (Err e, s') →
  m s = (Err e, s') ∨ ∃ a s1, m s = (Ok a, s1) ∧ k a s1 = (Err e, s').
Proof.
  unfold bind. destruct (m s) as [[a|e0] s1]; [eauto|].
  intros [= -> ->]. by left.
Qed.

Lemma index0_raises {A} (s : Series A) e : index0 s = Err e → e = IndexError.
Proof. destruct s; [by intros [= <-] | done]. Qed.

Lemma getcol_raises j (m : matrix6) e : getcol j m = Err e → e = IndexError.
Proof. unfold getcol. destruct (mapM _ m); [done | by intros [= <-]]. Qed.

Lemma for_each_raises {A B} (l : list A) (body : A → B → @M val graph B)
    (P : exn → Prop) :
  (∀ x acc s s' e, body x acc s = (Err e, s') → P e) →
  ∀ acc s s' e, for_each l body acc s = (Err e, s') → P e.
Proof.
  intros Hbody. induction l as [|x l IH]; intros acc s s' e; cbn; [done|].
  intros [H|(acc' & s1 & _ & H)]%bind_raises; eauto.
Qed.

(** The capture cell can only fail with an [IndexError]. *)
Lemma cell_38_raises (x : matrix6) genes e (s s' : state6) :
  cell_38 x genes s = (Err e, s') → e = IndexError.
Proof.
  unfold cell_38. intros H.
  eapply (for_each_raises _ _ (λ e, e = IndexError)); [|exact H]. clear.
  intros marker raw s s' e [H|(j & s1 & _ & H)]%bind_raises.
  - apply lib_call_raises in H as [H _]. by apply index0_raises in H.
  - apply bind_raises in H as [H|(c & s2 & _ & H)]; [|done].
    apply lib_call_raises in H as [H _]. by apply getcol_raises in H.
Qed.

(** ** The dashboard and its table *)

Lemma filter_prefix {A} (P : A → Prop) `{!∀ x, Decision (P x)} (l1 l2 : list A) :
  l1 `prefix_of` l2 → filter P l1 `prefix_of` filter P l2.
Proof. intros [k ->]. rewrite filter_app. by apply prefix_app_r. Qed.

Lemma dashboard_events_artifacts script :
  artifacts (dashboard_events script) = if exports script then [E_export] else [].
Proof.
  unfold artifacts.
  induction script as [|[barcodes| |] script IH]; cbn; done.
Qed.

Lemma artifacts_app l1 l2 : artifacts (l1 ++ l2) = artifacts l1 ++ artifacts l2.
Proof. apply filter_app. Qed.

Lemma main_events_artifacts present :
  artifacts (main_events present) =
    if present then [] else [E_os_makedirs data_dir; E_wget_download input_url input_file].
Proof. destruct present; vm_compute; reflexivity. Qed.

Lemma notebook_events_artifacts present script :
  artifacts (notebook_events present script) = notebook_artifacts present script.
Proof.
  unfold notebook_events, interactive_events, notebook_artifacts.
  rewrite !artifacts_app, main_events_artifacts, dashboard_events_artifacts.
  f_equal. change (artifacts [E_pl_umap ["louvain"]; E_Visualization_start "localhost"])
    with [E_pl_umap ["louvain"]; E_Visualization_start "localhost"].
  replace (artifacts _) with (@nil event) by (vm_compute; reflexivity).
  by rewrite app_nil_r.
Qed.

Lemma dashboard_returns (cb : loc → @M val graph loc) script :
  ∀ current selection (s s' : state6) new_df,
    dashboard cb script current selection s = (Ok new_df, s') →
    match new_df with
    | Some df =>
        exports script = true ∧
        ∃ selection' (a : @AnnData val graph), export_table selection' a = Ok df
    | None => exports script = false
    end.
Proof.
  induction script as [|[barcodes| |] script IH]; intros current selection s s' new_df;
    cbn [dashboard exports existsb orb].
  - by intros [= <- _].
  - apply IH.
  - intros H.
    apply bind_returns in H as (a & s1 & _ & H).
    apply bind_returns in H as (sub & s2 & _ & H).
    apply bind_returns in H as (subset & s3 & _ & H).
    apply bind_returns in H as (current' & s4 & _ & H).
    by apply IH in H.
  - intros H.
    apply bind_returns in H as (a & s1 & _ & H).
    apply bind_returns in H as (df & s2 & [Hdf _]%lib_call_returns & [-> _]%ret_returns).
    eauto.
Qed.

(** The table the dashboard leaves is the export of the selection in force
    from the object it shows, both as the user's actions have made them. *)
Lemma dashboard_exports script :
  ∀ current selection (s s' : state6) df,
    dashboard (re_cluster L) script current selection s = (Ok (Some df), s') →
    export_table (exported_selection script selection)
      (heap s' !!! exported_object script current (length (heap s))) = Ok df.
Proof.
  induction script as [|[barcodes| |] script IH]; intros current selection s s' df;
    cbn [dashboard exported_selection exported_object].
  - by intros [= ].
  - apply IH.
  - intros H.
    apply bind_returns in H as (a & s1 & [= <- <-] & H).
    apply bind_returns in H as (sub & s2 & [_ ->]%lib_call_returns & H).
    apply bind_returns in H as (subset & s3 & [= <- <-] & H).
    apply bind_returns in H as (current' & s4 & Hre & H).
    apply re_cluster_returns in Hre as
      (-> & pcs & g & layout & um & labels & lv & _ & _ & _ & _ & _ & _ & Hh4);
      [|cbn; rewrite length_app; cbn; lia].
    apply IH in H. cbn in Hh4.
    rewrite Hh4, length_insert, length_app in H. cbn in H.
    by rewrite Nat.add_1_r in H.
  - intros H.
    apply bind_returns in H as (a & s1 & [= <- <-] & H).
    apply bind_returns in H as (df' & s2 & [Hdf ->]%lib_call_returns & H).
    apply ret_returns in H as [Heq ->]. by injection Heq as ->.
Qed.

Lemma cell_69_exports adata script (s s' : state6) df :
  cell_69 L adata script s = (Ok (Some df), s') →
  export_table (exported_selection script (obs_names (heap s !!! adata)))
    (heap s' !!! exported_object script adata (length (heap s))) = Ok df.
Proof.
  unfold cell_69, Visualization_start. intros H.
  apply bind_returns in H as (new_df & s1 & H & [<- ->]%ret_returns).
  apply bind_returns in H as ([] & s2 & [_ ->]%lib_call_returns & H).
  apply bind_returns in H as (a & s3 & [= <- <-] & H).
  by apply dashboard_exports in H.
Qed.

(** The exported table has one row per selected cell, with its barcode and
    the Louvain label of that cell. *)
Lemma export_table_rows selection (a : @AnnData val graph) df :
  export_table selection a = Ok df →
  barcode <$> df = selection ∧
  ∃ lab, obs a !! "louvain" = Some (StrCol lab) ∧
         Forall (λ row, ∃ i, index_of (obs_names a) (barcode row) = Some i ∧
                             lab !! i = Some (labels row)) df.
Proof.
  unfold export_table.
  destruct (obs a !! "louvain") as [[?|lab|?]|]; try done.
  destruct (mapM _ selection) as [rows|] eqn:Hrows; [|done].
  intros [= <-]. apply mapM_Some in Hrows.
  split.
  - induction Hrows as [|b row sel rows Hrow _ IH]; [done|]. cbn.
    destruct (index_of _ b) as [i|]; [|done]. cbn in Hrow.
    destruct (lab !! i); [|done]. injection Hrow as <-. cbn. by rewrite IH.
  - exists lab. split; [done|].
    induction Hrows as [|b row sel rows Hrow _ IH]; constructor; [|done].
    destruct (index_of _ b) as [i|] eqn:Hi; [|done]. cbn in Hrow.
    destruct (lab !! i) as [l|] eqn:Hl; [|done]. injection Hrow as <-. cbn. eauto.
Qed.

End FilterFacts.

(** * The claims *)

Section Claims.
Context {val graph : Type} (L : @Libs val graph).
Abbreviation world := (@state val graph).



(** C6: the only file whose content a run reads is the one at the fixed
    path [input_file], read once by [sc.read]; what is loaded is the decoding
    of the content found there; and the only paths of the file system a run
    looks at or writes to are [input_file] and its directory. *)
Theorem only_the_input_file_is_read (script : list user_action) (s : world) :
  (∃ l, log (notebook L script s).2 = log s ++ l ∧
        omap read_path (call <$> l) `prefix_of` [input_file] ∧
        match (notebook L script s).1 with
        | Ok _ => omap read_path (call <$> l) = [input_file]
        | Err _ => True
        end ∧
        Forall (λ p, p = input_file ∨ p = data_dir) (omap touched_path (call <$> l))) ∧
  (cell_15 L s).1 =
    match fs s !! input_file with
    | Some (File content) => rbind (read_h5ad L content) (λ _, Ok (length (heap s)))
    | Some Dir => Err IsADirectoryError
    | None => Err FileNotFoundError
    end.
Proof.
  split.
  - destruct (notebook_traced L script s) as (l & Hlog & H).
    exists l. split; [done|].
    set (present := bool_decide (is_Some (fs s !! input_file))) in *.
    assert (call <$> l `prefix_of` notebook_events present script) as Hpre.
    { destruct ((notebook L script s).1) as [r|e].
      - by destruct H as [-> _].
      - by destruct H as (l0 & ev & _ & _ & Hpre). }
    split_and!.
    + rewrite <- (notebook_events_read_path present script). by apply omap_prefix.
    + destruct ((notebook L script s).1) as [r|e]; [|done].
      destruct H as [-> _]. apply notebook_events_read_path.
    + eapply Forall_prefix; [by apply omap_prefix|].
      apply notebook_events_touched_path.
  - unfold cell_15, sc_read, bind, world_call. cbn.
    destruct (fs s !! input_file) as [[content|]|]; [|done..].
    by destruct (read_h5ad L content).
Qed.

(** C1: [re_cluster], given a valid reference to any annotated data object,
    calls PCA, the neighbour graph, UMAP and Louvain, in this order and
    nothing else but the assignment of the PCA result to [obsm], with
    n_components=50, n_neighbors=15, n_pcs=50, min_dist=0.3, spread=1.0 and
    'rapids'; these are the parameters of the same four calls in every run of
    the main pipeline.  Each of the four operations of the library is applied
    to the object as the call before left it, and what it gives is what is
    stored.  [re_cluster] returns the reference it was given, the object
    behind it now holding what the four calls store: the embedding under
    [obsm]; the record of the neighbours under [uns] and its distances and
    connectivities under [obsp]; the layout under [obsm] and the parameters
    of UMAP under [uns]; the labels under [obs] and the parameters of Louvain
    under [uns]. *)
Theorem re_cluster_reinvokes_clustering (adata adata' : loc) (s s' : world) :
  adata < length (heap s) →
  re_cluster L adata s = (Ok adata', s') →
  adata' = adata ∧
  (∃ l, log s' = log s ++ l ∧ quiet l ∧
        call <$> l = cluster_events None ∧
        omap clustering_call (call <$> l) = fixed_configuration) ∧
  (∀ s0 : world,
     ∃ l0, log (main_pipeline L s0).2 = log s0 ++ l0 ∧
           match (main_pipeline L s0).1 with
           | Ok _ => omap clustering_call (call <$> l0) = fixed_configuration
           | Err _ => omap clustering_call (call <$> l0) `prefix_of` fixed_configuration
           end) ∧
  (∃ pcs a1 g a2 layout um a3 labels lv,
     let a := heap s !!! adata in
     PCA_fit_transform L (PcaParams n_components None) (X a) = Ok pcs ∧
     with_obsm "X_pca" pcs a = Ok a1 ∧
     neighbors L (NeighborsParams n_neighbors knn_n_pcs "rapids") a1 = Ok g ∧
     with_neighbors L g a1 = Ok a2 ∧
     umap L (UmapParams umap_min_dist umap_spread "rapids") a2 = Ok (layout, um) ∧
     with_obsm "X_umap" layout (with_uns "umap" um a2) = Ok a3 ∧
     louvain L (LouvainParams "rapids") a3 = Ok (labels, lv) ∧
     heap s' =
       <[adata := mkAnnData (X a) (obs_names a) (var_names a)
                    (<["louvain" := StrCol labels]> (obs a)) (var a)
                    (<["X_umap" := layout]> (<["X_pca" := pcs]> (obsm a)))
                    (<["louvain" := lv]>
                       (<["umap" := um]> (<["neighbors" := g]> (uns a))))
                    (<["connectivities" := connectivities L g]>
                       (<["distances" := distances L g]> (obsp a)))]> (heap s)).
Proof.
  intros Hvalid Hrun.
  destruct (re_cluster_returns L _ _ _ _ Hvalid Hrun) as [-> _].
  destruct (re_cluster_chain L _ _ _ _ Hvalid Hrun) as
    (pcs & a1 & g & a2 & layout & um & a3 & labels & lv & a4 &
     Hpca & Ha1 & Hg & Ha2 & Hum & Ha3 & Hlv & Ha4 & Hheap).
  split_and!; [done| | |].
  3:{ exists pcs, a1, g, a2, layout, um, a3, labels, lv.
      split_and!; [done..|]. rewrite Hheap. f_equal.
      apply with_obsm_Ok in Ha1 as [_ ->].
      apply with_neighbors_Ok in Ha2 as (_ & _ & ->).
      apply with_obsm_Ok in Ha3 as [_ ->].
      by apply with_obs_column_Ok in Ha4 as [_ ->]. }
  - destruct (re_cluster_traced L adata s) as (l & Hlog & H).
    rewrite Hrun in Hlog, H. cbn in Hlog, H. destruct H as [Hcalls Hq].
    exists l. split_and!; [done..|]. by rewrite Hcalls.
  - intros s0. destruct (main_pipeline_traced L s0) as (l0 & Hlog & H).
    exists l0. split; [done|].
    rewrite <- (main_events_clustering (bool_decide (is_Some (fs s0 !! input_file)))).
    destruct ((main_pipeline L s0).1) as [r|e].
    + by destruct H as [-> _].
    + destruct H as (? & ? & _ & _ & Hpre). by apply omap_prefix.
Qed.

(** C4: when the pipeline has run, the column [<marker>_raw] of the
    annotated object is, for each of ACE2, TMPRSS2 and EPCAM, the column of
    the normalized and log-transformed matrix (not of the counts read from
    disk) at the first position [j] at which the filtered gene names hold
    the marker: its entry for the [i]-th cell is the entry at [j] of the
    [i]-th row of that matrix.  It has one entry per row of the matrix and
    per cell, and the cells are named by the barcodes that cell filtering
    returned with the rows. *)
Theorem marker_columns_hold_normalized_expression (adata : loc) (s s' : world) :
  main_pipeline L s = (Ok adata, s') →
  ∃ content a0 m1 barcodes m2 genes m3 mnorm,
    input_content s = Some (File content) ∧
    read_h5ad L content = Ok a0 ∧
    filter_cells L (X a0) min_genes_per_cell max_genes_per_cell
      (cudf_Series (obs_names a0)) = (m1, barcodes) ∧
    filter_genes L m1 (cudf_Series (var_names a0)) 1 = (m2, genes) ∧
    normalize_total L (10000 # 1) m2 = Ok m3 ∧
    log1p L m3 = Ok mnorm ∧
    let a := heap s' !!! adata in
    obs_names a = to_pandas barcodes ∧
    ∀ marker, marker ∈ markers →
      ∃ j c, index_of (to_pandas genes) marker = Some j ∧
             getcol j mnorm = Ok c ∧
             obs a !! (marker +:+ "_raw") = Some (NumCol c) ∧
             length c = length (obs_names a) ∧
             to_pandas genes !! j = Some marker ∧
             (∀ k, k < j → to_pandas genes !! k ≠ Some marker) ∧
             length c = length mnorm ∧
             ∀ i row, mnorm !! i = Some row →
                      ∃ v, row !! j = Some v ∧ c !! i = Some v.
Proof.
  intros (content & a0 & m1 & barcodes & m2 & genes & m3 & mnorm & raw & h & a &
          Hin & Hread & H21 & H23 & H28 & H30 & H38 & -> & Hheap & Hnames & Hobs)
    %main_pipeline_returns.
  exists content, a0, m1, barcodes, m2, genes, m3, mnorm.
  split_and!; [done..|]. cbn zeta. rewrite Hheap, heap_app_lookup.
  split; [done|]. intros marker Hmarker.
  destruct (H38 marker Hmarker) as (j & c & Hj & Hc & Hraw).
  destruct (Hobs marker Hmarker) as (c' & Hraw' & Hcol & Hlen).
  assert (c' = c) as -> by congruence.
  assert (genes = cudf_Series (to_pandas genes)) as Hreset.
  { unfold filter_genes in H23. injection H23 as _ <-.
    unfold reset_index. by rewrite to_pandas_cudf_Series. }
  rewrite Hreset in Hj. apply index0_series_eq in Hj.
  destruct (getcol_lookup _ _ _ Hc) as [Hrows Hentries].
  assert (to_pandas genes !! j = Some marker ∧
          ∀ k, k < j → to_pandas genes !! k ≠ Some marker) as [Hat Hfirst].
  { unfold index_of in Hj.
    destruct (list_find _ (to_pandas genes)) as [[j' name]|] eqn:Hfind; [|done].
    injection Hj as ->. apply list_find_Some in Hfind as (Hat & -> & Hfirst).
    split; [done|]. intros k Hk Hmark. by apply (Hfirst k marker). }
  exists j, c. split_and!; [done|done|done|by rewrite Hnames|done..].
Qed.

(** C8: two runs of the pipeline up to the Louvain clustering, with the same
    library, in kernels holding the same objects and in worlds with the same
    input file (and, for the case that it is missing, the same data directory
    and the same download), end in the same way and leave the same objects:
    the same filtered and scaled matrix, metadata tables, PCA embedding, UMAP
    layout and cluster labels. *)
Theorem two_runs_give_identical_outputs (s1 s2 : world) :
  agree s1 s2 →
  (main_pipeline L s1).1 = (main_pipeline L s2).1 ∧
  heap (main_pipeline L s1).2 = heap (main_pipeline L s2).2.
Proof.
  intros Hs. destruct (main_pipeline_respects L s1 s2 Hs) as [Hr [Hh _]]. done.
Qed.

(** C9: the input cell downloads exactly when there is nothing at
    [input_file].  If something is there, the cell only looks (no directory
    is made, nothing is downloaded, the file system is unchanged).  If
    nothing is there, it prints, makes [../data], and downloads from the
    fixed URL to [input_file]; either of the two may raise.  In every run
    [sc.read] comes after these calls. *)
Theorem download_iff_input_missing (s : world) :
  cell_10 s =
    match fs s !! input_file with
    | Some _ => (Ok (), record (E_os_path_exists input_file) None s)
    | None =>
        let s1 := record (E_print "Downloading import file...") None
                    (record (E_os_path_exists input_file) None s) in
        match fs s !! data_dir with
        | Some (File _) =>
            (Err FileExistsError,
             record (E_os_makedirs data_dir) (Some FileExistsError) s1)
        | _ =>
            let s2 := record (E_os_makedirs data_dir) None
                        (mkState (<[data_dir := Dir]> (fs s)) (net s) (heap s) (log s1)) in
            match net s !! input_url with
            | Some content =>
                (Ok (),
                 record (E_wget_download input_url input_file) None
                   (mkState (<[input_file := File content]> (fs s2))
                            (net s) (heap s) (log s2)))
            | None =>
                (Err URLError,
                 record (E_wget_download input_url input_file) (Some URLError) s2)
            end
        end
    end ∧
  ∃ l, log (main_pipeline L s).2 = log s ++ l ∧
       call <$> l `prefix_of`
         cell_10_events (bool_decide (is_Some (fs s !! input_file))) ++
         E_sc_read input_file ::
         preprocess_events ++ capture_events ++ regress_scale_events ++
         assemble_events ++ cluster_events (Some "numpy").
Proof.
  split; [apply cell_10_run|].
  destruct (main_pipeline_traced L s) as (l & Hlog & H).
  exists l. split; [done|].
  set (present := bool_decide _) in *.
  change (call <$> l `prefix_of` cell_10_events present ++ [E_sc_read input_file] ++
            preprocess_events ++ capture_events ++ regress_scale_events ++
            assemble_events ++ cluster_events (Some "numpy")).
  rewrite (assoc_L (++) (cell_10_events present)).
  destruct ((main_pipeline L s).1) as [r|e].
  - by destruct H as [-> _].
  - by destruct H as (? & ? & _ & _ & Hpre).
Qed.

(** C10: the capture of the marker expressions is partial.  With [x] the
    matrix after cell filtering and the gene names after gene filtering,
    [genes[genes == marker].index[0]] finds a position exactly when the marker
    is expressed in at least one cell of [x], and raises [IndexError]
    exactly when it is not; so the capture cell returns only if every marker
    is expressed in a surviving cell, it raises [IndexError] as soon as one
    is not, and no run of the pipeline gets past it then. *)
Theorem capture_needs_every_marker_expressed
    (x0 tmp_norm : @matrix val) (barcodes : Series string) (genes : list string)
    (s : world) :
  let x := (filter_cells L x0 min_genes_per_cell max_genes_per_cell barcodes).1 in
  let filtered := (filter_genes L x (cudf_Series genes) 1).2 in
  (∀ marker, (∃ j, index0 (series_eq marker filtered) = Ok j) ↔
               expressed_in_some_cell L x genes marker) ∧
  (∀ marker, index0 (series_eq marker filtered) = Err IndexError ↔
               ¬ expressed_in_some_cell L x genes marker) ∧
  (∀ raw s', cell_38 tmp_norm filtered s = (Ok raw, s') →
             ∀ marker, marker ∈ markers → expressed_in_some_cell L x genes marker) ∧
  ((∃ marker, marker ∈ markers ∧ ¬ expressed_in_some_cell L x genes marker) →
   (cell_38 tmp_norm filtered s).1 = Err IndexError) ∧
  (∀ s0 adata s0', main_pipeline L s0 = (Ok adata, s0') →
     ∃ content a0, input_content s0 = Some (File content) ∧
                   read_h5ad L content = Ok a0 ∧
                   ∀ marker, marker ∈ markers →
                     expressed_in_some_cell L
                       (filter_cells L (X a0) min_genes_per_cell max_genes_per_cell
                          (cudf_Series (obs_names a0))).1
                       (var_names a0) marker).
Proof.
  intros x filtered.
  assert (filtered = cudf_Series (to_pandas filtered)) as Hreset.
  { unfold filtered, filter_genes, reset_index. cbn [snd].
    by rewrite to_pandas_cudf_Series. }
  assert (∀ marker, (∃ j, index0 (series_eq marker filtered) = Ok j) ↔
                      expressed_in_some_cell L x genes marker) as Hfound.
  { intros marker. rewrite Hreset.
    setoid_rewrite index0_series_eq. rewrite index_of_Some.
    apply filter_genes_keeps. }
  assert (∀ marker, index0 (series_eq marker filtered) = Err IndexError ↔
                      ¬ expressed_in_some_cell L x genes marker) as Hmissing.
  { intros marker. rewrite <- Hfound. split.
    - intros Herr [j Hj]. congruence.
    - intros Hno. destruct (index0 _) as [j|e] eqn:Hidx; [destruct Hno; eauto|].
      by apply index0_raises in Hidx as ->. }
  assert (∀ raw s', cell_38 tmp_norm filtered s = (Ok raw, s') →
            ∀ marker, marker ∈ markers → expressed_in_some_cell L x genes marker)
    as Hreturns.
  { intros raw s' Hrun marker Hmarker. apply Hfound.
    destruct (cell_38_returns _ _ _ _ _ Hrun marker Hmarker) as (j & c & ? & _). eauto. }
  split_and!; [done..| |].
  - intros (marker & Hmarker & Hno).
    destruct (cell_38 tmp_norm filtered s) as [[raw|e] s'] eqn:Hrun; cbn.
    + destruct Hno. by eapply Hreturns.
    + by apply cell_38_raises in Hrun as ->.
  - intros s0 adata s0'
      (content & a0 & m1 & bc & m2 & g & m3 & mnorm & raw & h & a &
       Hin & Hread & H21 & H23 & _ & _ & H38 & _)%main_pipeline_returns.
    exists content, a0. split_and!; [done..|]. intros marker Hmarker.
    destruct (H38 marker Hmarker) as (j & c & Hj & _).
    rewrite H21. cbn [fst].
    apply filter_genes_keeps. rewrite H23. cbn [snd].
    apply index_of_Some. exists j. apply index0_series_eq.
    replace (cudf_Series (to_pandas g)) with g; [done|].
    unfold filter_genes in H23. injection H23 as _ <-.
    unfold reset_index. by rewrite to_pandas_cudf_Series.
Qed.

(** C5, amended: the dashboard leaves a table exactly when the user exports:
    [v.new_df] is then a table with one row per cell of the selection in
    force when the user exports (the cells of the last selection made; all
    cells of the object given to the dashboard when none was made), in this
    order, each row with the barcode of the cell and, in [labels], the
    Louvain label that cell has in the object the dashboard then shows (the
    subset made by the last re-clustering; the object given to the dashboard
    when there was none); it is [None] when the user does not export.
    Besides the dashboard and this table, a
    run renders the static UMAP plot before the dashboard starts and, when
    the input file was missing, makes the data directory and the downloaded
    file; a run has no other artifact. *)
Theorem table_iff_exported_and_artifacts (script : list user_action) (s : world) :
  (∃ l, log (notebook L script s).2 = log s ++ l ∧
        match (notebook L script s).1 with
        | Ok _ =>
            artifacts (call <$> l) =
              notebook_artifacts (bool_decide (is_Some (fs s !! input_file))) script
        | Err _ =>
            artifacts (call <$> l) `prefix_of`
              notebook_artifacts (bool_decide (is_Some (fs s !! input_file))) script
        end) ∧
  (∀ adata s0 new_df s0',
     cell_69 L adata script s0 = (Ok new_df, s0') →
     match new_df with
     | Some df =>
         exports script = true ∧
         let selection := exported_selection script (obs_names (heap s0 !!! adata)) in
         let a := heap s0' !!! exported_object script adata (length (heap s0)) in
         barcode <$> df = selection ∧
         ∃ lab, obs a !! "louvain" = Some (StrCol lab) ∧
                Forall (λ row, ∃ i, index_of (obs_names a) (barcode row) = Some i ∧
                                    lab !! i = Some (labels row)) df
     | None => exports script = false
     end) ∧
  (∀ r s', notebook L script s = (Ok r, s') → exports script = true ∧ is_Some r.1.2).
Proof.
  split_and!.
  - destruct (notebook_traced L script s) as (l & Hlog & H).
    exists l. split; [done|].
    rewrite <- notebook_events_artifacts.
    destruct ((notebook L script s).1) as [r|e].
    + by destruct H as [-> _].
    + destruct H as (? & ? & _ & _ & Hpre). by apply filter_prefix.
  - intros adata s0 new_df s0' H. pose proof H as H'.
    unfold cell_69, Visualization_start in H.
    apply bind_returns in H as (new_df' & s1 & H & [-> _]%ret_returns).
    apply bind_returns in H as ([] & s2 & _ & H).
    apply bind_returns in H as (a & s3 & _ & H).
    apply dashboard_returns in H. destruct new_df' as [df|]; [|done].
    destruct H as [Hexp _]. split; [done|].
    apply cell_69_exports in H'.
    apply export_table_rows in H' as (Hsel & lab & Hlab & Hrows).
    cbv zeta. split; [done|]. by exists lab.
  - unfold notebook, interactive. intros r s' H.
    apply bind_returns in H as (adata & s1 & _ & H).
    apply bind_returns in H as ([sel sub] & s2 & H & [-> _]%ret_returns).
    apply bind_returns in H as ([] & s3 & _ & H).
    apply bind_returns in H as (sel' & s4 & H69 & H).
    apply bind_returns in H as ([] & s5 & H73 & H).
    apply bind_returns in H as (sub' & s6 & _ & H).
    apply bind_returns in H as ([] & s7 & _ & [[= <- <-] _]%ret_returns).
    cbn [fst snd].
    unfold cell_73 in H73.
    apply bind_returns in H73 as ([] & s8 & [H73 _]%lib_call_returns & _).
    destruct sel as [df|]; [|done]. split; [|done].
    unfold cell_69, Visualization_start in H69.
    apply bind_returns in H69 as (new_df' & s9 & H69 & [[= <-] _]%ret_returns).
    apply bind_returns in H69 as ([] & s10 & _ & H69).
    apply bind_returns in H69 as (a & s11 & _ & H69).
    by apply dashboard_returns in H69 as [? _].
Qed.

End Claims.

(** * The claims on a concrete run *)

(** With the small library, normalization doubles and [log1p] adds one: the
    ACE2 counts 5 and 0 of the two cells that pass the cell filter become 11
    and 1, and the third cell is filtered out. *)
Example toy_marker_column :
  obs (heap Toy.after_main !!! 3) !! "ACE2_raw" = Some (NumCol [11; 1]%Z) ∧
  obs_names (heap Toy.after_main !!! 3) = ["AAAC"; "AAAG"].
Proof. split; vm_compute; reflexivity. Qed.

Example toy_download :
  call <$> log (cell_10 Toy.without_file).2 = cell_10_events false ∧
  fs (cell_10 Toy.without_file).2 !! input_file = Some (File "h5ad").
Proof. split; vm_compute; reflexivity. Qed.

Example toy_steps :
  omap stage_of (call <$> log Toy.exported.2) =
    main_stages ++ [Visualize; Visualize; ExportSelection].
Proof. vm_compute. reflexivity. Qed.

Example toy_no_export :
  (notebook Toy.lib [Select ["AAAC"]; Recluster] Toy.with_file).1 = Err AttributeError.
Proof. vm_compute. reflexivity. Qed.

Lemma re_cluster_reinvokes_clustering_witness :
  0 < length (heap Toy.one_object) ∧
  re_cluster Toy.lib 0 Toy.one_object = (Ok 0, Toy.after_re_cluster) ∧
  ∃ l, log Toy.after_re_cluster = log Toy.one_object ++ l ∧
       omap clustering_call (call <$> l) = fixed_configuration.
Proof.
  assert (0 < length (heap Toy.one_object)) as Hvalid by (cbn; lia).
  assert (re_cluster Toy.lib 0 Toy.one_object = (Ok 0, Toy.after_re_cluster)) as Hrun
    by (vm_compute; reflexivity).
  split; [exact Hvalid|]. split; [exact Hrun|].
  destruct (re_cluster_reinvokes_clustering Toy.lib 0 0 _ _ Hvalid Hrun)
    as (_ & (l & Hlog & _ & _ & Hconf) & _).
  exists l. split; [exact Hlog | exact Hconf].
Defined.

Lemma marker_columns_hold_normalized_expression_witness :
  main_pipeline Toy.lib Toy.with_file = (Ok 3, Toy.after_main) ∧
  ∃ c, obs (heap Toy.after_main !!! 3) !! "ACE2_raw" = Some (NumCol c).
Proof.
  assert (main_pipeline Toy.lib Toy.with_file = (Ok 3, Toy.after_main)) as Hrun
    by (vm_compute; reflexivity).
  split; [exact Hrun|].
  destruct (marker_columns_hold_normalized_expression Toy.lib 3 _ _ Hrun)
    as (content & a0 & m1 & barcodes & m2 & genes & m3 & mnorm & _ & _ & _ & _ & _ & _ &
        _ & Hall).
  destruct (Hall "ACE2" ltac:(by left)) as (j & c & _ & _ & Hcol & _).
  exists c. exact Hcol.
Defined.

Lemma two_runs_give_identical_outputs_witness :
  agree Toy.with_file Toy.with_file_and_more ∧
  (main_pipeline Toy.lib Toy.with_file).1 =
    (main_pipeline Toy.lib Toy.with_file_and_more).1.
Proof.
  assert (agree Toy.with_file Toy.with_file_and_more) as Hagree
    by (repeat split; vm_compute; reflexivity).
  split; [exact Hagree|].
  exact (proj1 (two_runs_give_identical_outputs Toy.lib _ _ Hagree)).
Defined.

Lemma capture_needs_every_marker_expressed_witness :
  let x := (filter_cells Toy.lib Toy.no_EPCAM_X min_genes_per_cell max_genes_per_cell
              Toy.toy_barcodes).1 in
  let filtered := (filter_genes Toy.lib x (cudf_Series Toy.toy_genes) 1).2 in
  ¬ expressed_in_some_cell Toy.lib x Toy.toy_genes "EPCAM" ∧
  (cell_38 x filtered Toy.one_object).1 = Err IndexError.
Proof.
  intros x filtered.
  destruct (capture_needs_every_marker_expressed Toy.lib Toy.no_EPCAM_X x
              Toy.toy_barcodes Toy.toy_genes Toy.one_object)
    as (_ & Hmissing & _ & Hraises & _).
  assert (¬ expressed_in_some_cell Toy.lib x Toy.toy_genes "EPCAM") as Hno
    by (apply Hmissing; vm_compute; reflexivity).
  split; [exact Hno|].
  apply Hraises. exists "EPCAM". split; [|exact Hno].
  by do 2 right; left.
Defined.

(** C5 as it is stated fails on a run in which the user exports at once:
    the run returns, and its artifacts include the static UMAP plot, which is
    neither the dashboard nor the exported table. *)
Lemma only_dashboard_and_table_counterexample :
  (∃ r, Toy.exported.1 = Ok r) ∧
  ¬ only_dashboard_and_table (call <$> log Toy.exported.2).
Proof.
  split.
  - eexists. vm_compute. reflexivity.
  - unfold only_dashboard_and_table.
    replace (artifacts (call <$> log Toy.exported.2))
      with [E_pl_umap ["louvain"]; E_Visualization_start "localhost"; E_export]
      by (vm_compute; reflexivity).
    intros H. apply Forall_cons in H as [[H|H] _]; discriminate H.
Qed.

Lemma table_iff_exported_and_artifacts_witness :
  (∃ r, notebook Toy.lib [Export] Toy.with_file = (Ok r, Toy.exported.2) ∧ is_Some r.1.2) ∧
  exports [Export] = true ∧
  ∃ df s', cell_69 Toy.lib 3 [Select ["AAAG"]; Export] Toy.after_main = (Ok (Some df), s') ∧
           barcode <$> df = ["AAAG"].
Proof.
  destruct (table_iff_exported_and_artifacts Toy.lib [Export] Toy.with_file)
    as (_ & _ & Hreturns).
  assert (∃ r, notebook Toy.lib [Export] Toy.with_file = (Ok r, Toy.exported.2)) as [r Hrun]
    by (eexists; vm_compute; reflexivity).
  destruct (Hreturns r _ Hrun) as [Hexports Hsome].
  split; [exists r; split; [exact Hrun | exact Hsome]|].
  split; [exact Hexports|].
  destruct (table_iff_exported_and_artifacts Toy.lib [Select ["AAAG"]; Export]
              Toy.with_file) as (_ & Htable & _).
  assert (∃ df s', cell_69 Toy.lib 3 [Select ["AAAG"]; Export] Toy.after_main =
                     (Ok (Some df), s')) as (df & s' & Hrun69)
    by (eexists _, _; vm_compute; reflexivity).
  destruct (Htable 3 _ _ _ Hrun69) as (_ & Hsel & _).
  exists df, s'. split; [exact Hrun69 | exact Hsel].
Defined.

(** * More of the notebook *)

(** ** The input cell, run again *)

Section InputFacts.
Context {val graph : Type} (L : @Libs val graph).
Abbreviation world1 := (@state val graph).

Lemma cell_10_leaves_something (s s1 : world1) :
  cell_10 s = (Ok (), s1) → is_Some (fs s1 !! input_file).
Proof.
  intros H. destruct (cell_10_returns _ _ H) as [_ Hfs]. rewrite Hfs.
  unfold input_content. rewrite cell_10_run in H.
  destruct (fs s !! input_file) as [n|] eqn:Hin; [eauto|].
  destruct (net s !! input_url) as [content|] eqn:Hnet; [by eexists|].
  exfalso. cbn in H.
  destruct (fs s !! data_dir) as [[c|]|]; congruence.
Qed.

(** X1: once the input cell has returned, something exists at the input
    path, so running the cell again only checks for it: nothing is printed,
    made or downloaded, and the world stays as it is but for the log. *)
Theorem input_cell_rerun_only_checks (s s1 : world1) :
  cell_10 s = (Ok (), s1) →
  is_Some (fs s1 !! input_file) ∧
  cell_10 s1 = (Ok (), record (E_os_path_exists input_file) None s1).
Proof.
  intros [n Hn]%cell_10_leaves_something. split; [by eexists|].
  rewrite cell_10_run. by rewrite Hn.
Qed.

End InputFacts.

(** ** What the analysis leaves alone *)

Section FrameFacts.
Context {val graph : Type} (L : @Libs val graph).
Abbreviation world2 := (@state val graph).
Abbreviation M2 := (@M val graph).

Lemma keeps_files_ret {A} (a : A) : keeps_files (val := val) (graph := graph) (ret a).
Proof. by intros s. Qed.

Lemma keeps_files_bind {A B} (m : M2 A) (k : A → M2 B) :
  keeps_files m → (∀ a, keeps_files (k a)) → keeps_files (bind m k).
Proof.
  intros Hm Hk s. unfold bind. destruct (Hm s) as [Hfs Hnet].
  destruct (m s) as [[a|e] s1]; cbn in *; [|done].
  destruct (Hk a s1) as [-> ->]. done.
Qed.

Lemma keeps_files_world_call {A} ev (f : world2 → result A * world2) :
  (∀ s, fs (f s).2 = fs s ∧ net (f s).2 = net s) →
  keeps_files (world_call ev f).
Proof.
  intros Hf s. unfold world_call. specialize (Hf s).
  by destruct (f s) as [r s1].
Qed.

Lemma keeps_files_lib_call {A} ev (r : result A) :
  keeps_files (val := val) (graph := graph) (lib_call ev r).
Proof. by apply keeps_files_world_call. Qed.

Lemma keeps_files_alloc (a : @AnnData val graph) : keeps_files (alloc a).
Proof. by intros s. Qed.

Lemma keeps_files_deref adata : keeps_files (val := val) (graph := graph) (deref adata).
Proof. by intros s. Qed.

Lemma keeps_files_store adata (a : @AnnData val graph) : keeps_files (store adata a).
Proof. by intros s. Qed.

Lemma keeps_files_for_each {A B} (l : list A) (body : A → B → M2 B) :
  (∀ x acc, keeps_files (body x acc)) → ∀ acc, keeps_files (for_each l body acc).
Proof.
  intros Hbody. induction l as [|x l IH]; intros acc; cbn.
  - apply keeps_files_ret.
  - apply keeps_files_bind; [apply Hbody | apply IH].
Qed.

Lemma keeps_files_sc_read path : keeps_files (sc_read L path).
Proof.
  unfold sc_read. apply keeps_files_bind; [|intros; apply keeps_files_alloc].
  by apply keeps_files_world_call.
Qed.

Create HintDb keeps_files.

#[local] Hint Resolve keeps_files_ret keeps_files_lib_call keeps_files_alloc
  keeps_files_deref keeps_files_store keeps_files_sc_read : keeps_files.

Ltac keeps_files_step :=
  lazymatch goal with
  | |- keeps_files (bind _ _) => apply keeps_files_bind; [ | intros ? ]
  | |- keeps_files (for_each _ _ _) => apply keeps_files_for_each; intros ? ?
  | |- keeps_files (let '(_, _) := ?x in _) => destruct x
  | |- keeps_files _ => solve [eauto with keeps_files]
  end.

Ltac unfold_cells :=
  unfold cell_15, cell_16, cell_17, cell_21, cell_23,
    cell_25, cell_28, cell_30, cell_33, cell_35, cell_38, cell_40, cell_42,
    cell_45, cell_48, cell_51, cell_54, cell_56, cell_58,
    sc_pp_highly_variable_genes, getitem_highly_variable, cuml_PCA_fit_transform,
    anndata_AnnData, set_var_names, set_obs_names, set_obs_column, set_obsm,
    sc_pp_neighbors, sc_tl_umap, sc_tl_louvain, py_display, py_print.

Lemma re_cluster_keeps_files adata : keeps_files (re_cluster L adata).
Proof. unfold re_cluster. unfold_cells. repeat keeps_files_step. Qed.

(** X2: after the input cell the pipeline never writes to the file system:
    when it ends, whether it returns or raises, the files are those the input
    cell left, and the network is never changed.  The same holds for
    [re_cluster]: no result of the analysis is ever saved to disk. *)
Theorem analysis_never_writes_files (s : world2) (adata : loc) :
  fs (main_pipeline L s).2 = fs (cell_10 s).2 ∧
  net (main_pipeline L s).2 = net s ∧
  fs (re_cluster L adata s).2 = fs s ∧
  net (re_cluster L adata s).2 = net s.
Proof.
  assert (net (cell_10 s).2 = net s) as Hnet.
  { rewrite cell_10_run.
    destruct (fs s !! input_file); [done|]. cbn.
    destruct (fs s !! data_dir) as [[c|]|]; [done|..];
      by destruct (net s !! input_url). }
  destruct (re_cluster_keeps_files adata s) as [Hfs' Hnet'].
  split_and!; [| |done..].
  - unfold main_pipeline at 1. unfold bind at 1.
    destruct (cell_10 s) as [[[]|e] s1]; [|done].
    match goal with |- fs (?k s1).2 = _ => assert (keeps_files k) as Hk end.
    { unfold_cells. repeat keeps_files_step. }
    apply Hk.
  - rewrite <- Hnet. unfold main_pipeline at 1. unfold bind at 1.
    destruct (cell_10 s) as [[[]|e] s1]; [|done].
    match goal with |- net (?k s1).2 = _ => assert (keeps_files k) as Hk end.
    { unfold_cells. repeat keeps_files_step. }
    apply Hk.
Qed.

Lemma only_annotates_refl adata (s : world2) : only_annotates adata s s.
Proof. by repeat split. Qed.

Lemma only_annotates_trans adata (s1 s2 s3 : world2) :
  only_annotates adata s1 s2 → only_annotates adata s2 s3 →
  only_annotates adata s1 s3.
Proof.
  intros (? & ? & ? & Ho1 & ? & ? & ? & ?) (? & ? & ? & Ho2 & ? & ? & ? & ?).
  split_and!; try congruence.
  intros r Hr. rewrite Ho2, Ho1; done.
Qed.

Lemma only_annotates_record adata ev o (s : world2) :
  only_annotates adata s (record ev o s).
Proof. by repeat split. Qed.

Lemma only_annotates_store adata (a' : @AnnData val graph) (s s' : world2) :
  fs s' = fs s → net s' = net s → heap s' = <[adata := a']> (heap s) →
  X a' = X (heap s !!! adata) →
  obs_names a' = obs_names (heap s !!! adata) →
  var_names a' = var_names (heap s !!! adata) →
  var a' = var (heap s !!! adata) →
  only_annotates adata s s'.
Proof.
  intros Hfs Hnet Hheap HX Hobs Hvar Hv. unfold only_annotates. rewrite Hheap.
  split_and!; [done | done | by rewrite length_insert | | | | |].
  - intros r Hr. by rewrite list_lookup_total_insert_ne.
  - destruct (decide (adata < length (heap s))).
    + by rewrite list_lookup_total_insert_eq.
    + by rewrite list_insert_ge by lia.
  - destruct (decide (adata < length (heap s))).
    + by rewrite list_lookup_total_insert_eq.
    + by rewrite list_insert_ge by lia.
  - destruct (decide (adata < length (heap s))).
    + by rewrite list_lookup_total_insert_eq.
    + by rewrite list_insert_ge by lia.
  - destruct (decide (adata < length (heap s))).
    + by rewrite list_lookup_total_insert_eq.
    + by rewrite list_insert_ge by lia.
Qed.

Lemma annotates_ret {A} adata (a : A) :
  annotates (val := val) (graph := graph) adata (ret a).
Proof. intros s. apply only_annotates_refl. Qed.

Lemma annotates_bind {A B} adata (m : M2 A) (k : A → M2 B) :
  annotates adata m → (∀ a, annotates adata (k a)) → annotates adata (bind m k).
Proof.
  intros Hm Hk s. unfold bind. specialize (Hm s).
  destruct (m s) as [[a|e] s1]; cbn in *; [|done].
  eapply only_annotates_trans; [done | apply Hk].
Qed.

Lemma annotates_lib_call {A} adata ev (r : result A) :
  annotates (val := val) (graph := graph) adata (lib_call ev r).
Proof. intros s. apply only_annotates_record. Qed.

(** An in-place update of the object at [adata] that keeps its matrix,
    names and gene table. *)
Lemma annotates_update adata ev (f : @AnnData val graph → result (@AnnData val graph)) :
  (∀ a a', f a = Ok a' →
     X a' = X a ∧ obs_names a' = obs_names a ∧ var_names a' = var_names a ∧
     var a' = var a) →
  annotates adata
    (let* a := deref adata in
     let* a' := lib_call ev (f a) in
     store adata a').
Proof.
  intros Hf s. unfold bind, deref, lib_call, world_call. cbn.
  destruct (f (heap s !!! adata)) as [a'|e] eqn:Hfa; cbn.
  - destruct (Hf _ _ Hfa) as (? & ? & ? & ?).
    by eapply only_annotates_store.
  - apply only_annotates_record.
Qed.

Lemma set_obsm_annotates adata name m :
  annotates (val := val) (graph := graph) adata (set_obsm adata name m).
Proof.
  apply annotates_update. by intros a a' [_ ->]%with_obsm_Ok.
Qed.

Lemma sc_pp_neighbors_annotates adata p : annotates adata (sc_pp_neighbors L adata p).
Proof.
  apply (annotates_update _ _ (λ a, rbind (neighbors L p a) (λ g, with_neighbors L g a))).
  by intros a a' (g & _ & (_ & _ & ->)%with_neighbors_Ok)%rbind_Ok.
Qed.

Lemma sc_tl_umap_annotates adata p : annotates adata (sc_tl_umap L adata p).
Proof.
  apply (annotates_update _ _
           (λ a, rbind (umap L p a)
                   (λ r, with_obsm "X_umap" r.1 (with_uns "umap" r.2 a)))).
  by intros a a' (m & _ & [_ ->]%with_obsm_Ok)%rbind_Ok.
Qed.

Lemma sc_tl_louvain_annotates adata p : annotates adata (sc_tl_louvain L adata p).
Proof.
  apply (annotates_update _ _
           (λ a, rbind (louvain L p a)
                   (λ r, with_obs_column "louvain" (StrCol r.1)
                           (with_uns "louvain" r.2 a)))).
  by intros a a' (m & _ & [_ ->]%with_obs_column_Ok)%rbind_Ok.
Qed.

Lemma re_cluster_annotates adata : annotates adata (re_cluster L adata).
Proof.
  unfold re_cluster, cuml_PCA_fit_transform.
  apply annotates_bind; [by intros s; apply only_annotates_refl|intros a].
  apply annotates_bind; [apply annotates_lib_call|intros pcs].
  apply annotates_bind; [apply set_obsm_annotates|intros _].
  apply annotates_bind; [apply sc_pp_neighbors_annotates|intros _].
  apply annotates_bind; [apply sc_tl_umap_annotates|intros _].
  apply annotates_bind; [apply sc_tl_louvain_annotates|intros _].
  apply annotates_ret.
Qed.

(** X3: whatever the libraries do and whether it returns or raises,
    [re_cluster] only adds annotations to the object it is given: it creates
    and removes no object, leaves every other object as it is, and keeps the
    matrix, the cell names, the gene names and the gene table of its object;
    files and network are untouched. *)
Theorem re_cluster_only_annotates_its_object (adata : loc) (s : world2) :
  let s' := (re_cluster L adata s).2 in
  fs s' = fs s ∧ net s' = net s ∧
  length (heap s') = length (heap s) ∧
  (∀ r, r ≠ adata → heap s' !!! r = heap s !!! r) ∧
  X (heap s' !!! adata) = X (heap s !!! adata) ∧
  obs_names (heap s' !!! adata) = obs_names (heap s !!! adata) ∧
  var_names (heap s' !!! adata) = var_names (heap s !!! adata) ∧
  var (heap s' !!! adata) = var (heap s !!! adata).
Proof. apply re_cluster_annotates. Qed.

(** X4: [re_cluster] is not undone when it fails.  If PCA returns an embedding
    with one row per cell and the neighbour search then raises [e],
    [re_cluster] raises [e] and the object keeps the new [X_pca], with its
    other annotations as they were. *)
Theorem re_cluster_failure_keeps_partial_results
    (adata : loc) (s : world2) (pcs : @matrix val) (e : exn) :
  let a := heap s !!! adata in
  let a1 := mkAnnData (X a) (obs_names a) (var_names a) (obs a) (var a)
              (<["X_pca" := pcs]> (obsm a)) (uns a) (obsp a) in
  adata < length (heap s) →
  PCA_fit_transform L (PcaParams n_components None) (X a) = Ok pcs →
  length pcs = n_obs a →
  neighbors L (NeighborsParams n_neighbors knn_n_pcs "rapids") a1 = Err e →
  (re_cluster L adata s).1 = Err e ∧
  heap (re_cluster L adata s).2 = <[adata := a1]> (heap s).
Proof.
  intros a a1 Hvalid Hpca Hlen Hnb.
  unfold re_cluster, cuml_PCA_fit_transform, set_obsm, sc_pp_neighbors,
    bind, deref, store, lib_call, world_call. cbn.
  fold a. rewrite Hpca. cbn.
  unfold with_obsm. rewrite decide_True by done. cbn.
  rewrite list_lookup_total_insert_eq by done.
  fold a1. rewrite Hnb. done.
Qed.

(** X5: [re_cluster] repeats cells 51 to 58.  The two PCA calls differ in
    how the result reaches the host: cell 51 asks for a numpy result,
    [re_cluster] copies it with [.get()].  If the PCA of the library computes
    the same embedding whether or not it is asked for a numpy result, then on
    every object and in every state the callback and the four cells end in
    the same way and leave the same objects. *)
Theorem re_cluster_repeats_cluster_cells (adata : loc) (s : world2) :
  (∀ x, PCA_fit_transform L (PcaParams n_components (Some "numpy")) x =
        PCA_fit_transform L (PcaParams n_components None) x) →
  (cluster_cells L adata s).1 = (re_cluster L adata s).1 ∧
  heap (cluster_cells L adata s).2 = heap (re_cluster L adata s).2.
Proof.
  intros Hpca.
  unfold cluster_cells, re_cluster, cell_51, cell_54, cell_56, cell_58,
    cuml_PCA_fit_transform, set_obsm, sc_pp_neighbors, sc_tl_umap, sc_tl_louvain,
    bind, deref, store, lib_call, world_call. cbn.
  rewrite Hpca.
  destruct (PCA_fit_transform L _ _) as [pcs|e]; cbn; [|done].
  destruct (with_obsm "X_pca" pcs _) as [a1|e]; cbn; [|done].
  destruct (rbind (neighbors L _ _) _) as [a2|e]; cbn; [|done].
  destruct (rbind (umap L _ _) _) as [a3|e]; cbn; [|done].
  destruct (rbind (louvain L _ _) _) as [a4|e]; cbn; done.
Qed.

End FrameFacts.

(** ** Assembling the annotated object *)

Section AssembleFacts.
Context {val graph : Type} (L : @Libs val graph).
Abbreviation world3 := (@state val graph).
Abbreviation AnnData3 := (@AnnData val graph).

Lemma main_pipeline_ends_with_cluster_cells :
  main_pipeline L =
    (let* _ := cell_10 in
     let* adata := cell_15 L in
     let* _ := cell_16 adata in
     let* (genes, barcodes, sparse_gpu_array) := cell_17 adata in
     let* (sparse_gpu_array, barcodes) := cell_21 L sparse_gpu_array barcodes in
     let* (sparse_gpu_array, genes) := cell_23 L sparse_gpu_array genes in
     let* _ := cell_25 in
     let* sparse_gpu_array := cell_28 L sparse_gpu_array in
     let* sparse_gpu_array := cell_30 L sparse_gpu_array in
     let* adata := cell_33 L sparse_gpu_array genes in
     let* adata := cell_35 L adata in
     let* raw_marker_expressions := cell_38 sparse_gpu_array genes in
     let* (genes, n_counts, percent_ribo) := cell_40 L adata in
     let* sparse_gpu_array := cell_42 L adata n_counts percent_ribo in
     let* sparse_gpu_array := cell_45 L sparse_gpu_array in
     let* adata := cell_48 L sparse_gpu_array genes barcodes raw_marker_expressions in
     cluster_cells L adata).
Proof. reflexivity. Qed.

Lemma n_vars_AnnData_new (x : @matrix val) :
  n_vars (AnnData_new L x) = n_cols L x.
Proof. unfold n_vars, AnnData_new. cbn. by rewrite length_fmap, length_seq. Qed.

Lemma n_obs_AnnData_new (x : @matrix val) :
  n_obs (AnnData_new L x) = length x.
Proof. unfold n_obs, AnnData_new. cbn. by rewrite length_fmap, length_seq. Qed.

Lemma update_raises ev (f : AnnData3 → result AnnData3) adata (s s' : world3) e :
  (let* a := deref adata in
   let* a' := lib_call ev (f a) in
   store adata a') s = (Err e, s') →
  f (heap s !!! adata) = Err e.
Proof.
  unfold bind, deref, store, lib_call, world_call. cbn.
  destruct (f (heap s !!! adata)) as [a'|e']; [done|]. by intros [= -> _].
Qed.

Lemma with_var_names_Err names (a : AnnData3) e :
  with_var_names names a = Err e → e = ValueError ∧ length names ≠ n_vars a.
Proof. unfold with_var_names. case_decide; [done|]. by intros [= <-]. Qed.

Lemma with_obs_names_Err names (a : AnnData3) e :
  with_obs_names names a = Err e → e = ValueError ∧ length names ≠ n_obs a.
Proof. unfold with_obs_names. case_decide; [done|]. by intros [= <-]. Qed.

Lemma with_obs_column_Err name c (a : AnnData3) e :
  with_obs_column name c a = Err e → e = ValueError ∧ column_length c ≠ n_obs a.
Proof. unfold with_obs_column. case_decide; [done|]. by intros [= <-]. Qed.

Lemma with_obsm_Err name m (a : AnnData3) e :
  with_obsm name m a = Err e → e = ValueError ∧ length m ≠ n_obs a.
Proof. unfold with_obsm. case_decide; [done|]. by intros [= <-]. Qed.

Lemma rbind_Err {A B} (r : result A) (k : A → result B) e :
  rbind r k = Err e → r = Err e ∨ ∃ a, r = Ok a ∧ k a = Err e.
Proof. destruct r; cbn; [eauto | by intros [= ->]; left]. Qed.

(** Attaching the column of one marker: what the step needs and does. *)
Lemma marker_column_returns adata marker (raw : gmap string (list val)) (s s' : world3) :
  set_obs_column adata (marker +:+ "_raw")
    (match raw !! marker with Some c => Ok (NumCol c) | None => Err KeyError end) s
  = (Ok (), s') →
  ∃ c a', raw !! marker = Some c ∧ length c = n_obs (heap s !!! adata) ∧
          a' = mkAnnData (X (heap s !!! adata)) (obs_names (heap s !!! adata))
                 (var_names (heap s !!! adata))
                 (<[marker +:+ "_raw" := NumCol c]> (obs (heap s !!! adata)))
                 (var (heap s !!! adata)) (obsm (heap s !!! adata))
                 (uns (heap s !!! adata)) (obsp (heap s !!! adata)) ∧
          heap s' = <[adata := a']> (heap s) ∧ fs s' = fs s ∧ net s' = net s.
Proof.
  intros (a' & (col & Hcol & [Hlen ->]%with_obs_column_Ok)%rbind_Ok & Hh & Hfs & Hnet)
    %update_returns.
  destruct (raw !! marker) as [c|]; [|done]. injection Hcol as <-.
  exists c. eexists. done.
Qed.

Lemma marker_column_raises adata marker (raw : gmap string (list val)) (s s' : world3) e :
  set_obs_column adata (marker +:+ "_raw")
    (match raw !! marker with Some c => Ok (NumCol c) | None => Err KeyError end) s
  = (Err e, s') →
  (e = KeyError ∧ raw !! marker = None) ∨
  (e = ValueError ∧ ∃ c, raw !! marker = Some c ∧ length c ≠ n_obs (heap s !!! adata)).
Proof.
  intros [H|(col & Hcol & [-> Hlen]%with_obs_column_Err)]%update_raises%rbind_Err.
  - destruct (raw !! marker); [done|]. injection H as <-. by left.
  - destruct (raw !! marker) as [c|]; [|done]. injection Hcol as <-.
    right. eauto.
Qed.

(** A run of cell 48 that returns. *)
Lemma cell_48_returns_full (x : @matrix val) genes barcodes raw adata (s s' : world3) :
  cell_48 L x genes barcodes raw s = (Ok adata, s') →
  attachable L x genes barcodes raw ∧
  adata = length (heap s) ∧
  fs s' = fs s ∧ net s' = net s ∧
  ∃ c1 c2 c3,
    raw !! "ACE2" = Some c1 ∧ raw !! "TMPRSS2" = Some c2 ∧ raw !! "EPCAM" = Some c3 ∧
    heap s' = heap s ++ [assembled x genes (to_pandas barcodes) c1 c2 c3].
Proof.
  unfold cell_48, markers. cbn [for_each]. intros H.
  apply bind_returns in H as (r & s1 & H1 & H).
  assert (fs s1 = fs s ∧ net s1 = net s) as [Hfs1 Hnet1].
  { clear H. unfold anndata_AnnData, bind, lib_call, world_call, alloc in H1.
    cbn in H1. by injection H1 as _ <-. }
  apply anndata_AnnData_returns in H1 as [-> Hh1].
  apply bind_returns in H as ([] & s2 & (a1 & Ha1 & Hh2 & Hfs2 & Hnet2)%update_returns & H).
  apply bind_returns in H as ([] & s3 & (a2 & Ha2 & Hh3 & Hfs3 & Hnet3)%update_returns & H).
  apply bind_returns in H as ([] & s7 & H & [-> ->]%ret_returns).
  apply bind_returns in H as
    ([] & s4 & (c1 & a3 & Hc1 & Hl1 & -> & Hh4 & Hfs4 & Hnet4)%marker_column_returns & H).
  apply bind_returns in H as
    ([] & s5 & (c2 & a4 & Hc2 & Hl2 & -> & Hh5 & Hfs5 & Hnet5)%marker_column_returns & H).
  apply bind_returns in H as
    ([] & s6 & (c3 & a5 & Hc3 & Hl3 & -> & Hh6 & Hfs6 & Hnet6)%marker_column_returns & H).
  apply ret_returns in H as [_ ->].
  rewrite Hh1, heap_app_lookup in Ha1. rewrite Hh1, heap_app_insert in Hh2.
  rewrite Hh2, heap_app_lookup in Ha2. rewrite Hh2, heap_app_insert in Hh3.
  apply with_var_names_Ok in Ha1 as [Hlg ->].
  apply with_obs_names_Ok in Ha2 as [Hlb ->].
  rewrite n_vars_AnnData_new in Hlg.
  unfold n_obs in Hlb. cbn in Hlb. rewrite length_fmap, length_seq in Hlb.
  rewrite Hh3, heap_app_lookup in Hl1, Hh4. rewrite heap_app_insert in Hh4.
  rewrite Hh4, heap_app_lookup in Hl2, Hh5. rewrite heap_app_insert in Hh5.
  rewrite Hh5, heap_app_lookup in Hl3, Hh6. rewrite heap_app_insert in Hh6.
  unfold n_obs in Hl1, Hl2, Hl3. cbn in Hl1, Hl2, Hl3, Hh6.
  split_and!; [| done | congruence | congruence |].
  - split; [done|]. split; [done|]. intros marker Hin.
    repeat (apply elem_of_cons in Hin as [->|Hin]);
      [exists c1 | exists c2 | exists c3 | by apply elem_of_nil in Hin];
      (split; [done | congruence]).
  - by exists c1, c2, c3.
Qed.

(** A run of cell 48 that raises. *)
Lemma cell_48_raises_full (x : @matrix val) genes barcodes raw e (s s' : world3) :
  cell_48 L x genes barcodes raw s = (Err e, s') →
  ¬ attachable L x genes barcodes raw ∧
  (e = ValueError ∨ (e = KeyError ∧ ∃ marker, marker ∈ markers ∧ raw !! marker = None)).
Proof.
  unfold cell_48, markers. cbn [for_each]. intros H.
  apply bind_raises in H as [H|(r & s1 & [-> Hh1]%anndata_AnnData_returns & H)].
  { unfold anndata_AnnData, bind, lib_call, world_call, alloc in H. cbn in H. done. }
  apply bind_raises in H as [H|([] & s2 & (a1 & Ha1 & Hh2 & _)%update_returns & H)].
  { apply update_raises in H. rewrite Hh1, heap_app_lookup in H.
    apply with_var_names_Err in H as [-> Hlen]. rewrite n_vars_AnnData_new in Hlen.
    split; [|by left]. by intros [? _]. }
  rewrite Hh1, heap_app_lookup in Ha1. rewrite Hh1, heap_app_insert in Hh2.
  apply with_var_names_Ok in Ha1 as [Hlg ->].
  apply bind_raises in H as [H|([] & s3 & (a2 & Ha2 & Hh3 & _)%update_returns & H)].
  { apply update_raises in H. rewrite Hh2, heap_app_lookup in H.
    apply with_obs_names_Err in H as [-> Hlen].
    unfold n_obs in Hlen. cbn in Hlen. rewrite length_fmap, length_seq in Hlen.
    split; [|by left]. by intros (_ & ? & _). }
  rewrite Hh2, heap_app_lookup in Ha2. rewrite Hh2, heap_app_insert in Hh3.
  apply with_obs_names_Ok in Ha2 as [Hlb ->].
  unfold n_obs in Hlb. cbn in Hlb. rewrite length_fmap, length_seq in Hlb.
  apply bind_raises in H as [H|([] & s7 & _ & H)]; [|done].
  assert (∀ marker c, marker ∈ ["ACE2"; "TMPRSS2"; "EPCAM"] →
            raw !! marker = Some c → length c ≠ length x →
            ¬ attachable L x genes barcodes raw) as Hbad.
  { intros marker c Hin Hc Hlen (_ & _ & Hall).
    destruct (Hall marker Hin) as (c' & Hc' & Hlen'). congruence. }
  assert (∀ marker, marker ∈ ["ACE2"; "TMPRSS2"; "EPCAM"] → raw !! marker = None →
            ¬ attachable L x genes barcodes raw) as Hmiss.
  { intros marker Hin Hc (_ & _ & Hall).
    destruct (Hall marker Hin) as (c' & Hc' & _). congruence. }
  apply bind_raises in H as
    [H|([] & s4 & (c1 & a3 & Hc1 & Hl1 & -> & Hh4 & _)%marker_column_returns & H)].
  { apply marker_column_raises in H as [[-> Hnone]|(-> & c & Hc & Hlen)].
    - split; [eapply Hmiss; [|done]; by left|]. right. split; [done|].
      exists "ACE2". split; [by left|done].
    - rewrite Hh3, heap_app_lookup in Hlen. unfold n_obs in Hlen. cbn in Hlen.
      split; [|by left]. eapply Hbad; [|done|congruence]. by left. }
  rewrite Hh3, heap_app_lookup in Hh4. rewrite heap_app_insert in Hh4.
  apply bind_raises in H as
    [H|([] & s5 & (c2 & a4 & Hc2 & Hl2 & -> & Hh5 & _)%marker_column_returns & H)].
  { apply marker_column_raises in H as [[-> Hnone]|(-> & c & Hc & Hlen)].
    - split; [eapply Hmiss; [|done]; by right; left|]. right. split; [done|].
      exists "TMPRSS2". split; [by right; left|done].
    - rewrite Hh4, heap_app_lookup in Hlen. unfold n_obs in Hlen. cbn in Hlen.
      split; [|by left]. eapply Hbad; [|done|congruence]. by right; left. }
  rewrite Hh4, heap_app_lookup in Hh5. rewrite heap_app_insert in Hh5.
  apply bind_raises in H as [H|([] & s6 & _ & H)]; [|done].
  apply marker_column_raises in H as [[-> Hnone]|(-> & c & Hc & Hlen)].
  - split; [eapply Hmiss; [|done]; by do 2 right; left|]. right. split; [done|].
    exists "EPCAM". split; [by do 2 right; left|done].
  - rewrite Hh5, heap_app_lookup in Hlen. unfold n_obs in Hlen. cbn in Hlen.
    split; [|by left]. eapply Hbad; [|done|congruence]. by do 2 right; left.
Qed.

(** X6: cell 48 returns exactly when its inputs fit the matrix: one gene name
    per column, one barcode per row, and for each marker a stored column with
    one entry per row.  It then adds one object to the kernel, with that
    matrix, these names and the three [_raw] columns, and changes nothing
    else.  Otherwise it raises [ValueError], or [KeyError] when the column of
    a marker was never stored. *)
Theorem cell_48_returns_iff_inputs_fit
    (x : @matrix val) (genes : list string) (barcodes : Series string)
    (raw : gmap string (list val)) (s : world3) :
  match cell_48 L x genes barcodes raw s with
  | (Ok adata, s') =>
      attachable L x genes barcodes raw ∧
      adata = length (heap s) ∧ fs s' = fs s ∧ net s' = net s ∧
      ∃ c1 c2 c3,
        raw !! "ACE2" = Some c1 ∧ raw !! "TMPRSS2" = Some c2 ∧ raw !! "EPCAM" = Some c3 ∧
        heap s' = heap s ++ [assembled x genes (to_pandas barcodes) c1 c2 c3]
  | (Err e, _) =>
      ¬ attachable L x genes barcodes raw ∧
      (e = ValueError ∨
       (e = KeyError ∧ ∃ marker, marker ∈ markers ∧ raw !! marker = None))
  end.
Proof.
  destruct (cell_48 L x genes barcodes raw s) as [[adata|e] s'] eqn:H.
  - by apply cell_48_returns_full.
  - by eapply cell_48_raises_full.
Qed.

Lemma getcol_length j (x : @matrix val) c : getcol j x = Ok c → length c = length x.
Proof.
  unfold getcol. destruct (mapM _ x) as [c'|] eqn:Hc; [|done].
  intros [= <-]. apply mapM_Some in Hc. symmetry. by eapply Forall2_length.
Qed.

Lemma cell_38_returns_full (x : @matrix val) genes raw (s s' : world3) :
  cell_38 x genes s = (Ok raw, s') →
  fs s' = fs s ∧ net s' = net s ∧ heap s' = heap s ∧
  ∃ j1 c1 j2 c2 j3 c3,
    index0 (series_eq "ACE2" genes) = Ok j1 ∧ getcol j1 x = Ok c1 ∧
    index0 (series_eq "TMPRSS2" genes) = Ok j2 ∧ getcol j2 x = Ok c2 ∧
    index0 (series_eq "EPCAM" genes) = Ok j3 ∧ getcol j3 x = Ok c3 ∧
    raw = <["EPCAM" := c3]> (<["TMPRSS2" := c2]> (<["ACE2" := c1]> ∅)).
Proof.
  unfold cell_38, markers. cbn [for_each]. intros H.
  apply bind_returns in H as (r1 & s1 & H1 & H).
  apply bind_returns in H as (r2 & s2 & H2 & H).
  apply bind_returns in H as (r3 & s3 & H3 & H).
  apply ret_returns in H as [-> ->].
  apply bind_returns in H1 as (j1 & ? & [Hj1 ->]%lib_call_returns & H1).
  apply bind_returns in H1 as (c1 & ? & [Hc1 ->]%lib_call_returns & [-> ->]%ret_returns).
  apply bind_returns in H2 as (j2 & ? & [Hj2 ->]%lib_call_returns & H2).
  apply bind_returns in H2 as (c2 & ? & [Hc2 ->]%lib_call_returns & [-> ->]%ret_returns).
  apply bind_returns in H3 as (j3 & ? & [Hj3 ->]%lib_call_returns & H3).
  apply bind_returns in H3 as (c3 & ? & [Hc3 ->]%lib_call_returns & [-> ->]%ret_returns).
  split_and!; [done..|]. by exists j1, c1, j2, c2, j3, c3.
Qed.

(** X7: when the capture cell returns, the dictionary it built holds a column
    for each of the three markers and for nothing else, each with one entry
    per row of the matrix it was taken from; the cell changed neither the
    files nor the objects of the kernel.  So the lookups of cell 48 in this
    dictionary never raise [KeyError]: whatever cell 48 is then given, it can
    only fail with [ValueError]. *)
Theorem capture_stores_every_marker
    (x : @matrix val) (genes : Series string) (raw : gmap string (list val))
    (s s' : world3) :
  cell_38 x genes s = (Ok raw, s') →
  dom raw = list_to_set markers ∧
  (∀ marker c, raw !! marker = Some c → length c = length x) ∧
  fs s' = fs s ∧ net s' = net s ∧ heap s' = heap s ∧
  (∀ (x' : @matrix val) genes' barcodes (s1 s2 : world3) e,
     cell_48 L x' genes' barcodes raw s1 = (Err e, s2) → e = ValueError).
Proof.
  intros (Hfs & Hnet & Hheap & j1 & c1 & j2 & c2 & j3 & c3 &
          _ & Hc1 & _ & Hc2 & _ & Hc3 & ->)%cell_38_returns_full.
  split_and!; [|  |done..|].
  - rewrite !dom_insert_L, dom_empty_L. unfold markers. cbn. set_solver.
  - intros marker c Hlook.
    apply lookup_insert_Some in Hlook as [[_ <-]|[_ Hlook]]; [by eapply getcol_length|].
    apply lookup_insert_Some in Hlook as [[_ <-]|[_ Hlook]]; [by eapply getcol_length|].
    apply lookup_insert_Some in Hlook as [[_ <-]|[_ Hlook]]; [by eapply getcol_length|].
    done.
  - intros x' genes' barcodes s1 s2 e
      [_ [->|(_ & marker & Hin & Hnone)]]%cell_48_raises_full; [done|].
    exfalso. unfold markers in Hin.
    repeat (apply elem_of_cons in Hin as [->|Hin]); [done..|by apply elem_of_nil in Hin].
Qed.

End AssembleFacts.

(** ** Selecting the highly variable genes *)

Section SelectFacts.
Context {val graph : Type} (L : @Libs val graph).
Abbreviation world4 := (@state val graph).
Abbreviation AnnData4 := (@AnnData val graph).

Lemma with_var_column_Ok name c (a a' : AnnData4) :
  with_var_column name c a = Ok a' →
  column_length c = n_vars a ∧
  a' = mkAnnData (X a) (obs_names a) (var_names a) (obs a)
         (<[name := c]> (var a)) (obsm a) (uns a) (obsp a).
Proof. unfold with_var_column. case_decide; [|done]. by intros [= <-]. Qed.

Lemma select_vars_Ok mask (a a' : AnnData4) :
  select_vars mask a = Ok a' →
  length mask = n_vars a ∧
  a' = mkAnnData (mask_select mask <$> X a) (obs_names a)
         (mask_select mask (var_names a)) (obs a)
         (column_select mask <$> var a) (obsm a) (uns a) (obsp a).
Proof. unfold select_vars. case_decide; [|done]. by intros [= <-]. Qed.

(** Storing the flags and the statistics succeeds exactly when each has one
    entry per gene. *)
Lemma with_highly_variable_outcome hv st (a : AnnData4) :
  match with_highly_variable hv st a with
  | Ok a' => per_gene hv st a ∧ a' = flagged a hv st
  | Err e => e = ValueError ∧ ¬ per_gene hv st a
  end.
Proof.
  unfold with_highly_variable, with_var_column, with_uns, per_gene, flagged, n_vars.
  cbn [rbind column_length var_names X obs_names obs var obsm uns obsp].
  repeat (case_decide; cbn [rbind column_length var_names X obs_names obs var obsm
                             uns obsp]);
    first [ by split_and! | split; [done|]; by intros (? & ? & ? & ?) ].
Qed.

Lemma cell_35_outcome (adata : loc) (s : world4) :
  adata < length (heap s) →
  let a := heap s !!! adata in
  let st := highly_variable_stats L n_top_genes "cell_ranger" a in
  match cell_35 L adata s with
  | (Ok adata', s') =>
      ∃ hv view,
        highly_variable_genes L n_top_genes "cell_ranger" a = Ok hv ∧
        per_gene hv st a ∧
        adata' = length (heap s) ∧
        heap s' = <[adata := flagged a hv st]> (heap s) ++ [view] ∧
        select_vars hv (flagged a hv st) = Ok view ∧
        X view = mask_select hv <$> X a ∧
        var_names view = mask_select hv (var_names a) ∧
        obs_names view = obs_names a ∧
        obs view = obs a ∧ obsm view = obsm a
  | (Err e, s') =>
      log s' =
        log s ++ [Entry (E_highly_variable_genes n_top_genes "cell_ranger") (Some e)] ∧
      heap s' = heap s ∧
      (highly_variable_genes L n_top_genes "cell_ranger" a = Err e ∨
       ∃ hv, highly_variable_genes L n_top_genes "cell_ranger" a = Ok hv ∧
             ¬ per_gene hv st a ∧ e = ValueError)
  end.
Proof.
  intros Hvalid a st.
  unfold cell_35, sc_pp_highly_variable_genes, getitem_highly_variable,
    bind, deref, store, alloc, lib_call, world_call. cbn. fold a. fold st.
  destruct (highly_variable_genes L n_top_genes "cell_ranger" a) as [hv|e] eqn:Hhv;
    cbn [rbind].
  - pose proof (with_highly_variable_outcome hv st a) as Hout.
    destruct (with_highly_variable hv st a) as [a'|e]; cbn.
    + destruct Hout as [Hfit ->].
      rewrite list_lookup_total_insert_eq by done.
      assert (var (flagged a hv st) !! "highly_variable" = Some (BoolCol hv)) as ->.
      { unfold flagged. cbn [var].
        do 3 (rewrite lookup_insert_ne by done). by rewrite lookup_insert_eq. }
      unfold select_vars. rewrite decide_True by apply Hfit. cbn.
      eexists hv, _. split_and!; try done.
      * by rewrite length_insert.
      * unfold select_vars. by rewrite decide_True by apply Hfit.
    + destruct Hout as [-> Hfit]. split_and!; [done..|]. right. by exists hv.
  - split_and!; [done..|]. by left.
Qed.

(** X8: cell 35 can fail only in [sc.pp.highly_variable_genes] (the library
    raises, or what it returns is not one entry per gene, which is a
    [ValueError]); the slicing by the flags that follows never fails, and a
    failing cell changes no object.  When the cell returns, the object it was
    given has got what the call stores (in [var] the flags with the means,
    dispersions and normalised dispersions, under [uns] the flavour), and a
    new object, the last of the kernel, is its slice by the flags: the
    flagged columns of the matrix under the flagged gene names, with the
    same cells. *)
Theorem highly_variable_cell_fails_only_in_the_library (adata : loc) (s : world4) :
  adata < length (heap s) →
  let a := heap s !!! adata in
  let st := highly_variable_stats L n_top_genes "cell_ranger" a in
  match cell_35 L adata s with
  | (Ok adata', s') =>
      ∃ hv view,
        highly_variable_genes L n_top_genes "cell_ranger" a = Ok hv ∧
        per_gene hv st a ∧
        adata' = length (heap s) ∧
        heap s' =
          <[adata := mkAnnData (X a) (obs_names a) (var_names a) (obs a)
               (<["dispersions_norm" := NumCol (hvg_dispersions_norm st)]>
                  (<["dispersions" := NumCol (hvg_dispersions st)]>
                     (<["means" := NumCol (hvg_means st)]>
                        (<["highly_variable" := BoolCol hv]> (var a)))))
               (obsm a) (<["hvg" := hvg_uns st]> (uns a)) (obsp a)]> (heap s)
          ++ [view] ∧
        select_vars hv (flagged a hv st) = Ok view ∧
        X view = mask_select hv <$> X a ∧
        var_names view = mask_select hv (var_names a) ∧
        obs_names view = obs_names a ∧
        obs view = obs a ∧ obsm view = obsm a
  | (Err e, s') =>
      log s' =
        log s ++ [Entry (E_highly_variable_genes n_top_genes "cell_ranger") (Some e)] ∧
      heap s' = heap s ∧
      (highly_variable_genes L n_top_genes "cell_ranger" a = Err e ∨
       ∃ hv, highly_variable_genes L n_top_genes "cell_ranger" a = Ok hv ∧
             ¬ per_gene hv st a ∧ e = ValueError)
  end.
Proof. apply cell_35_outcome. Qed.

End SelectFacts.

(** ** The whole pipeline, step by step *)

Section FlowFacts.
Context {val graph : Type} (L : @Libs val graph).
Abbreviation world5 := (@state val graph).
Abbreviation AnnData5 := (@AnnData val graph).

Lemma heap_lookup_at (h1 h2 : list AnnData5) a i :
  i = length h1 → (h1 ++ a :: h2) !!! i = a.
Proof. intros ->. by apply list_lookup_total_middle. Qed.

Lemma heap_insert_at (h1 h2 : list AnnData5) a b i :
  i = length h1 → <[i := b]> (h1 ++ a :: h2) = h1 ++ b :: h2.
Proof. intros ->. by rewrite insert_app_r_alt, Nat.sub_diag. Qed.

Lemma cell_33_returns (x : @matrix val) genes (adata : loc) (s s' : world5) :
  cell_33 L x genes s = (Ok adata, s') →
  adata = length (heap s) ∧
  length (to_pandas genes) = n_cols L x ∧
  heap s' = heap s ++ [mkAnnData x (pretty <$> seq 0 (length x)) (to_pandas genes) ∅ ∅ ∅ ∅ ∅].
Proof.
  unfold cell_33. intros H.
  apply bind_returns in H as (r & s1 & [-> Hh1]%anndata_AnnData_returns & H).
  apply bind_returns in H as ([] & s2 & (a1 & Ha1 & Hh2 & _)%update_returns & H).
  apply ret_returns in H as [-> ->].
  rewrite Hh1, heap_app_lookup in Ha1. rewrite Hh1, heap_app_insert in Hh2.
  apply with_var_names_Ok in Ha1 as [Hlen ->].
  rewrite n_vars_AnnData_new in Hlen. done.
Qed.

(** X9: cell 33 wraps the matrix in a new object and then names its
    columns.  It raises, with a [ValueError], exactly when the number of gene
    names differs from the number of columns; the object has then been
    created all the same, and keeps the numbered names [anndata.AnnData]
    gave it. *)
Theorem cell_33_names_the_columns (x : @matrix val) (genes : Series string) (s : world5) :
  match cell_33 L x genes s with
  | (Ok adata, s') =>
      length (to_pandas genes) = n_cols L x ∧
      adata = length (heap s) ∧
      heap s' =
        heap s ++ [mkAnnData x (pretty <$> seq 0 (length x)) (to_pandas genes) ∅ ∅ ∅ ∅ ∅]
  | (Err e, s') =>
      e = ValueError ∧
      length (to_pandas genes) ≠ n_cols L x ∧
      heap s' = heap s ++ [AnnData_new L x]
  end.
Proof.
  destruct (cell_33 L x genes s) as [[adata|e] s'] eqn:Hrun.
  - by apply cell_33_returns in Hrun as (-> & ? & ?).
  - revert Hrun.
    unfold cell_33, anndata_AnnData, set_var_names, bind, deref, store, alloc,
      lib_call, world_call. cbn.
    rewrite heap_app_lookup. unfold with_var_names.
    rewrite n_vars_AnnData_new. fold (n_cols L x).
    case_decide as Hlen; cbn; [done|]. by intros [= <- <-].
Qed.

(** Cells 51 to 58 on a valid object, when they all return. *)
Lemma cluster_cells_returns_full (adata r : loc) (s s' : world5) :
  adata < length (heap s) →
  cluster_cells L adata s = (Ok r, s') →
  r = adata ∧
  ∃ pcs g layout um labels lv,
    let a := heap s !!! adata in
    PCA_fit_transform L (PcaParams n_components (Some "numpy")) (X a) = Ok pcs ∧
    length pcs = n_obs a ∧ length layout = n_obs a ∧ length labels = n_obs a ∧
    (length (distances L g) = n_obs a ∧ n_cols L (distances L g) = n_obs a) ∧
    (length (connectivities L g) = n_obs a ∧ n_cols L (connectivities L g) = n_obs a) ∧
    heap s' = <[adata := clustered L a pcs g layout um labels lv]> (heap s).
Proof.
  intros Hvalid. unfold cluster_cells. intros H.
  apply bind_returns in H as ([] & s1 & H51 & H).
  apply bind_returns in H as ([] & s2 & H54 & H).
  apply bind_returns in H as ([] & s3 & H56 & H).
  apply bind_returns in H as ([] & s4 & H58 & H).
  apply ret_returns in H as [-> ->]. split; [done|].
  exact (cluster_cells_return L _ _ _ _ _ _ Hvalid H51 H54 H56 H58).
Qed.

(** Cell 35 on a valid object, when it returns: the flags and the
    statistics are stored on the object itself, and the subset is a new
    object. *)
Lemma cell_35_returns_full (adata adata' : loc) (s s' : world5) :
  adata < length (heap s) →
  cell_35 L adata s = (Ok adata', s') →
  let a := heap s !!! adata in
  let st := highly_variable_stats L n_top_genes "cell_ranger" a in
  ∃ hv view,
    highly_variable_genes L n_top_genes "cell_ranger" a = Ok hv ∧
    per_gene hv st a ∧
    select_vars hv (flagged a hv st) = Ok view ∧
    adata' = length (heap s) ∧
    heap s' = <[adata := flagged a hv st]> (heap s) ++ [view].
Proof.
  intros Hvalid Hrun a st. pose proof (cell_35_outcome L adata s Hvalid) as H.
  cbv zeta in H. rewrite Hrun in H.
  destruct H as (hv & view & Hhv & Hfit & -> & Hh & Hview & _).
  by exists hv, view.
Qed.

(** A run of the pipeline that returns: every value that flows from the
    input file to the clustered object, and the objects the run creates. *)
Lemma main_pipeline_returns_full (adata : loc) (s s' : world5) :
  main_pipeline L s = (Ok adata, s') →
  ∃ content a0 m1 barcodes m2 genes m3 mnorm hv view x_reg x_scaled
      c1 c2 c3 pcs g layout um labels lv,
    input_content s = Some (File content) ∧
    read_h5ad L content = Ok a0 ∧
    filter_cells L (X a0) min_genes_per_cell max_genes_per_cell
      (cudf_Series (obs_names a0)) = (m1, barcodes) ∧
    filter_genes L m1 (cudf_Series (var_names a0)) 1 = (m2, genes) ∧
    normalize_total L (10000 # 1) m2 = Ok m3 ∧
    log1p L m3 = Ok mnorm ∧
    length (to_pandas genes) = n_cols L mnorm ∧
    let anorm := mkAnnData mnorm (pretty <$> seq 0 (length mnorm)) (to_pandas genes)
                   ∅ ∅ ∅ ∅ ∅ in
    let st := highly_variable_stats L n_top_genes "cell_ranger" anorm in
    highly_variable_genes L n_top_genes "cell_ranger" anorm = Ok hv ∧
    per_gene hv st anorm ∧
    select_vars hv (flagged anorm hv st) = Ok view ∧
    let n_counts := vsum L <$> X view in
    let ribo_genes := String.prefix RIBO_GENE_PREFIX <$> var_names view in
    let percent_ribo :=
      zip_with (vdiv L) (vsum L <$> (mask_select ribo_genes <$> X view)) n_counts in
    regress_out L (X view) n_counts percent_ribo = Ok x_reg ∧
    scale L 10 x_reg = Ok x_scaled ∧
    (∃ j1 j2 j3,
       index0 (series_eq "ACE2" genes) = Ok j1 ∧ getcol j1 mnorm = Ok c1 ∧
       index0 (series_eq "TMPRSS2" genes) = Ok j2 ∧ getcol j2 mnorm = Ok c2 ∧
       index0 (series_eq "EPCAM" genes) = Ok j3 ∧ getcol j3 mnorm = Ok c3) ∧
    let built := assembled x_scaled (var_names view) (to_pandas barcodes) c1 c2 c3 in
    attachable L x_scaled (var_names view) barcodes
      (<["EPCAM" := c3]> (<["TMPRSS2" := c2]> (<["ACE2" := c1]> ∅))) ∧
    PCA_fit_transform L (PcaParams n_components (Some "numpy")) x_scaled = Ok pcs ∧
    length pcs = length (to_pandas barcodes) ∧
    length layout = length (to_pandas barcodes) ∧
    length labels = length (to_pandas barcodes) ∧
    (length (distances L g) = length (to_pandas barcodes) ∧
     n_cols L (distances L g) = length (to_pandas barcodes)) ∧
    (length (connectivities L g) = length (to_pandas barcodes) ∧
     n_cols L (connectivities L g) = length (to_pandas barcodes)) ∧
    adata = length (heap s) + 3 ∧
    heap s' = heap s ++ [a0; flagged anorm hv st; view;
                         clustered L built pcs g layout um labels lv].
Proof.
  unfold main_pipeline. intros H.
  apply bind_returns in H as ([] & s1 & [Hh1 Hfs1]%cell_10_returns & H).
  apply bind_returns in H as
    (adata0 & s2 & (content & a0 & Hfile & Hread & -> & Hh2)%sc_read_returns & H).
  apply bind_returns in H as ([] & s3 & [_ ->]%lib_call_returns & H).
  apply bind_returns in H as ([[genes0 barcodes0] x0] & s4 & H17 & H).
  apply bind_returns in H17 as (a0' & ? & [= <- <-] & [= <- <- <- <-]).
  cbn [heap record] in H. rewrite Hh2, heap_app_lookup in H.
  apply bind_returns in H as ([m1 barcodes] & s5 & [H21%Ok_inj ->]%lib_call_returns & H).
  apply bind_returns in H as ([m2 genes] & s6 & [H23%Ok_inj ->]%lib_call_returns & H).
  apply bind_returns in H as ([] & s7 & [_ ->]%lib_call_returns & H).
  apply bind_returns in H as (m3 & s8 & [H28 ->]%lib_call_returns & H).
  apply bind_returns in H as (mnorm & s9 & [H30 ->]%lib_call_returns & H).
  apply bind_returns in H as (adata1 & s10 & (-> & Hgenes & Hh10)%cell_33_returns & H).
  cbn [heap record] in Hh10. rewrite Hh2, Hh1 in Hh10.
  apply bind_returns in H as (adata2 & s11 & H35 & H).
  cbn [heap record] in H35. rewrite Hh2, Hh1 in H35.
  apply cell_35_returns_full in H35 as (hv & view & Hhv & Hfit & Hview & -> & Hh11);
    [|rewrite Hh10, !length_app; cbn; lia].
  rewrite Hh10 in Hhv, Hfit, Hview, Hh11.
  rewrite heap_app_lookup in Hhv, Hfit, Hview, Hh11.
  rewrite heap_app_insert in Hh11.
  apply bind_returns in H as (raw & s12 & H38 & H).
  apply cell_38_returns_full in H38 as
    (_ & _ & Hh12 & j1 & c1 & j2 & c2 & j3 & c3 & ? & ? & ? & ? & ? & ? & ->).
  apply bind_returns in H as ([[genes1 n_counts] percent_ribo] & s13 & H40 & H).
  apply bind_returns in H40 as (a2 & ? & [= <- <-] & [= <- <- <- <-]).
  apply bind_returns in H as (x_reg & s14 & H42 & H).
  apply bind_returns in H42 as (a2' & ? & [= <- <-] & [H42 ->]%lib_call_returns).
  apply bind_returns in H as (x_scaled & s15 & [H45 ->]%lib_call_returns & H).
  cbn [heap record] in H. rewrite Hh12, Hh10, !length_app in *. cbn [length] in *.
  rewrite Hh11 in H42, H.
  rewrite (heap_lookup_at ((heap s ++ [a0]) ++ [_]) [] view) in H42, H
    by (rewrite !length_app; cbn; lia).
  apply bind_returns in H as (adata3 & s16 & H48 & H).
  apply cell_48_returns_full in H48 as
    (Hatt & -> & _ & _ & d1 & d2 & d3 & Hd1 & Hd2 & Hd3 & Hh16).
  cbn [heap record] in Hh16. rewrite Hh12, Hh11 in Hh16.
  rewrite lookup_insert_ne, lookup_insert_ne, lookup_insert_eq in Hd1 by done.
  rewrite lookup_insert_ne, lookup_insert_eq in Hd2 by done.
  rewrite lookup_insert_eq in Hd3.
  injection Hd1 as <-. injection Hd2 as <-. injection Hd3 as <-.
  change (cluster_cells L (length (heap (record (E_scale 10) None
            (record E_regress_out None s12)))) s16 = (Ok adata, s')) in H.
  cbn [heap record] in H. rewrite Hh12, Hh11 in H.
  apply cluster_cells_returns_full in H as
    (-> & pcs & g & layout & um & labels & lv & Hpca & Hl1 & Hl2 & Hl3 & Hd & Hc & Hh);
    [|rewrite Hh16, !length_app; cbn; lia].
  rewrite Hh16 in Hpca, Hl1, Hl2, Hl3, Hd, Hc, Hh.
  rewrite heap_app_lookup in Hpca, Hl1, Hl2, Hl3, Hd, Hc, Hh.
  rewrite heap_app_insert in Hh.
  exists content, a0, m1, barcodes, m2, genes, m3, mnorm, hv, view, x_reg, x_scaled,
    c1, c2, c3, pcs, g, layout, um, labels, lv.
  split; [by rewrite <- Hfs1|].
  do 9 (split; [done|]). do 2 (split; [done|]).
  split; [by exists j1, j2, j3|].
  do 5 (split; [done|]). split; [exact Hd|]. split; [exact Hc|].
  split; [rewrite !length_app; cbn; lia|].
  rewrite Hh. by rewrite <- !app_assoc.
Qed.

Lemma heap_lookup_last3 (h : list AnnData5) a0 a1 a2 a3 :
  (h ++ [a0; a1; a2; a3]) !!! (length h + 3) = a3.
Proof.
  change (h ++ [a0; a1; a2; a3]) with (h ++ [a0; a1; a2] ++ [a3]).
  rewrite app_assoc. apply list_lookup_total_middle.
  rewrite length_app. cbn. lia.
Qed.

(** X10: the matrix of the clustered object is the scaled, regressed-out,
    highly-variable subset of the normalised and log-transformed counts, and
    the two covariates of the regression ([n_counts], [percent_ribo]) are
    computed from that subset, after the normalisation and the selection,
    not from the counts as read.  The gene names of the object are those of
    the subset. *)
Theorem clustered_matrix_flows_from_the_input (adata : loc) (s s' : world5) :
  main_pipeline L s = (Ok adata, s') →
  ∃ content a0 m1 barcodes m2 genes m3 mnorm hv x_reg,
    input_content s = Some (File content) ∧
    read_h5ad L content = Ok a0 ∧
    filter_cells L (X a0) min_genes_per_cell max_genes_per_cell
      (cudf_Series (obs_names a0)) = (m1, barcodes) ∧
    filter_genes L m1 (cudf_Series (var_names a0)) 1 = (m2, genes) ∧
    normalize_total L (10000 # 1) m2 = Ok m3 ∧
    log1p L m3 = Ok mnorm ∧
    highly_variable_genes L n_top_genes "cell_ranger"
      (mkAnnData mnorm (pretty <$> seq 0 (length mnorm)) (to_pandas genes) ∅ ∅ ∅ ∅ ∅)
      = Ok hv ∧
    length hv = length (to_pandas genes) ∧
    let x_hv := mask_select hv <$> mnorm in
    let genes_hv := mask_select hv (to_pandas genes) in
    let n_counts := vsum L <$> x_hv in
    let ribo_genes := String.prefix RIBO_GENE_PREFIX <$> genes_hv in
    let percent_ribo :=
      zip_with (vdiv L) (vsum L <$> (mask_select ribo_genes <$> x_hv)) n_counts in
    regress_out L x_hv n_counts percent_ribo = Ok x_reg ∧
    scale L 10 x_reg = Ok (X (heap s' !!! adata)) ∧
    var_names (heap s' !!! adata) = genes_hv.
Proof.
  intros (content & a0 & m1 & barcodes & m2 & genes & m3 & mnorm & hv & view &
          x_reg & x_scaled & c1 & c2 & c3 & pcs & g & layout & um & labels & lv &
          Hin & Hread & H21 & H23 & H28 & H30 & _ & Hhv & [Hlen _] & Hview & H42 & H45 &
          _ & _ & _ & _ & _ & _ & _ & _ & -> & Hheap)%main_pipeline_returns_full.
  apply select_vars_Ok in Hview as [_ ->]. cbn [X var_names flagged] in H42.
  exists content, a0, m1, barcodes, m2, genes, m3, mnorm, hv, x_reg.
  rewrite Hheap, heap_lookup_last3. by split_and!.
Qed.

(** X11: the object a returning run leaves is well formed and carries
    exactly what the cells put on it: a row per barcode and a name per
    column; in [obs] the three marker columns and the Louvain labels, each
    with an entry per cell; in [obsm] the PCA and UMAP coordinates, each with
    a row per cell; in [obsp] the distances and connectivities of the
    neighbours, each with a row and a column per cell; under [uns] the
    records of the neighbours, of UMAP and of Louvain; and no gene
    annotation, the variability flags having stayed on the object of cell
    33. *)
Theorem clustered_object_is_well_formed (adata : loc) (s s' : world5) :
  main_pipeline L s = (Ok adata, s') →
  let a := heap s' !!! adata in
  length (X a) = n_obs a ∧
  n_cols L (X a) = n_vars a ∧
  dom (obs a) = {[ "ACE2_raw"; "TMPRSS2_raw"; "EPCAM_raw"; "louvain" ]} ∧
  (∀ name c, obs a !! name = Some c → column_length c = n_obs a) ∧
  dom (obsm a) = {[ "X_pca"; "X_umap" ]} ∧
  (∀ name m, obsm a !! name = Some m → length m = n_obs a) ∧
  dom (obsp a) = {[ "distances"; "connectivities" ]} ∧
  (∀ name m, obsp a !! name = Some m → length m = n_obs a ∧ n_cols L m = n_obs a) ∧
  dom (uns a) = {[ "neighbors"; "umap"; "louvain" ]} ∧
  var a = ∅.
Proof.
  intros (content & a0 & m1 & barcodes & m2 & genes & m3 & mnorm & hv & view &
          x_reg & x_scaled & c1 & c2 & c3 & pcs & g & layout & um & labels & lv &
          _ & _ & _ & _ & _ & _ & _ & _ & _ & _ & _ & _ &
          _ & (Hgenes & Hrows & Hraw) & _ & Hl1 & Hl2 & Hl3 & Hd & Hc & -> & Hheap)
    %main_pipeline_returns_full.
  intros a. subst a. rewrite Hheap, heap_lookup_last3.
  unfold clustered, assembled, n_obs, n_vars.
  cbn [X obs_names var_names obs var obsm uns obsp].
  assert (∀ marker c,
            (<["EPCAM" := c3]> (<["TMPRSS2" := c2]> (<["ACE2" := c1]> ∅)) : gmap _ _)
              !! marker = Some c →
            marker ∈ markers → length c = length (to_pandas barcodes)) as Hcol.
  { intros marker c Hlook Hm. destruct (Hraw marker Hm) as (c' & Hlook' & Hlen).
    rewrite Hlook in Hlook'. injection Hlook' as <-. by rewrite Hlen, Hrows. }
  split_and!.
  - done.
  - done.
  - rewrite !dom_insert_L, dom_empty_L. set_solver.
  - intros name c Hlook.
    apply lookup_insert_Some in Hlook as [[_ <-]|[_ Hlook]]; [done|].
    apply lookup_insert_Some in Hlook as [[_ <-]|[_ Hlook]];
      [apply (Hcol "EPCAM"); [done|by do 2 right; left]|].
    apply lookup_insert_Some in Hlook as [[_ <-]|[_ Hlook]];
      [apply (Hcol "TMPRSS2"); [done|by right; left]|].
    apply lookup_insert_Some in Hlook as [[_ <-]|[_ Hlook]];
      [apply (Hcol "ACE2"); [done|by left]|].
    done.
  - rewrite !dom_insert_L, dom_empty_L. set_solver.
  - intros name m Hlook.
    apply lookup_insert_Some in Hlook as [[_ <-]|[_ Hlook]]; [done|].
    apply lookup_insert_Some in Hlook as [[_ <-]|[_ Hlook]]; [done|].
    done.
  - rewrite !dom_insert_L, dom_empty_L. set_solver.
  - intros name m Hlook.
    apply lookup_insert_Some in Hlook as [[_ <-]|[_ Hlook]]; [done|].
    apply lookup_insert_Some in Hlook as [[_ <-]|[_ Hlook]]; [done|].
    done.
  - rewrite !dom_insert_L, dom_empty_L. set_solver.
  - done.
Qed.

(** X12: a returning run creates four objects and touches no other: the
    one read from the file, which stays as read; the one of cell 33, which
    gets the variability flags; its highly variable subset; and the
    clustered one, which is the object the run returns.  The objects that
    were there before are where and what they were. *)
Theorem pipeline_creates_four_objects (adata : loc) (s s' : world5) :
  main_pipeline L s = (Ok adata, s') →
  ∃ content a0 a1 view a,
    heap s' = heap s ++ [a0; a1; view; a] ∧
    adata = length (heap s) + 3 ∧
    input_content s = Some (File content) ∧ read_h5ad L content = Ok a0 ∧
    (∃ hv, var a1 !! "highly_variable" = Some (BoolCol hv) ∧
           select_vars hv a1 = Ok view) ∧
    obs view = ∅ ∧ obsm view = ∅ ∧
    (∀ r, r < length (heap s) → heap s' !!! r = heap s !!! r).
Proof.
  intros (content & a0 & m1 & barcodes & m2 & genes & m3 & mnorm & hv & view &
          x_reg & x_scaled & c1 & c2 & c3 & pcs & g & layout & um & labels & lv &
          Hin & Hread & _ & _ & _ & _ & _ & _ & _ & Hview & _ & _ &
          _ & _ & _ & _ & _ & _ & _ & _ & -> & Hheap)%main_pipeline_returns_full.
  eexists content, a0, _, view, _. split_and!; [exact Hheap|done|done|done| | | |].
  - exists hv. split; [|done].
    unfold flagged. cbn [var].
    do 3 (rewrite lookup_insert_ne by done). by rewrite lookup_insert_eq.
  - by apply select_vars_Ok in Hview as [_ ->].
  - by apply select_vars_Ok in Hview as [_ ->].
  - intros r Hr. rewrite Hheap. by apply lookup_total_app_l.
Qed.

End FlowFacts.

(** ** The selection after the dashboard *)

Section SelectionFacts.
Context {val graph : Type} (L : @Libs val graph).
Abbreviation world7 := (@state val graph).
Abbreviation AnnData7 := (@AnnData val graph).

Lemma index_of_lookup (names : list string) b i :
  index_of names b = Some i → names !! i = Some b.
Proof.
  unfold index_of. destruct (list_find _ names) as [[j x]|] eqn:Hfind; [|done].
  intros [= <-]. by apply list_find_Some in Hfind as (? & -> & _).
Qed.

Lemma index_of_None (names : list string) b :
  index_of names b = None → b ∉ names.
Proof.
  unfold index_of. destruct (list_find _ names) as [[j x]|] eqn:Hfind; [done|].
  intros _ Hin. apply list_find_None in Hfind.
  by apply (proj1 (Forall_forall _ _) Hfind b).
Qed.

Lemma mapM_None_inv {A B} (f : A → option B) (l : list A) :
  mapM f l = None → ∃ x, x ∈ l ∧ f x = None.
Proof.
  induction l as [|x l IH]; [done|]. cbn.
  destruct (f x) as [y|] eqn:Hx; cbn.
  - destruct (mapM f l) as [k|]; [done|]. intros _.
    destruct IH as (z & Hz & Hfz); [done|]. exists z. split; [by right|done].
  - intros _. exists x. split; [by left|done].
Qed.

Lemma length_take_at {A} (idx : list nat) (l : list A) :
  Forall (λ i, i < length l) idx → length (take_at idx l) = length idx.
Proof.
  unfold take_at. induction 1 as [|i idx Hi _ IH]; [done|]. cbn.
  destruct (lookup_lt_is_Some_2 l i Hi) as [x ->]. cbn. by rewrite IH.
Qed.

(** X14: cell 75, [adata[selected_cells.barcode.to_array(), :]], on a well
    formed object.  With a table whose barcodes all name cells of an object
    whose cell names are unique it creates a new object, with one row per
    row of the table, the barcodes of the table as cell names and the genes
    of the original.  Otherwise it raises and creates nothing:
    [AttributeError] when no table was exported, [InvalidIndexError] when the
    cell names of the object are not unique, [KeyError] when they are and a
    barcode names no cell.  The objects that exist are never changed. *)
Theorem selection_is_a_new_object
    (adata : loc) (selected_cells : option DataFrame) (s : world7) :
  length (X (heap s !!! adata)) = n_obs (heap s !!! adata) →
  let a := heap s !!! adata in
  match cell_75 adata selected_cells s with
  | (Ok adata_selected_cells, s') =>
      ∃ df sub,
        selected_cells = Some df ∧
        NoDup (obs_names a) ∧
        adata_selected_cells = length (heap s) ∧
        heap s' = heap s ++ [sub] ∧
        obs_names sub = barcode <$> df ∧
        length (X sub) = length df ∧
        var_names sub = var_names a ∧
        Forall (λ b, b ∈ obs_names a) (barcode <$> df)
  | (Err e, s') =>
      heap s' = heap s ∧
      match selected_cells with
      | None => e = AttributeError
      | Some df =>
          (e = InvalidIndexError ∧ ¬ NoDup (obs_names a)) ∨
          (e = KeyError ∧ NoDup (obs_names a) ∧
           ∃ b, b ∈ barcode <$> df ∧ b ∉ obs_names a)
      end
  end.
Proof.
  intros Hwf a. unfold cell_75, bind, deref, lib_call, world_call, alloc. cbn. fold a.
  destruct selected_cells as [df|]; [|done].
  unfold select_obs. case_decide as Huniq; cbn; [|split; [done|]; by left].
  destruct (mapM (index_of (obs_names a)) (barcode <$> df)) as [idx|] eqn:Hidx; cbn.
  - apply mapM_Some in Hidx.
    eexists df, _. split_and!; [done..| | |].
    + cbn. rewrite length_take_at.
      * apply Forall2_length in Hidx. by rewrite <- Hidx, length_fmap.
      * fold a in Hwf. rewrite Hwf. unfold n_obs.
        clear -Hidx. induction Hidx as [|b i bs idx Hb _ IH]; constructor; [|done].
        apply index_of_lookup in Hb. by eapply lookup_lt_Some.
    + done.
    + clear -Hidx. induction Hidx as [|b i bs idx Hb _ IH]; constructor; [|done].
      apply index_of_lookup in Hb. by eapply list_elem_of_lookup_2.
  - split; [done|]. right. split; [done|]. split; [done|].
    apply mapM_None_inv in Hidx as (b & Hb & Hnone).
    exists b. split; [done|]. by apply index_of_None.
Qed.

End SelectionFacts.

(** ** Further runs on the concrete library *)

(** A matrix without rows keeps its columns: cell 33 names the three columns
    of a 0 x 3 matrix, and refuses two names for them. *)
Example cell_33_without_rows :
  (cell_33 (Toy.lib_of_width 3) [] (cudf_Series ["ACE2"; "TMPRSS2"; "EPCAM"])
     Toy.one_object).1 = Ok 1 ∧
  (cell_33 (Toy.lib_of_width 3) [] (cudf_Series ["ACE2"; "TMPRSS2"])
     Toy.one_object).1 = Err ValueError.
Proof. split; vm_compute; reflexivity. Qed.

(** Cell 48 on a 0 x 3 matrix, with three gene names, no barcode and three
    empty marker columns. *)
Example cell_48_without_rows :
  (cell_48 (Toy.lib_of_width 3) [] ["ACE2"; "TMPRSS2"; "EPCAM"] (cudf_Series [])
     {[ "ACE2" := []; "TMPRSS2" := []; "EPCAM" := [] ]} Toy.one_object).1 = Ok 1.
Proof. vm_compute. reflexivity. Qed.

(** Cells cannot be looked up by name in an object with two cells of the
    same name. *)
Example cell_75_on_duplicate_names :
  (cell_75 0 (Some [mkRow "AAAC" "0"]) Toy.twins).1 = Err InvalidIndexError.
Proof. vm_compute. reflexivity. Qed.

Lemma input_cell_rerun_only_checks_witness :
  cell_10 Toy.without_file = (Ok (), (cell_10 Toy.without_file).2) ∧
  is_Some (fs (cell_10 Toy.without_file).2 !! input_file).
Proof.
  assert (cell_10 Toy.without_file = (Ok (), (cell_10 Toy.without_file).2)) as Hrun
    by (vm_compute; reflexivity).
  split; [exact Hrun|].
  exact (proj1 (input_cell_rerun_only_checks _ _ Hrun)).
Defined.

Lemma re_cluster_failure_keeps_partial_results_witness :
  0 < length (heap Toy.one_object) ∧
  (re_cluster Toy.lib_without_neighbors 0 Toy.one_object).1 =
    Err (LibraryError "out of device memory") ∧
  obsm (heap (re_cluster Toy.lib_without_neighbors 0 Toy.one_object).2 !!! 0) !! "X_pca" =
    Some (take 2 <$> Toy.toy_X).
Proof.
  assert (0 < length (heap Toy.one_object)) as Hvalid by (cbn; lia).
  split; [exact Hvalid|].
  destruct (re_cluster_failure_keeps_partial_results Toy.lib_without_neighbors 0
              Toy.one_object (take 2 <$> Toy.toy_X)
              (LibraryError "out of device memory") Hvalid)
    as [Hraise Hheap]; [vm_compute; reflexivity..|].
  split; [exact Hraise|].
  rewrite Hheap. vm_compute. reflexivity.
Defined.

Lemma re_cluster_repeats_cluster_cells_witness :
  (∀ x, PCA_fit_transform Toy.lib (PcaParams n_components (Some "numpy")) x =
        PCA_fit_transform Toy.lib (PcaParams n_components None) x) ∧
  heap (cluster_cells Toy.lib 0 Toy.one_object).2 =
    heap (re_cluster Toy.lib 0 Toy.one_object).2.
Proof.
  assert (∀ x, PCA_fit_transform Toy.lib (PcaParams n_components (Some "numpy")) x =
               PCA_fit_transform Toy.lib (PcaParams n_components None) x) as Hpca
    by (intros x; reflexivity).
  split; [exact Hpca|].
  exact (proj2 (re_cluster_repeats_cluster_cells Toy.lib 0 Toy.one_object Hpca)).
Defined.

Lemma capture_stores_every_marker_witness :
  ∃ raw, (cell_38 Toy.toy_X (cudf_Series Toy.toy_genes) Toy.one_object).1 = Ok raw ∧
         dom raw = list_to_set markers.
Proof.
  assert (∃ raw s', cell_38 Toy.toy_X (cudf_Series Toy.toy_genes) Toy.one_object =
                      (Ok raw, s')) as (raw & s' & Hrun)
    by (eexists _, _; vm_compute; reflexivity).
  exists raw. split; [by rewrite Hrun|].
  exact (proj1 (capture_stores_every_marker Toy.lib _ _ _ _ _ Hrun)).
Defined.

Lemma highly_variable_cell_fails_only_in_the_library_witness :
  0 < length (heap Toy.one_object) ∧
  ∃ hv, highly_variable_genes Toy.lib n_top_genes "cell_ranger"
          (heap Toy.one_object !!! 0) = Ok hv ∧
        length hv = n_vars (heap Toy.one_object !!! 0).
Proof.
  assert (0 < length (heap Toy.one_object)) as Hvalid by (cbn; lia).
  split; [exact Hvalid|].
  pose proof (highly_variable_cell_fails_only_in_the_library Toy.lib 0
                Toy.one_object Hvalid) as H.
  cbv zeta in H.
  assert (∃ r s', cell_35 Toy.lib 0 Toy.one_object = (Ok r, s')) as (r & s' & Hrun)
    by (eexists _, _; vm_compute; reflexivity).
  rewrite Hrun in H. destruct H as (hv & view & Hhv & Hlen & _).
  exists hv. split; [exact Hhv | exact (proj1 Hlen)].
Defined.

Lemma clustered_matrix_flows_from_the_input_witness :
  main_pipeline Toy.lib Toy.with_file = (Ok 3, Toy.after_main) ∧
  ∃ x_reg, scale Toy.lib 10 x_reg = Ok (X (heap Toy.after_main !!! 3)).
Proof.
  assert (main_pipeline Toy.lib Toy.with_file = (Ok 3, Toy.after_main)) as Hrun
    by (vm_compute; reflexivity).
  split; [exact Hrun|].
  destruct (clustered_matrix_flows_from_the_input Toy.lib 3 _ _ Hrun)
    as (content & a0 & m1 & barcodes & m2 & genes & m3 & mnorm & hv & x_reg &
        _ & _ & _ & _ & _ & _ & _ & _ & _ & Hscale & _).
  exists x_reg. exact Hscale.
Defined.

Lemma clustered_object_is_well_formed_witness :
  main_pipeline Toy.lib Toy.with_file = (Ok 3, Toy.after_main) ∧
  length (X (heap Toy.after_main !!! 3)) = n_obs (heap Toy.after_main !!! 3) ∧
  dom (uns (heap Toy.after_main !!! 3)) = {[ "neighbors"; "umap"; "louvain" ]} ∧
  var (heap Toy.after_main !!! 3) = ∅.
Proof.
  assert (main_pipeline Toy.lib Toy.with_file = (Ok 3, Toy.after_main)) as Hrun
    by (vm_compute; reflexivity).
  split; [exact Hrun|].
  destruct (clustered_object_is_well_formed Toy.lib 3 _ _ Hrun)
    as (Hrows & _ & _ & _ & _ & _ & _ & _ & Huns & Hvar).
  split; [exact Hrows|]. split; [exact Huns | exact Hvar].
Defined.

Lemma pipeline_creates_four_objects_witness :
  main_pipeline Toy.lib Toy.with_file = (Ok 3, Toy.after_main) ∧
  ∃ a0 a1 view a, heap Toy.after_main = heap Toy.with_file ++ [a0; a1; view; a].
Proof.
  assert (main_pipeline Toy.lib Toy.with_file = (Ok 3, Toy.after_main)) as Hrun
    by (vm_compute; reflexivity).
  split; [exact Hrun|].
  destruct (pipeline_creates_four_objects Toy.lib 3 _ _ Hrun)
    as (content & a0 & a1 & view & a & Hheap & _).
  exists a0, a1, view, a. exact Hheap.
Defined.

Lemma selection_is_a_new_object_witness :
  length (X (heap Toy.one_object !!! 0)) = n_obs (heap Toy.one_object !!! 0) ∧
  ∃ sub, heap (cell_75 0 (Some [mkRow "AAAG" "0"]) Toy.one_object).2 =
           heap Toy.one_object ++ [sub] ∧
         obs_names sub = ["AAAG"].
Proof.
  assert (length (X (heap Toy.one_object !!! 0)) = n_obs (heap Toy.one_object !!! 0))
    as Hwf by (vm_compute; reflexivity).
  split; [exact Hwf|].
  pose proof (selection_is_a_new_object 0 (Some [mkRow "AAAG" "0"]) Toy.one_object Hwf)
    as H.
  cbv zeta in H.
  assert (∃ r s', cell_75 0 (Some [mkRow "AAAG" "0"]) Toy.one_object = (Ok r, s'))
    as (r & s' & Hrun) by (eexists _, _; vm_compute; reflexivity).
  rewrite Hrun in H |- *.
  destruct H as (df & sub & Hsel & _ & _ & Hheap & Hnames & _).
  injection Hsel as <-.
  exists sub. split; [exact Hheap | exact Hnames].
Defined.
